(** * Response-model coercion and retry engine of [instructor]

    A shallow embedding of
      - [instructor/patch.py]            ([dump_message], [handle_response_model],
                                          [process_response], [retry_sync],
                                          [retry_async]),
      - [instructor/process_response.py] ([handle_response_model]),
      - [instructor/client_vertexai.py]  ([_create_gemini_json_schema] and the
                                          Vertex request builders),
    together with the properties of the mode handlers and of the retry loop.

    Python objects with identity (the conversation list and the message
    dictionaries inside it) live in an explicit store, so that a handler
    mutating the list it was given is visible to whoever else holds the list. *)

From Stdlib Require Import ZArith Lia.
From stdpp Require Import base option list strings pretty gmap fin_maps.

#[local] Open Scope Z_scope.
#[local] Open Scope string_scope.
#[local] Open Scope list_scope.
#[local] Set Warnings "-register-all".

(** ** Strings *)

(** The line feed that Python writes as a backslash followed by [n]. *)
Definition nl : string := String (Ascii.ascii_of_nat 10) EmptyString.

(** [sep.join(parts)] *)
Definition join (sep : string) (parts : list string) : string :=
  String.concat sep parts.

(** [needle in haystack] on strings, stated as a proposition. *)
Definition contains (haystack needle : string) : Prop :=
  ∃ before after, haystack = before +:+ needle +:+ after.

(** ** Plain data: JSON documents *)

Inductive json :=
| JNull
| JBool (b : bool)
| JInt (z : Z)
| JStr (s : string)
| JArr (items : list json)
| JObj (fields : list (string * json)).

(** [key in obj] and [obj[key]] on an insertion-ordered dictionary. *)
Fixpoint assoc_get {A} (key : string) (kvs : list (string * A)) : option A :=
  match kvs with
  | [] => None
  | (k, v) :: rest => if String.eqb k key then Some v else assoc_get key rest
  end.

Definition assoc_has {A} (key : string) (kvs : list (string * A)) : bool :=
  match assoc_get key kvs with Some _ => true | None => false end.

(** ** The provider's response objects (openai.types.chat) *)

Module Function.
Record t := mk { arguments : string; name : string }.
End Function.

Module ToolCall.
Record t := mk { id : string; function : Function.t; type : string }.
End ToolCall.

Module ChatCompletionMessage.
Record t := mk {
  role : string;
  content : option string;
  function_call : option Function.t;
  tool_calls : option (list ToolCall.t)
}.
End ChatCompletionMessage.

Module Choice.
Record t := mk { message : ChatCompletionMessage.t }.
End Choice.

Module CompletionUsage.
Record t := mk { completion_tokens : Z; prompt_tokens : Z; total_tokens : Z }.

Definition zero : t := mk 0 0 0.

(** The three [+=] of the retry loop; [x or 0] is [x] on an integer. *)
Definition add (total u : t) : t :=
  mk (completion_tokens total + completion_tokens u)
     (prompt_tokens total + prompt_tokens u)
     (total_tokens total + total_tokens u).

Definition sum (us : list t) : t := foldl add zero us.
End CompletionUsage.

(** What the transport hands back: a [ChatCompletion], or something else
    (a stream, a provider-native object) that has neither [usage] nor
    [choices]. *)
Inductive Response :=
| ChatCompletion (choices : list Choice.t) (usage : option CompletionUsage.t)
| OtherResponse (payload : string).

(** ** Exceptions *)

Inductive exn :=
| ValidationError (msg : string)
| JSONDecodeError (msg : string)
| ValueError (msg : string)
| NotImplementedError (msg : string)
| AssertionError (msg : string)
| KeyError (key : string)
| IndexError
| TypeError
| AttributeError (attr : string)
| UnboundLocalError (var : string)
| SystemError (msg : string)
| ProviderError (kind msg : string)
| TerminalRetryError (last_completion : option Response) (cause : exn).

(** Modelled from the spec: [TerminalRetryError] is the wrapper of the spec's
    error taxonomy ("carries the last raw response (or none) and the causing
    exception chain"); its class ([instructor.exceptions]) is not part of the
    sources, and no function below builds one.  [ProviderError] stands for
    whatever the transport raises itself (authentication, rate limit);
    [SystemError] is raised by the store on a dangling reference, which no
    Python program can produce. *)
Definition is_terminal_retry_error (e : exn) : Prop :=
  ∃ last cause, e = TerminalRetryError last cause.

(** [str(e)], as interpolated by the f-strings of the retry loop. *)
Fixpoint str_exn (e : exn) : string :=
  match e with
  | ValidationError msg | JSONDecodeError msg | ValueError msg
  | NotImplementedError msg | AssertionError msg | SystemError msg => msg
  | KeyError key => "'" +:+ key +:+ "'"
  | IndexError => "list index out of range"
  | TypeError => "'NoneType' object is not subscriptable"
  | AttributeError attr => attr
  | UnboundLocalError var => var
  | ProviderError _ msg => msg
  | TerminalRetryError _ cause => str_exn cause
  end.

(** [except (ValidationError, JSONDecodeError)] *)
Definition retriable (e : exn) : bool :=
  match e with
  | ValidationError _ | JSONDecodeError _ => true
  | _ => false
  end.

Inductive result (A : Type) :=
| Ok (a : A)
| Raise (e : exn).
Arguments Ok {A} a.
Arguments Raise {A} e.

#[global] Instance result_ret : MRet result := λ A a, Ok a.
#[global] Instance result_bind : MBind result := λ A B f r,
  match r with
  | Ok a => f a
  | Raise e => Raise e
  end.

(** [obj[key]] on plain data. *)
Definition subscript (obj : json) (key : string) : result json :=
  match obj with
  | JObj fields =>
      match assoc_get key fields with
      | Some v => Ok v
      | None => Raise (KeyError key)
      end
  | _ => Raise TypeError
  end.

(** ** Conversation messages (the dictionaries of [kwargs["messages"]]) *)

Module Msg.
Record t := mk {
  role : string;
  content : string;
  tool_call_id : option string;
  name : option string;
  tool_calls : option json
}.

(** [{"role": r, "content": c}] *)
Definition plain (r c : string) : t := mk r c None None None.

(** [m["content"] += s] *)
Definition add_content (s : string) (m : t) : t :=
  mk (role m) (content m +:+ s) (tool_call_id m) (name m) (tool_calls m).
End Msg.

(** ** Modes *)

Inductive Mode :=
| FUNCTIONS | PARALLEL_TOOLS | TOOLS | MISTRAL_TOOLS
| JSON | MD_JSON | JSON_SCHEMA
| ANTHROPIC_TOOLS | ANTHROPIC_JSON
| COHERE_TOOLS
| VERTEXAI_TOOLS | VERTEXAI_JSON
| GEMINI_JSON.

(** [str(mode)] *)
Definition Mode_str (mode : Mode) : string :=
  match mode with
  | FUNCTIONS => "Mode.FUNCTIONS" | PARALLEL_TOOLS => "Mode.PARALLEL_TOOLS"
  | TOOLS => "Mode.TOOLS" | MISTRAL_TOOLS => "Mode.MISTRAL_TOOLS"
  | JSON => "Mode.JSON" | MD_JSON => "Mode.MD_JSON"
  | JSON_SCHEMA => "Mode.JSON_SCHEMA"
  | ANTHROPIC_TOOLS => "Mode.ANTHROPIC_TOOLS"
  | ANTHROPIC_JSON => "Mode.ANTHROPIC_JSON"
  | COHERE_TOOLS => "Mode.COHERE_TOOLS"
  | VERTEXAI_TOOLS => "Mode.VERTEXAI_TOOLS"
  | VERTEXAI_JSON => "Mode.VERTEXAI_JSON"
  | GEMINI_JSON => "Mode.GEMINI_JSON"
  end.

#[global] Instance Mode_eq_dec : EqDecision Mode.
Proof. solve_decision. Defined.

(** ** Request parameters *)

Abbreviation loc := positive.

(** google.generativeai.types *)
Inductive HarmCategory :=
| HARM_CATEGORY_UNSPECIFIED
| HARM_CATEGORY_HARASSMENT
| HARM_CATEGORY_HATE_SPEECH
| HARM_CATEGORY_SEXUALLY_EXPLICIT
| HARM_CATEGORY_DANGEROUS_CONTENT.

Inductive HarmBlockThreshold :=
| HARM_BLOCK_THRESHOLD_UNSPECIFIED
| BLOCK_LOW_AND_ABOVE
| BLOCK_MEDIUM_AND_ABOVE
| BLOCK_ONLY_HIGH
| BLOCK_NONE.

#[global] Instance HarmCategory_eq_dec : EqDecision HarmCategory.
Proof. solve_decision. Defined.

Definition HarmCategory_code (c : HarmCategory) : positive :=
  match c with
  | HARM_CATEGORY_UNSPECIFIED => 1
  | HARM_CATEGORY_HARASSMENT => 2
  | HARM_CATEGORY_HATE_SPEECH => 3
  | HARM_CATEGORY_SEXUALLY_EXPLICIT => 4
  | HARM_CATEGORY_DANGEROUS_CONTENT => 5
  end%positive.

Definition HarmCategory_of_code (p : positive) : option HarmCategory :=
  match p with
  | 1 => Some HARM_CATEGORY_UNSPECIFIED
  | 2 => Some HARM_CATEGORY_HARASSMENT
  | 3 => Some HARM_CATEGORY_HATE_SPEECH
  | 4 => Some HARM_CATEGORY_SEXUALLY_EXPLICIT
  | 5 => Some HARM_CATEGORY_DANGEROUS_CONTENT
  | _ => None
  end%positive.

#[global] Program Instance HarmCategory_countable : Countable HarmCategory :=
  {| encode := HarmCategory_code; decode := HarmCategory_of_code |}.
Next Obligation. by intros []. Qed.

(** A value stored under a key of [kwargs]. [VList] is a list of
    messages, held by reference; everything else the handlers touch is
    replaced, never mutated in place, and is held by value: plain data
    ([VJson]), sequences and dictionaries of values, the safety thresholds
    of Gemini keyed by harm category, and objects of a provider SDK. *)
Inductive value :=
| VNone
| VBool (b : bool)
| VInt (z : Z)
| VFloat (literal : string)
| VStr (s : string)
| VJson (j : json)
| VList (l : loc)
| VSeq (items : list value)
| VDict (d : gmap string value)
| VSafety (s : gmap HarmCategory HarmBlockThreshold)
| VObject (class : string) (args : list (string * value)).

(** ** The store *)

(** Ghost record of what the retry loop did with the outside world: every
    invocation of the transport with its outcome, and every response passed
    on to the parser. *)
Inductive event :=
| Called (outcome : result Response)
| Handed (r : Response).

Record world := World {
  lists : gmap loc (list loc);
  dicts : gmap loc Msg.t;
  events : list event
}.

Definition empty_world : world := World ∅ ∅ [].

(** Computations that read and write the store and may raise. An exception
    leaves the store as it is at the point of the raise. *)
Definition M (A : Type) : Type := world → result A * world.

#[global] Instance M_ret : MRet M := λ A a w, (Ok a, w).
#[global] Instance M_bind : MBind M := λ A B f m w,
  match m w with
  | (Ok a, w') => f a w'
  | (Raise e, w') => (Raise e, w')
  end.

#[global] Instance M_fmap : FMap M := λ A B f m w,
  match m w with
  | (Ok a, w') => (Ok (f a), w')
  | (Raise e, w') => (Raise e, w')
  end.

Definition raise {A} (e : exn) : M A := λ w, (Raise e, w).

Definition lift {A} (r : result A) : M A := λ w, (r, w).

(** [try: body except (ValidationError, JSONDecodeError) as e: handler e] *)
Definition try_except {A} (body : M A) (handler : exn → M A) : M A := λ w,
  match body w with
  | (Ok a, w') => (Ok a, w')
  | (Raise e, w') => if retriable e then handler e w' else (Raise e, w')
  end.

Definition log (ev : event) : M unit := λ w,
  (Ok (), World (lists w) (dicts w) (events w ++ [ev])).

(** A new dictionary object / a new list object. *)
Definition new_dict (m : Msg.t) : M loc := λ w,
  let d := fresh (dom (dicts w)) in
  (Ok d, World (lists w) (<[d:=m]> (dicts w)) (events w)).

Definition new_list (items : list loc) : M loc := λ w,
  let l := fresh (dom (lists w)) in
  (Ok l, World (<[l:=items]> (lists w)) (dicts w) (events w)).

Definition read_list (l : loc) : M (list loc) := λ w,
  match lists w !! l with
  | Some items => (Ok items, w)
  | None => (Raise (SystemError "dangling list"), w)
  end.

Definition write_list (l : loc) (items : list loc) : M unit := λ w,
  (Ok (), World (<[l:=items]> (lists w)) (dicts w) (events w)).

Definition read_dict (d : loc) : M Msg.t := λ w,
  match dicts w !! d with
  | Some m => (Ok m, w)
  | None => (Raise (SystemError "dangling dict"), w)
  end.

Definition write_dict (d : loc) (m : Msg.t) : M unit := λ w,
  (Ok (), World (lists w) (<[d:=m]> (dicts w)) (events w)).

(** [lst.append(msg)] and [lst.insert(0, msg)] with a dictionary literal. *)
Definition list_append (l : loc) (msg : Msg.t) : M unit :=
  items ← read_list l;
  d ← new_dict msg;
  write_list l (items ++ [d]).

Definition list_insert0 (l : loc) (msg : Msg.t) : M unit :=
  items ← read_list l;
  d ← new_dict msg;
  write_list l (d :: items).

(** [lst[0]] *)
Definition list_first (l : loc) : M loc :=
  items ← read_list l;
  match items with
  | [] => raise IndexError
  | d :: _ => mret d
  end.

(** [[m for m in lst]] as values: the conversation a reader of the list
    sees. *)
Fixpoint read_dicts (ds : list loc) : M (list Msg.t) :=
  match ds with
  | [] => mret []
  | d :: rest => m ← read_dict d; ms ← read_dicts rest; mret (m :: ms)
  end.

Definition read_messages (l : loc) : M (list Msg.t) :=
  items ← read_list l; read_dicts items.

(** The same view, read off a store directly ([None] on a dangling
    reference). *)
Definition view (w : world) (l : loc) : option (list Msg.t) :=
  items ← lists w !! l; mapM (λ d, dicts w !! d) items.

(** A caller's list of messages, laid out in an empty store: the list
    object is at location 1. *)
Definition world_of (ms : list Msg.t) : world :=
  match foldl (λ '(ds, w) m,
                 match new_dict m w with
                 | (Ok d, w') => (ds ++ [d], w')
                 | (Raise _, w') => (ds, w')
                 end) ([], empty_world) ms with
  | (ds, w) => (new_list ds w).2
  end.

(** ** Python truthiness *)
Definition truthy (v : value) : M bool :=
  match v with
  | VNone => mret false
  | VBool b => mret b
  | VInt z => mret (negb (Z.eqb z 0))
  | VFloat lit => mret (negb (String.eqb lit "0.0"))
  | VStr s => mret (negb (String.eqb s ""))
  | VJson j =>
      mret match j with
           | JNull | JBool false | JInt 0 | JStr "" | JArr [] | JObj [] => false
           | _ => true
           end
  | VList l => items ← read_list l; mret (negb (Nat.eqb (length items) 0))
  | VSeq items => mret (negb (Nat.eqb (length items) 0))
  | VDict d => mret (negb (Nat.eqb (size d) 0))
  | VSafety s => mret (negb (Nat.eqb (size s) 0))
  | VObject _ _ => mret true
  end.

(** ** Dictionary access on [kwargs] *)

(** [kwargs[key]] *)
Definition getitem (kwargs : gmap string value) (key : string) : M value :=
  match kwargs !! key with
  | Some v => mret v
  | None => raise (KeyError key)
  end.

(** [kwargs.get(key, dflt)] *)
Definition get_or (kwargs : gmap string value) (key : string) (dflt : value)
  : value :=
  default dflt (kwargs !! key).

(** The list behind a value on which a list method is called, or which is
    indexed or iterated. *)
Definition as_list (method : string) (v : value) : M loc :=
  match v with
  | VList l => mret l
  | _ => raise (AttributeError method)
  end.

Definition as_indexable (v : value) : M loc :=
  match v with
  | VList l => mret l
  | _ => raise TypeError
  end.

(** [kwargs["messages"][0]["role"]]: the dictionary and its content. *)
Definition first_of_messages (kwargs : gmap string value) : M (loc * Msg.t) :=
  v ← getitem kwargs "messages";
  l ← as_indexable v;
  d ← list_first l;
  m ← read_dict d;
  mret (d, m).

(** A new list of new dictionaries. *)
Fixpoint new_dicts (ms : list Msg.t) : M (list loc) :=
  match ms with
  | [] => mret []
  | m :: rest => d ← new_dict m; ds ← new_dicts rest; mret (d :: ds)
  end.

Definition new_messages (ms : list Msg.t) : M loc :=
  ds ← new_dicts ms; new_list ds.

(** [[m for m in lst if keep(m["role"])]]: the dictionaries themselves,
    not copies. *)
Fixpoint filter_by_role (keep : string → bool) (ds : list loc) : M (list loc) :=
  match ds with
  | [] => mret []
  | d :: rest =>
      m ← read_dict d;
      kept ← filter_by_role keep rest;
      mret (if keep (Msg.role m) then d :: kept else kept)
  end.

(** [kwargs["messages"].append(msg)]: the subscript, then the method, then
    the call. *)
Definition append_message (kwargs : gmap string value) (msg : M Msg.t)
  : M unit :=
  v ← getitem kwargs "messages";
  l ← as_list "append" v;
  m ← msg;
  list_append l m.

(** ** The schema adapter, as far as the handlers and the loop use it *)

(** A parsed instance of the target schema; [tasks] is present on the
    instances of an iterable model. *)
Record Instance := { payload : json; tasks : option (list json) }.

(** The response model after wrapping: the declarations derived from the
    caller's type and its two parsers. [streamable] is
    [issubclass(response_model, (IterableBase, PartialBase))]. *)
Record ResponseModel := {
  __name__ : string;
  __doc__ : option string;
  openai_schema : json;
  anthropic_schema : json;
  model_json_schema : json;
  streamable : bool;
  isinstance_IterableBase : bool;
  isinstance_ParallelBase : bool;
  from_response :
    Response → option json → option bool → Mode → result Instance;
  from_streaming_response : Response → Mode → result (list json)
}.

(** What the standard library, pydantic and the modules of the package
    that are outside the sources compute. *)
Class Runtime := {
  (** what a caller may pass as [response_model] *)
  TypeHint : Type;
  (** [json.dumps(x)], [json.dumps(x, indent=2)], [str(x)] *)
  json_dumps : json → string;
  json_dumps_indent2 : json → string;
  py_str : json → string;
  (** [textwrap.dedent] *)
  dedent : string → string;
  (** [ModelAdapter[t]] for a simple type, [create_model] for a typed
      dictionary, [t] otherwise *)
  adapt_simple : TypeHint → TypeHint;
  (** [IterableModel] on an [Iterable[...]] hint, then [openai_schema]
      unless the class is an [OpenAISchema] already *)
  as_openai_schema : TypeHint → ResponseModel;
  handle_parallel_model : TypeHint → json;
  ParallelModel : TypeHint → ResponseModel;
  (** [instructor.utils.transform_to_gemini_prompt] *)
  transform_to_gemini_prompt : list Msg.t → value;
  (** [jsonref.replace_refs] *)
  replace_refs : json → json;
  (** the text put between the contents of two merged messages *)
  merge_separator : string
}.

(** The transport: the patched [create], applied to the request parameters
    in the current store. *)
Definition Transport : Type := gmap string value → world → result Response.

Definition call (func : Transport) (kwargs : gmap string value) : M Response :=
  λ w, let r := func kwargs w in
       (r, World (lists w) (dicts w) (events w ++ [Called r])).

(** * instructor/patch.py *)

Module Patch.
Section patch.
Context `{Runtime}.

Definition dump_function (f : Function.t) : json :=
  JObj [("arguments", JStr (Function.arguments f));
        ("name", JStr (Function.name f))].

(** [message.model_dump()["tool_calls"]] *)
Definition dump_tool_calls (tcs : list ToolCall.t) : json :=
  JArr ((λ tc, JObj [("id", JStr (ToolCall.id tc));
                     ("function", dump_function (ToolCall.function tc));
                     ("type", JStr (ToolCall.type tc))]) <$> tcs).

Definition dump_message (message : ChatCompletionMessage.t) : Msg.t :=
  let ret :=
    Msg.plain (ChatCompletionMessage.role message)
              (default "" (ChatCompletionMessage.content message)) in
  let ret :=
    match ChatCompletionMessage.tool_calls message with
    | Some tcs =>
        let ret := Msg.mk (Msg.role ret) (Msg.content ret)
                          (Msg.tool_call_id ret) (Msg.name ret)
                          (Some (dump_tool_calls tcs)) in
        Msg.add_content (json_dumps (dump_tool_calls tcs)) ret
    | None => ret
    end in
  match ChatCompletionMessage.function_call message with
  | Some fc => Msg.add_content (json_dumps (dump_function fc)) ret
  | None => ret
  end.

(** The handler's [assert new_kwargs.get("stream", False) is False]. *)
Definition stream_is_False (new_kwargs : gmap string value) : bool :=
  match get_or new_kwargs "stream" (VBool false) with
  | VBool false => true
  | _ => false
  end.

(** The instruction of the JSON modes, an f-string around the [properties]
    of the schema, extended by its [$defs] when there are any. *)
Definition json_instruction (response_model : ResponseModel) : result string :=
  properties ← subscript (model_json_schema response_model) "properties";
  let message :=
    nl +:+ "                As a genius expert, your task is to understand the content and provide "
       +:+ nl
       +:+ "                the parsed objects in json that match the following json_schema:"
       +:+ nl +:+ nl
       +:+ "                " +:+ py_str properties +:+ nl
       +:+ "                " in
  match model_json_schema response_model with
  | JObj fields =>
      match assoc_get "$defs" fields with
      | Some defs =>
          mret (message +:+ nl
                  +:+ "Here are some more definitions to adhere too:" +:+ nl
                  +:+ py_str defs)
      | None => mret message
      end
  | _ => Raise TypeError
  end.

Definition handle_response_model (response_model : option TypeHint)
    (kwargs : gmap string value) (mode : Mode)
  : M (option ResponseModel * gmap string value) :=
  let new_kwargs := kwargs in
  match response_model with
  | None => mret (None, new_kwargs)
  | Some response_model =>
      if bool_decide (mode = PARALLEL_TOOLS) then
        if stream_is_False new_kwargs then
          let new_kwargs :=
            <["tools" := VJson (handle_parallel_model response_model)]>
              new_kwargs in
          let new_kwargs := <["tool_choice" := VStr "auto"]> new_kwargs in
          mret (Some (ParallelModel response_model), new_kwargs)
        else
          raise (AssertionError
                   "stream=True is not supported when using PARALLEL_TOOLS mode")
      else
        let response_model := as_openai_schema response_model in
        stream ← truthy (get_or new_kwargs "stream" (VBool false));
        if (stream : bool) && negb (streamable response_model) then
          raise (NotImplementedError
                   "stream=True is not supported when using response_model parameter for non-iterables")
        else
          match mode with
          | FUNCTIONS =>
              let new_kwargs :=
                <["functions" := VJson (JArr [openai_schema response_model])]>
                  new_kwargs in
              name ← lift (subscript (openai_schema response_model) "name");
              let new_kwargs :=
                <["function_call" := VJson (JObj [("name", name)])]>
                  new_kwargs in
              mret (Some response_model, new_kwargs)
          | TOOLS =>
              let new_kwargs :=
                <["tools" :=
                    VJson (JArr [JObj [("type", JStr "function");
                                       ("function",
                                        openai_schema response_model)]])]>
                  new_kwargs in
              name ← lift (subscript (openai_schema response_model) "name");
              let new_kwargs :=
                <["tool_choice" :=
                    VJson (JObj [("type", JStr "function");
                                 ("function", JObj [("name", name)])])]>
                  new_kwargs in
              mret (Some response_model, new_kwargs)
          | JSON | MD_JSON | JSON_SCHEMA =>
              message ← lift (json_instruction response_model);
              new_kwargs ←
                match mode with
                | JSON =>
                    mret (<["response_format" :=
                              VJson (JObj [("type", JStr "json_object")])]>
                            new_kwargs)
                | JSON_SCHEMA =>
                    mret (<["response_format" :=
                              VJson (JObj [("type", JStr "json_object");
                                           ("schema",
                                            model_json_schema response_model)])]>
                            new_kwargs)
                | _ =>
                    append_message new_kwargs
                      (mret (Msg.plain "assistant"
                               ("Here is the perfectly correctly formatted JSON"
                                  +:+ nl +:+ "```json")));;
                    mret (<["stop" := VStr "```"]> new_kwargs)
                end;
              '(_, first) ← first_of_messages new_kwargs;
              (if negb (String.eqb (Msg.role first) "system") then
                 v ← getitem new_kwargs "messages";
                 l ← as_list "insert" v;
                 list_insert0 l (Msg.plain "system" message)
               else mret ());;
              '(d, first) ← first_of_messages new_kwargs;
              (if String.eqb (Msg.role first) "system" then
                 write_dict d (Msg.add_content (nl +:+ nl +:+ message) first)
               else mret ());;
              mret (Some response_model, new_kwargs)
          | _ => raise (ValueError ("Invalid patch mode: " +:+ Mode_str mode))
          end
  end.

(** What a logical call returns. *)
Inductive retval :=
| RawResponse (r : Response)
| Streaming (snapshots : list json)
| Tasks (ts : list json)
| Bare (model : Instance)
| WithRaw (model : Instance) (_raw_response : Response).

Definition process_response (response : Response)
    (response_model : option ResponseModel) (stream : value)
    (validation_context : option json) (strict : option bool) (mode : Mode)
  : M retval :=
  match response_model with
  | None => mret (RawResponse response)
  | Some rm =>
      streaming ← (if streamable rm then truthy stream else mret false);
      if (streaming : bool) then
        model ← lift (from_streaming_response rm response mode);
        mret (Streaming model)
      else
        model ← lift (from_response rm response validation_context strict mode);
        if isinstance_IterableBase rm then
          match tasks model with
          | Some ts => mret (Tasks ts)
          | None => raise (AttributeError "tasks")
          end
        else if isinstance_ParallelBase rm then mret (Bare model)
        else mret (WithRaw model response)
  end.

(** [response.choices[0].message] *)
Definition first_message (response : Response) : M ChatCompletionMessage.t :=
  match response with
  | OtherResponse _ => raise (AttributeError "choices")
  | ChatCompletion [] _ => raise IndexError
  | ChatCompletion (c :: _) _ => mret (Choice.message c)
  end.

(** [response.choices[0].message.tool_calls[0]] *)
Definition first_tool_call (response : Response) : M ToolCall.t :=
  message ← first_message response;
  match ChatCompletionMessage.tool_calls message with
  | None => raise TypeError
  | Some [] => raise IndexError
  | Some (tc :: _) => mret tc
  end.

(** The usage bookkeeping of one attempt: the running total after the
    attempt and the response as it is passed on. *)
Definition accumulate (total_usage : CompletionUsage.t) (response : Response)
  : CompletionUsage.t * Response :=
  match response with
  | ChatCompletion choices (Some usage) =>
      let total_usage := CompletionUsage.add total_usage usage in
      (total_usage, ChatCompletion choices (Some total_usage))
  | _ => (total_usage, response)
  end.

(** The two loops differ in the text of their corrective turns only. *)
Record wording := {
  tool_content : exn → string;
  user_content : exn → string
}.

Definition sync_wording : wording := {|
  tool_content e :=
    "Recall the function correctly, fix the errors and exceptions found"
      +:+ nl +:+ str_exn e;
  user_content e :=
    "Recall the function correctly, fix the errors and exceptions found"
      +:+ nl +:+ str_exn e
|}.

Definition async_wording : wording := {|
  tool_content e := "failure";
  user_content e :=
    "Recall the function correctly, fix the errors, exceptions found"
      +:+ nl +:+ str_exn e
|}.

Section retry.
Variable text : wording.
Variable func : Transport.
Variable response_model : option ResponseModel.
Variable validation_context : option json.
Variable kwargs : gmap string value.
Variable max_retries : Z.
Variable strict : option bool.
Variable mode : Mode.

(** The body of the [except] clause up to [retries += 1]. [response] is
    the local variable, unbound when the first call of the transport
    raised. *)
Definition reask (response : option Response) (e : exn) : M unit :=
  response ← match response with
             | Some r => mret r
             | None => raise (UnboundLocalError "response")
             end;
  (if bool_decide (mode = TOOLS) then
     append_message kwargs
       (tc ← first_tool_call response;
        mret (Msg.mk "tool" (tool_content text e)
                     (Some (ToolCall.id tc))
                     (Some (Function.name (ToolCall.function tc)))
                     None))
   else mret ());;
  append_message kwargs (dump_message <$> first_message response);;
  append_message kwargs (mret (Msg.plain "user" (user_content text e)));;
  (if bool_decide (mode = MD_JSON) then
     append_message kwargs (mret (Msg.plain "assistant" "```json"))
   else mret ()).

(** How the function ends when it does not raise. *)
Inductive exit :=
| Returned (v : retval)
| ReturnedNone
| OutOfFuel.

(** [try: m, continue with k; except (ValidationError, JSONDecodeError) as
    e: handler e]. *)
Definition catching {A B} (m : M A) (handler : exn → M B) (k : A → M B)
  : M B := λ w,
  match m w with
  | (Ok a, w') => k a w'
  | (Raise e, w') => if retriable e then handler e w' else (Raise e, w')
  end.

Fixpoint retry_loop (fuel : nat) (retries : Z)
    (total_usage : CompletionUsage.t) (response : option Response) : M exit :=
  match fuel with
  | O => mret OutOfFuel
  | S fuel =>
      if bool_decide (retries ≤ max_retries)%Z then
        let except (total_usage : CompletionUsage.t)
                   (response : option Response) (e : exn) : M exit :=
          reask response e;;
          let retries := (retries + 1)%Z in
          if bool_decide (retries > max_retries)%Z then raise e
          else retry_loop fuel retries total_usage response in
        catching (call func kwargs) (except total_usage response)
          (λ response,
             let stream := get_or kwargs "stream" (VBool false) in
             let '(total_usage, response) := accumulate total_usage response in
             log (Handed response);;
             catching
               (process_response response response_model stream
                                 validation_context strict mode)
               (except total_usage (Some response))
               (λ v, mret (Returned v)))
      else mret ReturnedNone
  end.

(** The body of the loop runs at most [max_retries + 1] times; one more
    unit of fuel pays for the test that ends a loop that never ran. *)
Definition retry : M exit :=
  retry_loop (S (Z.to_nat (max_retries + 1))) 0 CompletionUsage.zero None.

End retry.

Definition retry_sync := retry sync_wording.
Definition retry_async := retry async_wording.

(** The two wrappers [wrap_chatcompletion] chooses from. Positional
    arguments are part of the transport; [strict] is not passed on and
    keeps its default. *)
Definition new_chatcompletion_sync (func : Transport) (mode : Mode)
    (response_model : option TypeHint) (validation_context : option json)
    (max_retries : Z) (kwargs : gmap string value) : M exit :=
  '(response_model, new_kwargs) ←
    handle_response_model response_model kwargs mode;
  retry_sync func response_model validation_context new_kwargs max_retries
             None mode.

Definition new_chatcompletion_async (func : Transport) (mode : Mode)
    (response_model : option TypeHint) (validation_context : option json)
    (max_retries : Z) (kwargs : gmap string value) : M exit :=
  '(response_model, new_kwargs) ←
    handle_response_model response_model kwargs mode;
  retry_async func response_model validation_context new_kwargs max_retries
              None mode.

Definition wrap_chatcompletion (func_is_async : bool) (func : Transport)
    (mode : Mode)
  : option TypeHint → option json → Z → gmap string value → M exit :=
  if func_is_async then new_chatcompletion_async func mode
  else new_chatcompletion_sync func mode.

End patch.
End Patch.

(** * instructor/client_vertexai.py *)

Module ClientVertexAI.
Section client_vertexai.
Context `{Runtime}.

(** Is [needle] a prefix of [s] / a substring of [s]. *)
Fixpoint is_substring (needle s : string) : bool :=
  String.prefix needle s
  || match s with
     | EmptyString => false
     | String _ rest => is_substring needle rest
     end.

(** ["default" in description] *)
Definition has_default (description : json) : result bool :=
  match description with
  | JObj fields => Ok (assoc_has "default" fields)
  | JArr items =>
      Ok (existsb (λ j, match j with
                        | JStr s => String.eqb s "default"
                        | _ => false
                        end) items)
  | JStr s => Ok (is_substring "default" s)
  | _ => Raise TypeError
  end.

(** [[prop for prop, description in properties.items()
      if "default" in description]] *)
Fixpoint defaulted (properties : list (string * json)) : result (list json) :=
  match properties with
  | [] => Ok []
  | (prop, description) :: rest =>
      b ← has_default description;
      props ← defaulted rest;
      mret (if (b : bool) then JStr prop :: props else props)
  end.

(** [d.items()] *)
Definition items (d : json) : result (list (string * json)) :=
  match d with
  | JObj fields => Ok fields
  | _ => Raise (AttributeError "items")
  end.

Definition _create_gemini_json_schema (model : ResponseModel) : result json :=
  let schema := model_json_schema model in
  let schema_without_refs := replace_refs schema in
  required_properties ←
    match subscript schema_without_refs "required" with
    | Raise (KeyError _) => Ok (JArr [])
    | r => r
    end;
  properties ← subscript schema_without_refs "properties";
  fields ← items properties;
  added ← defaulted fields;
  required_properties ←
    match required_properties with
    | JArr declared => Ok (JArr (declared ++ added))
    | _ => Raise TypeError
    end;
  type ← subscript schema_without_refs "type";
  properties ← subscript schema_without_refs "properties";
  mret (JObj [("type", type);
              ("properties", properties);
              ("required", required_properties)]).

Definition doc_value (doc : option string) : value :=
  match doc with
  | Some s => VStr s
  | None => VNone
  end.

Definition _create_vertexai_tool (model : ResponseModel) : result value :=
  parameters ← _create_gemini_json_schema model;
  let declaration :=
    VObject "FunctionDeclaration"
            [("name", VStr (__name__ model));
             ("description", doc_value (__doc__ model));
             ("parameters", VJson parameters)] in
  mret (VObject "Tool" [("function_declarations", VSeq [declaration])]).

Definition vertexai_message_parser (message : Msg.t) : value :=
  VObject "Content"
          [("role", VStr (Msg.role message));
           ("parts", VSeq [VObject "Part.from_text"
                                   [("text", VStr (Msg.content message))]])].

Definition _vertexai_message_list_parser (messages : list Msg.t) : value :=
  VSeq (vertexai_message_parser <$> messages).

(** [_kwargs.pop("messages")], read as the list of its messages. *)
Definition pop_messages (_kwargs : gmap string value)
  : M (list Msg.t * gmap string value) :=
  v ← getitem _kwargs "messages";
  l ← as_indexable v;
  messages ← read_messages l;
  mret (messages, delete "messages" _kwargs).

(** Both builders pop from the dictionary they are given; the dictionary
    after the call is part of the result. *)
Definition vertexai_process_response (_kwargs : gmap string value)
    (model : ResponseModel)
  : M (value * value * value * gmap string value) :=
  '(messages, _kwargs) ← pop_messages _kwargs;
  let contents := _vertexai_message_list_parser messages in
  tool ← lift (_create_vertexai_tool model);
  let tool_config :=
    VObject "ToolConfig"
            [("function_calling_config",
              VObject "ToolConfig.FunctionCallingConfig"
                      [("mode", VStr "ANY")])] in
  mret (contents, VSeq [tool], tool_config, _kwargs).

Definition vertexai_process_json_response (_kwargs : gmap string value)
    (model : ResponseModel)
  : M (value * value * gmap string value) :=
  '(messages, _kwargs) ← pop_messages _kwargs;
  let contents := _vertexai_message_list_parser messages in
  let config := get_or _kwargs "generation_config" VNone in
  let _kwargs := delete "generation_config" _kwargs in
  response_schema ← lift (_create_gemini_json_schema model);
  has_config ← truthy config;
  extra ←
    (if (has_config : bool) then
       match config with
       | VDict d =>
           if bool_decide (is_Some (d !! "response_mime_type")
                           ∨ is_Some (d !! "response_schema"))
           then raise TypeError
           else mret (map_to_list d)
       | _ => raise TypeError
       end
     else mret []);
  let generation_config :=
    VObject "GenerationConfig"
            ([("response_mime_type", VStr "application/json");
              ("response_schema", VJson response_schema)] ++ extra) in
  mret (contents, generation_config, _kwargs).

End client_vertexai.
End ClientVertexAI.

(** * instructor/process_response.py *)

Module ProcessResponse.
Section process_response.
Context `{Runtime}.

(** Modelled from the spec: [instructor.utils.merge_consecutive_messages] is
    not among the sources. The spec asks that "consecutive same-role
    messages must be merged": a run of messages of one role becomes one
    message of that role, with the contents of the run in order, separated
    by [merge_separator]; the other keys are those of the first message of
    the run. The result is a new list. *)
Fixpoint merge_consecutive_messages (messages : list Msg.t) : list Msg.t :=
  match messages with
  | [] => []
  | message :: rest =>
      match merge_consecutive_messages rest with
      | next :: merged =>
          if String.eqb (Msg.role message) (Msg.role next)
          then Msg.add_content (merge_separator +:+ Msg.content next) message
               :: merged
          else message :: next :: merged
      | [] => [message]
      end
  end.

(** The instruction of the JSON modes and of GEMINI_JSON. *)
Definition json_instruction (response_model : ResponseModel) : string :=
  dedent
    (nl +:+ "                As a genius expert, your task is to understand the content and provide"
        +:+ nl
        +:+ "                the parsed objects in json that match the following json_schema:"
        +:+ nl +:+ nl +:+ nl
        +:+ "                "
        +:+ json_dumps_indent2 (model_json_schema response_model)
        +:+ nl +:+ nl
        +:+ "                Make sure to return an instance of the JSON, not the schema itself"
        +:+ nl
        +:+ "                ").

(** The schema text of ANTHROPIC_JSON, before [dedent]. *)
Definition anthropic_json_instruction (response_model : ResponseModel)
  : string :=
  nl +:+ "                You must only responsd in JSON format that adheres to the following schema:"
     +:+ nl +:+ nl
     +:+ "                <JSON_SCHEMA>" +:+ nl
     +:+ "                "
     +:+ json_dumps_indent2 (model_json_schema response_model) +:+ nl
     +:+ "                </JSON_SCHEMA>" +:+ nl
     +:+ "                ".

Definition cohere_instruction (response_model : ResponseModel) : string :=
  "Extract a valid " +:+ __name__ response_model
    +:+ " object based on the chat history and the json schema below." +:+ nl
    +:+ py_str (model_json_schema response_model) +:+ nl
    +:+ "The JSON schema was obtained by running:" +:+ nl
    +:+ "```python" +:+ nl
    +:+ "schema = " +:+ __name__ response_model +:+ ".model_json_schema()" +:+ nl
    +:+ "```" +:+ nl +:+ nl
    +:+ "The output must be a valid JSON object that `"
    +:+ __name__ response_model
    +:+ ".model_validate_json()` can successfully parse." +:+ nl.

(** The placement rule of the instruction: a new system message in front,
    or more text on the system message that is there. *)
Definition place_instruction (new_kwargs : gmap string value)
    (message : string) : M unit :=
  '(d, first) ← first_of_messages new_kwargs;
  if negb (String.eqb (Msg.role first) "system") then
    v ← getitem new_kwargs "messages";
    l ← as_list "insert" v;
    list_insert0 l (Msg.plain "system" message)
  else
    write_dict d (Msg.add_content (nl +:+ nl +:+ message) first).

(** [[m["content"] for m in messages if m["role"] == "system"]] *)
Definition system_contents (messages : list Msg.t) : list string :=
  Msg.content <$> filter (λ m, Msg.role m = "system") messages.

Definition is_system (role : string) : bool := String.eqb role "system".

(** [new_kwargs["messages"] = [m for m in messages if m["role"] != "system"]]
    over the list at [l]. *)
Definition drop_system_messages (new_kwargs : gmap string value) (l : loc)
  : M (gmap string value) :=
  items ← read_list l;
  kept ← filter_by_role (λ r, negb (is_system r)) items;
  l' ← new_list kept;
  mret (<["messages" := VList l']> new_kwargs).

(** The OpenAI sampling parameters and Gemini's names for them, in the
    order of the dictionary literal. *)
Definition map_openai_args_to_gemini : list (string * string) :=
  [("max_tokens", "max_output_tokens");
   ("temperature", "temperature");
   ("n", "candidate_count");
   ("top_p", "top_p");
   ("stop", "stop_sequences")].

(** The loop that moves the parameters that are set into
    [new_kwargs["generation_config"]]. *)
Fixpoint update_gemini_config (args : list (string * string))
    (new_kwargs : gmap string value) : M (gmap string value) :=
  match args with
  | [] => mret new_kwargs
  | (k, v) :: rest =>
      let val := get_or new_kwargs k VNone in
      let new_kwargs := delete k new_kwargs in
      match val with
      | VNone => update_gemini_config rest new_kwargs
      | _ =>
          config ← getitem new_kwargs "generation_config";
          match config with
          | VDict d =>
              update_gemini_config rest
                (<["generation_config" := VDict (<[v := val]> d)]> new_kwargs)
          | _ => raise TypeError
          end
      end
  end.

(** [a | b] on dictionaries: the entries of [b] win. *)
Definition dict_or {K} `{Countable K} {A} (a b : gmap K A) : gmap K A := b ∪ a.

Definition default_safety_settings : gmap HarmCategory HarmBlockThreshold :=
  <[HARM_CATEGORY_HATE_SPEECH := BLOCK_ONLY_HIGH]>
    (<[HARM_CATEGORY_HARASSMENT := BLOCK_ONLY_HIGH]>
       (<[HARM_CATEGORY_DANGEROUS_CONTENT := BLOCK_ONLY_HIGH]> ∅)).

Definition handle_response_model (response_model : option TypeHint)
    (mode : Mode) (kwargs : gmap string value)
  : M (option ResponseModel * gmap string value) :=
  let new_kwargs := kwargs in
  match response_model with
  | None => mret (None, new_kwargs)
  | Some response_model =>
      let response_model := adapt_simple response_model in
      if bool_decide (mode = PARALLEL_TOOLS) then
        if Patch.stream_is_False new_kwargs then
          let new_kwargs :=
            <["tools" := VJson (handle_parallel_model response_model)]>
              new_kwargs in
          let new_kwargs := <["tool_choice" := VStr "auto"]> new_kwargs in
          mret (Some (ParallelModel response_model), new_kwargs)
        else
          raise (AssertionError
                   "stream=True is not supported when using PARALLEL_TOOLS mode")
      else
        let response_model := as_openai_schema response_model in
        stream ← truthy (get_or new_kwargs "stream" (VBool false));
        if (stream : bool) && negb (streamable response_model) then
          raise (NotImplementedError
                   "stream=True is not supported when using response_model parameter for non-iterables")
        else
          new_kwargs ←
            match mode with
            | FUNCTIONS =>
                let new_kwargs :=
                  <["functions" := VJson (JArr [openai_schema response_model])]>
                    new_kwargs in
                name ← lift (subscript (openai_schema response_model) "name");
                mret (<["function_call" := VJson (JObj [("name", name)])]>
                        new_kwargs)
            | TOOLS | MISTRAL_TOOLS =>
                let new_kwargs :=
                  <["tools" :=
                      VJson (JArr [JObj [("type", JStr "function");
                                         ("function",
                                          openai_schema response_model)]])]>
                    new_kwargs in
                if bool_decide (mode = MISTRAL_TOOLS) then
                  mret (<["tool_choice" := VStr "any"]> new_kwargs)
                else
                  name ← lift (subscript (openai_schema response_model) "name");
                  mret (<["tool_choice" :=
                            VJson (JObj [("type", JStr "function");
                                         ("function", JObj [("name", name)])])]>
                          new_kwargs)
            | JSON | MD_JSON | JSON_SCHEMA =>
                let message := json_instruction response_model in
                new_kwargs ←
                  match mode with
                  | JSON =>
                      mret (<["response_format" :=
                                VJson (JObj [("type", JStr "json_object")])]>
                              new_kwargs)
                  | JSON_SCHEMA =>
                      mret (<["response_format" :=
                                VJson (JObj [("type", JStr "json_object");
                                             ("schema",
                                              model_json_schema response_model)])]>
                              new_kwargs)
                  | _ =>
                      append_message new_kwargs
                        (mret (Msg.plain "user"
                                 "Return the correct JSON response within a ```json codeblock. not the JSON_SCHEMA"));;
                      v ← getitem new_kwargs "messages";
                      l ← as_indexable v;
                      messages ← read_messages l;
                      l' ← new_messages (merge_consecutive_messages messages);
                      mret (<["messages" := VList l']> new_kwargs)
                  end;
                place_instruction new_kwargs message;;
                mret new_kwargs
            | ANTHROPIC_TOOLS =>
                let tool_descriptions := anthropic_schema response_model in
                let new_kwargs :=
                  <["tools" := VJson (JArr [tool_descriptions])]> new_kwargs in
                let new_kwargs :=
                  <["tool_choice" :=
                      VJson (JObj [("type", JStr "tool");
                                   ("name", JStr (__name__ response_model))])]>
                    new_kwargs in
                v ← getitem new_kwargs "messages";
                l ← as_indexable v;
                messages ← read_messages l;
                let system_messages := system_contents messages in
                if bool_decide (is_Some (kwargs !! "system"))
                   && negb (Nat.eqb (length system_messages) 0)
                then
                  raise (ValueError
                           "Only a single system message is supported - either set it as a message in the messages array or use the system parameter")
                else
                  let new_kwargs :=
                    if bool_decide (is_Some (kwargs !! "system")) then new_kwargs
                    else <["system" := VStr (join (nl +:+ nl) system_messages)]>
                           new_kwargs in
                  drop_system_messages new_kwargs l
            | ANTHROPIC_JSON =>
                messages ←
                  match new_kwargs !! "messages" with
                  | Some v => l ← as_indexable v; read_messages l
                  | None => mret []
                  end;
                let openai_system_messages := system_contents messages in
                if bool_decide (is_Some (kwargs !! "system"))
                   && negb (Nat.eqb (length openai_system_messages) 0)
                then
                  raise (ValueError
                           "Only a single System message is supported - either set it using the system parameter or in the list of messages")
                else
                  new_kwargs ←
                    match kwargs !! "system" with
                    | None =>
                        let system :=
                          "" +:+ nl +:+ nl
                             +:+ join (nl +:+ nl) openai_system_messages in
                        let system :=
                          system +:+ anthropic_json_instruction response_model in
                        mret (<["system" := VStr (dedent system)]> new_kwargs)
                    | Some (VStr system) =>
                        mret (<["system" :=
                                  VStr (system
                                        +:+ dedent (anthropic_json_instruction
                                                      response_model))]>
                                new_kwargs)
                    | Some _ => raise TypeError
                    end;
                  new_kwargs ←
                    match new_kwargs !! "messages" with
                    | Some v =>
                        l ← as_indexable v; drop_system_messages new_kwargs l
                    | None =>
                        l' ← new_list [];
                        mret (<["messages" := VList l']> new_kwargs)
                    end;
                  v ← getitem new_kwargs "messages";
                  l ← as_indexable v;
                  messages ← read_messages l;
                  l' ← new_messages (merge_consecutive_messages messages);
                  mret (<["messages" := VList l']> new_kwargs)
            | COHERE_TOOLS =>
                let instruction := cohere_instruction response_model in
                messages ←
                  match new_kwargs !! "messages" with
                  | Some v => l ← as_indexable v; read_messages l
                  | None => mret []
                  end;
                let new_kwargs := delete "messages" new_kwargs in
                let chat_history :=
                  (λ message,
                     JObj [("role", JStr (Msg.role message));
                           ("message", JStr (Msg.content message))])
                    <$> messages in
                let new_kwargs := <["message" := VStr instruction]> new_kwargs in
                mret (<["chat_history" := VJson (JArr chat_history)]> new_kwargs)
            | GEMINI_JSON =>
                if bool_decide (is_Some (new_kwargs !! "model")) then
                  raise (AssertionError
                           "Gemini `model` must be set while patching the client, not passed as a parameter to the create method")
                else
                  let message := json_instruction response_model in
                  place_instruction new_kwargs message;;
                  generation_config ←
                    match get_or new_kwargs "generation_config" (VDict ∅) with
                    | VDict d =>
                        mret (dict_or d {["response_mime_type" :=
                                            VStr "application/json"]})
                    | _ => raise TypeError
                    end;
                  let new_kwargs :=
                    <["generation_config" := VDict generation_config]>
                      new_kwargs in
                  new_kwargs ←
                    update_gemini_config map_openai_args_to_gemini new_kwargs;
                  '(messages, new_kwargs) ←
                    ClientVertexAI.pop_messages new_kwargs;
                  let new_kwargs :=
                    <["contents" := transform_to_gemini_prompt messages]>
                      new_kwargs in
                  safety_settings ←
                    match get_or new_kwargs "safety_settings" (VSafety ∅) with
                    | VSafety s => mret (dict_or s default_safety_settings)
                    | _ => raise TypeError
                    end;
                  mret (<["safety_settings" := VSafety safety_settings]>
                          new_kwargs)
            | VERTEXAI_TOOLS =>
                '(contents, tools, tool_config, new_kwargs) ←
                  ClientVertexAI.vertexai_process_response new_kwargs
                                                           response_model;
                let new_kwargs := <["contents" := contents]> new_kwargs in
                let new_kwargs := <["tools" := tools]> new_kwargs in
                mret (<["tool_config" := tool_config]> new_kwargs)
            | VERTEXAI_JSON =>
                '(contents, generation_config, new_kwargs) ←
                  ClientVertexAI.vertexai_process_json_response new_kwargs
                                                                response_model;
                let new_kwargs := <["contents" := contents]> new_kwargs in
                mret (<["generation_config" := generation_config]> new_kwargs)
            | PARALLEL_TOOLS =>
                raise (ValueError ("Invalid patch mode: " +:+ Mode_str mode))
            end;
          mret (Some response_model, new_kwargs)
  end.

End process_response.
End ProcessResponse.

(** * A concrete runtime and concrete requests *)

(** The examples below run the handlers and the loop on concrete inputs.
    The runtime is small: plain data is rendered in the layout of
    [json.dumps] without escapes, margins are kept ([dedent] is the
    identity), a response model is passed as it is, and the merge separator
    is a blank line. No general statement depends on these choices. *)

Module Sample.

Definition quote : string := String (Ascii.ascii_of_nat 34) EmptyString.

Definition quoted (s : string) : string := quote +:+ s +:+ quote.

Fixpoint render (j : json) : string :=
  match j with
  | JNull => "null"
  | JBool true => "true"
  | JBool false => "false"
  | JInt z => pretty z
  | JStr s => quoted s
  | JArr items => "[" +:+ join ", " (map render items) +:+ "]"
  | JObj fields =>
      "{" +:+ join ", " (map (λ kv, quoted kv.1 +:+ ": " +:+ render kv.2)
                             fields)
          +:+ "}"
  end.

#[local] Instance runtime : Runtime := {|
  TypeHint := ResponseModel;
  json_dumps := render;
  json_dumps_indent2 := render;
  py_str := render;
  dedent s := s;
  adapt_simple t := t;
  as_openai_schema t := t;
  handle_parallel_model t :=
    JArr [JObj [("type", JStr "function"); ("function", openai_schema t)]];
  ParallelModel t := t;
  transform_to_gemini_prompt messages :=
    VSeq ((λ m, VObject "content"
                        [("role", VStr (Msg.role m));
                         ("parts", VSeq [VStr (Msg.content m)])])
            <$> messages);
  replace_refs j := j;
  merge_separator := nl +:+ nl
|}.

(** A model with a required [name], a required [age] and a [nickname]
    that has a default. *)
Definition user_schema : json :=
  JObj [("properties",
         JObj [("name", JObj [("type", JStr "string")]);
               ("age", JObj [("type", JStr "integer")]);
               ("nickname", JObj [("default", JStr "none");
                                  ("type", JStr "string")])]);
        ("required", JArr [JStr "name"; JStr "age"]);
        ("title", JStr "UserDetail");
        ("type", JStr "object")].

(** The text the parser of the model works on: the arguments of the first
    tool call, else those of the function call, else the content. *)
Definition arguments_of (r : Response) : option string :=
  match r with
  | ChatCompletion (c :: _) _ =>
      let message := Choice.message c in
      match ChatCompletionMessage.tool_calls message with
      | Some (tc :: _) => Some (Function.arguments (ToolCall.function tc))
      | _ =>
          match ChatCompletionMessage.function_call message with
          | Some f => Some (Function.arguments f)
          | None => ChatCompletionMessage.content message
          end
      end
  | _ => None
  end.

Definition valid_arguments : string := "{name: x, age: 5}".

Definition missing_age : exn :=
  ValidationError "1 validation error for UserDetail: age Field required".

Definition UserDetail : ResponseModel := {|
  __name__ := "UserDetail";
  __doc__ := None;
  openai_schema :=
    JObj [("name", JStr "UserDetail");
          ("description", JStr "Correctly extracted `UserDetail`");
          ("parameters", user_schema)];
  anthropic_schema :=
    JObj [("name", JStr "UserDetail");
          ("description", JStr "Correctly extracted `UserDetail`");
          ("input_schema", user_schema)];
  model_json_schema := user_schema;
  streamable := false;
  isinstance_IterableBase := false;
  isinstance_ParallelBase := false;
  from_response r _ _ _ :=
    match arguments_of r with
    | Some text =>
        if String.eqb text valid_arguments
        then Ok {| payload := JObj [("name", JStr "x"); ("age", JInt 5)];
                   tasks := None |}
        else Raise missing_age
    | None => Raise (JSONDecodeError "Expecting value")
    end;
  from_streaming_response _ _ := Raise (AttributeError "from_streaming_response")
|}.

(** A transport that answers its [n]-th invocation with the [n]-th entry
    of a script. *)
Definition calls_so_far (w : world) : nat :=
  length (omap (λ ev, match ev with Called o => Some o | _ => None end)
               (events w)).

Definition scripted (script : list (result Response)) : Transport :=
  λ _ w, default (Raise (ProviderError "APIConnectionError" "no more answers"))
                 (script !! calls_so_far w).

Definition usage_10_5_15 : CompletionUsage.t := CompletionUsage.mk 10 5 15.

(** An answer that calls the tool with the given arguments. *)
Definition tool_answer (arguments : string) : Response :=
  ChatCompletion
    [Choice.mk (ChatCompletionMessage.mk "assistant" None None
                  (Some [ToolCall.mk "call_1"
                                     (Function.mk arguments "UserDetail")
                                     "function"]))]
    (Some usage_10_5_15).

Definition bad_answer : Response := tool_answer "{name: x}".
Definition good_answer : Response := tool_answer valid_arguments.

(** The request of a caller: one user message, in a list at location 1. *)
Definition conversation : list Msg.t :=
  [Msg.plain "user" "Extract `x is 5`"].

Definition request : gmap string value := {["messages" := VList 1%positive]}.

Definition start : world := world_of conversation.

Definition authentication_error : exn :=
  ProviderError "AuthenticationError" "Incorrect API key provided".

End Sample.

(** * The vocabulary of the statements *)

Section vocabulary.
Context `{Runtime}.
Import Patch.

Definition keeps_events {A} (m : M A) : Prop :=
  ∀ w x w', m w = (x, w') → events w' = events w.

Definition keeps_world {A} (m : M A) : Prop :=
  ∀ w x w', m w = (x, w') → w' = w.

(** The tool-result turn of a failed call. *)
Definition tool_turn (text : wording) (e : exn) (tc : ToolCall.t) : Msg.t :=
  Msg.mk "tool" (tool_content text e) (Some (ToolCall.id tc))
         (Some (Function.name (ToolCall.function tc))) None.

(** The turns one failed attempt adds, in the order of the [append]s. *)
Definition corrective_turns (text : wording) (mode : Mode)
    (message : ChatCompletionMessage.t) (tc : ToolCall.t) (e : exn)
  : list Msg.t :=
  (if bool_decide (mode = TOOLS) then [tool_turn text e tc] else [])
  ++ [dump_message message]
  ++ [Msg.plain "user" (user_content text e)]
  ++ (if bool_decide (mode = MD_JSON)
      then [Msg.plain "assistant" "```json"] else []).

(** The order of the claim: the assistant message first, the tool result
    after it. *)
Definition claimed_corrective_turns (text : wording) (mode : Mode)
    (message : ChatCompletionMessage.t) (tc : ToolCall.t) (e : exn)
  : list Msg.t :=
  [dump_message message]
  ++ (if bool_decide (mode = TOOLS) then [tool_turn text e tc] else [])
  ++ [Msg.plain "user" (user_content text e)]
  ++ (if bool_decide (mode = MD_JSON)
      then [Msg.plain "assistant" "```json"] else []).

(** The responses the transport returned, and those passed on to the
    parser, in order. *)
Definition responses (evs : list event) : list Response :=
  omap (λ ev, match ev with Called (Ok r) => Some r | _ => None end) evs.

Definition handed (evs : list event) : list Response :=
  omap (λ ev, match ev with Handed r => Some r | _ => None end) evs.

(** The usage a response reports, and a response with its usage field
    overwritten. *)
Definition reported (r : Response) : option CompletionUsage.t :=
  match r with
  | ChatCompletion _ (Some u) => Some u
  | _ => None
  end.

Definition with_usage (total : CompletionUsage.t) (r : Response) : Response :=
  match r with
  | ChatCompletion choices (Some _) => ChatCompletion choices (Some total)
  | _ => r
  end.

(** The responses [rs] with each usage field replaced by the sum of what
    was reported up to and including that response, starting from
    [total]. *)
Fixpoint cumulative (total : CompletionUsage.t) (rs : list Response)
  : list Response :=
  match rs with
  | [] => []
  | r :: rs =>
      let total := foldl CompletionUsage.add total (option_list (reported r)) in
      with_usage total r :: cumulative total rs
  end.

(** The ghost record is consistent when each response handed on carries
    the usage reported so far. *)
Definition usage_consistent (total : CompletionUsage.t) (w : world) : Prop :=
  handed (events w) = cumulative CompletionUsage.zero (responses (events w)) ∧
  total = CompletionUsage.sum (omap reported (responses (events w))).

(** The serialised payloads that [dump_message] puts after the content. *)
Definition dumped_payloads (message : ChatCompletionMessage.t) : string :=
  match ChatCompletionMessage.tool_calls message with
  | Some tcs => json_dumps (dump_tool_calls tcs)
  | None => ""
  end
  +:+ match ChatCompletionMessage.function_call message with
      | Some fc => json_dumps (dump_function fc)
      | None => ""
      end.

(** The guard on [stream=True] lets the request through. *)
Definition stream_allowed (kwargs : gmap string value) (rm : ResponseModel)
    (w : world) : Prop :=
  ∃ b : bool, truthy (get_or kwargs "stream" (VBool false)) w = (Ok b, w) ∧
              b && negb (streamable rm) = false.

Definition json_mode (mode : Mode) : Prop :=
  mode = JSON ∨ mode = JSON_SCHEMA ∨ mode = MD_JSON.

(** The conversation the instruction is placed on: the caller's, or for
    MD_JSON the caller's with the request for a code block appended and
    merged. *)
Definition md_json_request : Msg.t :=
  Msg.plain "user"
    "Return the correct JSON response within a ```json codeblock. not the JSON_SCHEMA".

Definition prepared (mode : Mode) (conversation : list Msg.t) : list Msg.t :=
  match mode with
  | MD_JSON =>
      ProcessResponse.merge_consecutive_messages
        (conversation ++ [md_json_request])
  | _ => conversation
  end.

Definition md_json_opening : Msg.t :=
  Msg.plain "assistant"
    ("Here is the perfectly correctly formatted JSON" +:+ nl +:+ "```json").

(** The conversation the instruction is placed on in patch.py. *)
Definition patch_prepared (mode : Mode) (conversation : list Msg.t)
  : list Msg.t :=
  match mode with
  | MD_JSON => conversation ++ [md_json_opening]
  | _ => conversation
  end.

(** The messages that are not system messages, in order. *)
Definition non_system (messages : list Msg.t) : list Msg.t :=
  filter (λ m, Msg.role m ≠ "system") messages.

Definition anthropic_tools_error : exn :=
  ValueError
    "Only a single system message is supported - either set it as a message in the messages array or use the system parameter".

Definition anthropic_json_error : exn :=
  ValueError
    "Only a single System message is supported - either set it using the system parameter or in the list of messages".

(** A property description that is a dictionary with a ["default"] key. *)
Definition carries_default (description : json) : bool :=
  match description with
  | JObj fields => assoc_has "default" fields
  | _ => false
  end.

Definition is_dict (j : json) : Prop := ∃ fields, j = JObj fields.

(** The names of the properties that carry a default, in the order of the
    properties. *)
Definition default_bearing (properties : list (string * json)) : list string :=
  (filter (λ pd, carries_default pd.2 = true) properties).*1.

(** The number of invocations of the transport in a ghost record. *)
Definition invocations (evs : list event) : nat :=
  length (omap (λ ev, match ev with Called o => Some o | _ => None end) evs).

(** From [w] to [w'] every list of messages that could be read can still
    be read, and reads as what it was followed by more messages. *)
Definition only_appends (w w' : world) : Prop :=
  ∀ l ms, view w l = Some ms → ∃ added, view w' l = Some (ms ++ added).

(** A computation that only appends, whatever its outcome. *)
Definition appending {A} (m : M A) : Prop :=
  ∀ w x w', m w = (x, w') → only_appends w w'.

(** A request parameter that is set: present and not [None]. *)
Definition set_parameter (kwargs : gmap string value) (k : string)
  : option value :=
  match kwargs !! k with
  | Some VNone | None => None
  | Some val => Some val
  end.

(** From [w] to [w'] nothing that existed was modified: every list and
    every message of [w] is in [w'] as it was, and the transport was not
    invoked. *)
Definition extends (w w' : world) : Prop :=
  lists w ⊆ lists w' ∧ dicts w ⊆ dicts w' ∧ events w' = events w.

(** A computation that at most allocates, whatever its outcome. *)
Definition allocating {A} (m : M A) : Prop :=
  ∀ w x w', m w = (x, w') → extends w w'.

End vocabulary.

(** ** Concrete calls *)

Section concrete_calls.
Import Sample Patch.
#[local] Existing Instance Sample.runtime.

Definition bad_message : ChatCompletionMessage.t :=
  ChatCompletionMessage.mk "assistant" None None
    (Some [ToolCall.mk "call_1" (Function.mk "{name: x}" "UserDetail")
                       "function"]).

Definition one_bad_answer : result exit * world :=
  retry_sync (scripted [Ok bad_answer]) (Some UserDetail) None request 0 None
             TOOLS start.

Definition call_1 : ToolCall.t :=
  ToolCall.mk "call_1" (Function.mk "{name: x}" "UserDetail") "function".

Definition third_time_lucky : result exit * world :=
  retry_sync (scripted [Ok bad_answer; Ok bad_answer; Ok good_answer])
             (Some UserDetail) None request 2 None TOOLS start.

(** A conversation that opens with a system message. *)
Definition with_system : list Msg.t :=
  [Msg.plain "system" "You extract users.";
   Msg.plain "user" "Extract `x is 5`"].

Definition two_system_messages : list Msg.t :=
  [Msg.plain "system" "You extract users.";
   Msg.plain "user" "Extract `x is 5`";
   Msg.plain "system" "Answer with the tool."].

Definition permissive_request : gmap string value :=
  <["safety_settings" :=
      VSafety {[HARM_CATEGORY_HATE_SPEECH := BLOCK_NONE;
                HARM_CATEGORY_SEXUALLY_EXPLICIT := BLOCK_NONE]}]> request.

(** An answer in plain text, without a tool call. *)
Definition content_answer : Response :=
  ChatCompletion
    [Choice.mk (ChatCompletionMessage.mk "assistant" (Some "{name: x}")
                                         None None)]
    (Some usage_10_5_15).

Definition streaming_request : gmap string value :=
  <["stream" := VBool true]> request.

(** A request with OpenAI sampling parameters and a Gemini configuration
    of the caller's own. *)
Definition sampled_request : gmap string value :=
  <["temperature" := VFloat "0.2"]>
    (<["max_tokens" := VInt 256]>
       (<["generation_config" :=
            VDict {["top_k" := VInt 40; "temperature" := VFloat "0.9"]}]>
          request)).

Definition plain_text_request : gmap string value :=
  <["generation_config" :=
      VDict {["response_mime_type" := VStr "text/plain"]}]> request.

Definition top_k_request : gmap string value :=
  <["generation_config" := VDict {["top_k" := VInt 40]}]> request.

(** The instruction patch.py renders for [UserDetail]. *)
Definition user_instruction : string :=
  match Patch.json_instruction UserDetail with
  | Ok instruction => instruction
  | Raise _ => ""
  end.

(** The schema and the tool Vertex AI is given for [UserDetail]. *)
Definition user_gemini_schema : json :=
  match ClientVertexAI._create_gemini_json_schema UserDetail with
  | Ok schema => schema
  | Raise _ => JNull
  end.

Definition user_tool : value :=
  match ClientVertexAI._create_vertexai_tool UserDetail with
  | Ok tool => tool
  | Raise _ => VNone
  end.

End concrete_calls.

(** * Properties *)

(** ** Strings *)

Lemma append_cons a (s t : string) : String a s +:+ t = String a (s +:+ t).
Proof. reflexivity. Qed.

Lemma length_append (s t : string) :
  String.length (s +:+ t) = (String.length s + String.length t)%nat.
Proof.
  induction s as [|a s IH]; [done|]. rewrite append_cons. simpl. by rewrite IH.
Qed.

Lemma append_nil_r (s : string) : s +:+ "" = s.
Proof. induction s as [|a s IH]; [done|]. by rewrite append_cons, IH. Qed.

Lemma append_assoc (s t u : string) : (s +:+ t) +:+ u = s +:+ (t +:+ u).
Proof. induction s as [|a s IH]; [done|]. by rewrite !append_cons, IH. Qed.

Lemma contains_refl s : contains s s.
Proof. exists "", "". change ("" +:+ s +:+ "") with (s +:+ ""). by rewrite append_nil_r. Qed.

Lemma contains_suffix s t : contains (s +:+ t) t.
Proof. exists s, "". by rewrite append_nil_r. Qed.

Lemma contains_prefix s t : contains (s +:+ t) s.
Proof. exists "", t. done. Qed.

Lemma contains_append_r s t u : contains t u → contains (s +:+ t) u.
Proof.
  intros (a & b & ->). exists (s +:+ a), b. by rewrite !append_assoc.
Qed.

Lemma contains_append_l s t u : contains s u → contains (s +:+ t) u.
Proof.
  intros (a & b & ->). exists a, (b +:+ t). by rewrite !append_assoc.
Qed.

Lemma add_content_nil m : Msg.add_content "" m = m.
Proof. destruct m. unfold Msg.add_content. simpl. by rewrite append_nil_r. Qed.

Lemma add_content_add_content s t m :
  Msg.add_content t (Msg.add_content s m) = Msg.add_content (s +:+ t) m.
Proof. unfold Msg.add_content. simpl. by rewrite append_assoc. Qed.

(** ** The store *)

Lemma view_Some w l ms :
  view w l = Some ms ↔
  ∃ items, lists w !! l = Some items ∧
           Forall2 (λ d m, dicts w !! d = Some m) items ms.
Proof.
  unfold view. split.
  - destruct (lists w !! l) as [items|] eqn:E; simpl; [|done].
    intros Hm. exists items. split; [done|]. by apply mapM_Some.
  - intros (items & -> & Hm). simpl. by apply mapM_Some.
Qed.

Lemma bind_Ok {A B} (m : M A) (k : A → M B) w a w' :
  m w = (Ok a, w') → (m ≫= k) w = k a w'.
Proof. unfold mbind, M_bind. by intros ->. Qed.

Lemma bind_bind {A B C} (m : M A) (f : A → M B) (g : B → M C) w :
  ((m ≫= f) ≫= g) w = (m ≫= λ a, f a ≫= g) w.
Proof. unfold mbind, M_bind. by destruct (m w) as [[?|?] ?]. Qed.

Lemma bind_ret {A B} (a : A) (k : A → M B) w : (mret a ≫= k) w = k a w.
Proof. done. Qed.

Lemma getitem_Some kwargs key v w :
  kwargs !! key = Some v → getitem kwargs key w = (Ok v, w).
Proof. unfold getitem. by intros ->. Qed.

(** Run the first computation of a sequence, given its outcome. *)
Ltac step E := rewrite ?bind_bind; rewrite (bind_Ok _ _ _ _ _ E); cbv beta.
Ltac step_by tac :=
  rewrite ?bind_bind; erewrite bind_Ok by tac; cbv beta.

Lemma bind_Raise {A B} (m : M A) (k : A → M B) w e w' :
  m w = (Raise e, w') → (m ≫= k) w = (Raise e, w').
Proof. unfold mbind, M_bind. by intros ->. Qed.

(** Allocating a dictionary leaves every message of a readable list as it
    was. *)
Lemma Forall2_fresh_dict (dm : gmap loc Msg.t) items ms msg :
  Forall2 (λ d m, dm !! d = Some m) items ms →
  Forall2 (λ d m, <[fresh (dom dm):=msg]> dm !! d = Some m) items ms.
Proof.
  intros Hm. eapply Forall2_impl; [exact Hm|].
  intros d m Hd. simpl in *. rewrite lookup_insert_ne; [done|].
  intros <-. apply (is_fresh (dom dm)). apply elem_of_dom. by eexists.
Qed.

Lemma list_append_view l msg w ms :
  view w l = Some ms →
  ∃ w', list_append l msg w = (Ok (), w') ∧
        view w' l = Some (ms ++ [msg]) ∧ events w' = events w.
Proof.
  intros (items & Hl & Hm)%view_Some.
  unfold list_append, read_list, new_dict, write_list, mbind, M_bind.
  rewrite Hl. simpl. eexists. split; [done|]. split; [|done].
  apply view_Some. simpl. exists (items ++ [fresh (dom (dicts w))]).
  split; [by rewrite lookup_insert_eq|].
  apply Forall2_app; [by apply Forall2_fresh_dict|].
  constructor; [|constructor]. by rewrite lookup_insert_eq.
Qed.

Lemma list_insert0_view l msg w ms :
  view w l = Some ms →
  ∃ w', list_insert0 l msg w = (Ok (), w') ∧
        view w' l = Some (msg :: ms) ∧ events w' = events w.
Proof.
  intros (items & Hl & Hm)%view_Some.
  unfold list_insert0, read_list, new_dict, write_list, mbind, M_bind.
  rewrite Hl. simpl. eexists. split; [done|]. split; [|done].
  apply view_Some. simpl. exists (fresh (dom (dicts w)) :: items).
  split; [by rewrite lookup_insert_eq|].
  constructor; [by rewrite lookup_insert_eq|by apply Forall2_fresh_dict].
Qed.

Lemma append_message_view kwargs l (msg : M Msg.t) m w ms :
  kwargs !! "messages" = Some (VList l) →
  view w l = Some ms →
  msg w = (Ok m, w) →
  ∃ w', append_message kwargs msg w = (Ok (), w') ∧
        view w' l = Some (ms ++ [m]) ∧ events w' = events w.
Proof.
  intros Hk Hv Hmsg.
  destruct (list_append_view l m w ms Hv) as (w' & Happ & Hv' & Hev).
  exists w'. split; [|done].
  unfold append_message, getitem. rewrite Hk.
  unfold mbind at 1, M_bind at 1. simpl.
  unfold mbind at 1, M_bind at 1. simpl.
  unfold mbind at 1, M_bind at 1. by rewrite Hmsg.
Qed.

Lemma read_dicts_Forall2 w items ms :
  Forall2 (λ d m, dicts w !! d = Some m) items ms →
  read_dicts items w = (Ok ms, w).
Proof.
  induction 1 as [|d m items ms Hd _ IH]; [done|].
  simpl. unfold mbind at 1, M_bind at 1, read_dict at 1. rewrite Hd.
  unfold mbind, M_bind. by rewrite IH.
Qed.

Lemma read_messages_view w l ms :
  view w l = Some ms → read_messages l w = (Ok ms, w).
Proof.
  intros (items & Hl & Hm)%view_Some.
  unfold read_messages, read_list, mbind, M_bind. rewrite Hl.
  by apply read_dicts_Forall2.
Qed.

Lemma first_of_messages_view kwargs l w m ms :
  kwargs !! "messages" = Some (VList l) →
  view w l = Some (m :: ms) →
  ∃ d ds, lists w !! l = Some (d :: ds) ∧ dicts w !! d = Some m ∧
          Forall2 (λ d m, dicts w !! d = Some m) ds ms ∧
          first_of_messages kwargs w = (Ok (d, m), w).
Proof.
  intros Hk (items & Hl & Hm)%view_Some.
  destruct items as [|d ds]; [by inversion Hm|].
  apply Forall2_cons in Hm as [Hd Hm].
  exists d, ds. repeat split; [done..|].
  unfold first_of_messages, getitem, list_first, read_list, read_dict.
  rewrite Hk. unfold mbind, M_bind. simpl. rewrite Hl.
  unfold mret, M_ret. by rewrite Hd.
Qed.

(** Overwriting one dictionary changes the messages of a list at the
    places that hold this dictionary, and nowhere else. *)
Lemma Forall2_write_dict (dm : gmap loc Msg.t) d0 m0 items ms :
  Forall2 (λ d m, dm !! d = Some m) items ms →
  ∃ ms', Forall2 (λ d m, <[d0:=m0]> dm !! d = Some m) items ms' ∧
         length ms' = length ms ∧ (d0 ∉ items → ms' = ms).
Proof.
  induction 1 as [|d m items ms Hd _ (ms' & IH & Hlen & Hsame)].
  { exists []. by repeat constructor. }
  destruct (decide (d0 = d)) as [->|Hne].
  - exists (m0 :: ms'). split; [|split].
    + constructor; [by rewrite lookup_insert_eq|done].
    + simpl. by rewrite Hlen.
    + intros Hnin. exfalso. apply Hnin. by left.
  - exists (m :: ms'). split; [|split].
    + constructor; [by rewrite lookup_insert_ne|done].
    + simpl. by rewrite Hlen.
    + intros Hnin. rewrite Hsame; [done|].
      intros Hin. apply Hnin. by right.
Qed.

Lemma new_dicts_spec ms : ∀ w,
  ∃ ds w', new_dicts ms w = (Ok ds, w') ∧
    lists w' = lists w ∧ events w' = events w ∧
    dicts w ⊆ dicts w' ∧
    Forall2 (λ d m, dicts w' !! d = Some m) ds ms ∧
    NoDup ds ∧ Forall (λ d, dicts w !! d = None) ds.
Proof.
  induction ms as [|m ms IH]; intros w.
  { exists [], w. repeat split; try done; constructor. }
  simpl. unfold mbind at 1, M_bind at 1, new_dict at 1.
  set (d := fresh (dom (dicts w))).
  set (w1 := World _ _ _).
  destruct (IH w1) as (ds & w' & E & Hl & Hev & Hsub & Hm & Hnd & Hfr).
  assert (dicts w !! d = None) as Hd.
  { apply not_elem_of_dom, is_fresh. }
  exists (d :: ds), w'. unfold mbind, M_bind. rewrite E. simpl.
  repeat split; [done..| | | |].
  - etrans; [|exact Hsub]. by apply insert_subseteq.
  - constructor; [|done].
    eapply lookup_weaken; [|exact Hsub]. apply lookup_insert_eq.
  - constructor; [|done]. intros Hin.
    rewrite Forall_forall in Hfr. specialize (Hfr _ Hin).
    unfold w1 in Hfr. simpl in Hfr. by rewrite lookup_insert_eq in Hfr.
  - constructor; [done|]. eapply Forall_impl; [exact Hfr|].
    intros d' Hd'. unfold w1 in Hd'. simpl in Hd'.
    apply lookup_insert_None in Hd'. tauto.
Qed.

Lemma view_weaken w w' l ms :
  lists w !! l = lists w' !! l →
  dicts w ⊆ dicts w' →
  view w l = Some ms → view w' l = Some ms.
Proof.
  intros Hl Hsub (items & Hi & Hm)%view_Some. apply view_Some.
  exists items. split; [congruence|].
  eapply Forall2_impl; [exact Hm|].
  intros d m Hd. simpl in *. eapply lookup_weaken; eauto.
Qed.

(** A new list of new dictionaries reads back as the messages it was made
    of, shares nothing with the lists that exist, and leaves them as they
    are. *)
Lemma new_messages_spec ms w :
  ∃ l' ds w', new_messages ms w = (Ok l', w') ∧
    lists w !! l' = None ∧ lists w' = <[l':=ds]> (lists w) ∧
    events w' = events w ∧ dicts w ⊆ dicts w' ∧
    Forall2 (λ d m, dicts w' !! d = Some m) ds ms ∧ NoDup ds ∧
    view w' l' = Some ms.
Proof.
  destruct (new_dicts_spec ms w)
    as (ds & w1 & E & Hl & Hev & Hsub & Hm & Hnd & _).
  unfold new_messages, mbind, M_bind. rewrite E.
  unfold new_list. exists (fresh (dom (lists w1))), ds. eexists.
  split; [done|]. simpl. rewrite Hl.
  split; [apply not_elem_of_dom, is_fresh|].
  repeat split; [done..|].
  apply view_Some. exists ds. simpl. by rewrite lookup_insert_eq.
Qed.

Lemma filter_by_role_Forall2 keep w items ms :
  Forall2 (λ d m, dicts w !! d = Some m) items ms →
  ∃ kept, filter_by_role keep items w = (Ok kept, w) ∧
          Forall2 (λ d m, dicts w !! d = Some m) kept
                  (filter (λ m, keep (Msg.role m) = true) ms).
Proof.
  induction 1 as [|d m items ms Hd _ (kept & E & IH)].
  { exists []. split; [done|constructor]. }
  simpl. unfold mbind at 1, M_bind at 1, read_dict at 1. rewrite Hd.
  unfold mbind, M_bind. rewrite E. eexists. split; [done|].
  rewrite filter_cons. destruct (decide (keep (Msg.role m) = true)) as [->|Hk].
  - by constructor.
  - by destruct (keep (Msg.role m)).
Qed.

Lemma list_insert0_fresh l msg w ms :
  view w l = Some ms →
  ∃ d ds w', list_insert0 l msg w = (Ok (), w') ∧
             lists w' !! l = Some (d :: ds) ∧ (d ∉ ds) ∧
             view w' l = Some (msg :: ms) ∧ events w' = events w.
Proof.
  intros (items & Hl & Hm)%view_Some.
  unfold list_insert0, read_list, new_dict, write_list, mbind, M_bind.
  rewrite Hl. simpl. eexists (fresh (dom (dicts w))), items, _.
  split; [done|]. simpl. split; [by rewrite lookup_insert_eq|].
  split; [|split; [|done]].
  - intros Hin. apply (is_fresh (dom (dicts w))).
    apply list_elem_of_lookup in Hin as [i Hi].
    destruct (Forall2_lookup_l _ _ _ _ _ Hm Hi) as (m & _ & Hd).
    apply elem_of_dom. by eexists.
  - apply view_Some. simpl. exists (fresh (dom (dicts w)) :: items).
    split; [by rewrite lookup_insert_eq|].
    constructor; [by rewrite lookup_insert_eq|by apply Forall2_fresh_dict].
Qed.

(** [lst[0]["content"] += s] on a readable list. *)
Lemma extend_first kwargs l w m ms s :
  kwargs !! "messages" = Some (VList l) →
  view w l = Some (m :: ms) →
  ∃ d ds ms',
    lists w !! l = Some (d :: ds) ∧
    first_of_messages kwargs w = (Ok (d, m), w) ∧
    view (World (lists w) (<[d:=Msg.add_content s m]> (dicts w)) (events w)) l
    = Some (Msg.add_content s m :: ms') ∧
    length ms' = length ms ∧ (d ∉ ds → ms' = ms).
Proof.
  intros Hk Hv.
  destruct (first_of_messages_view kwargs l w m ms Hk Hv)
    as (d & ds & Hl & Hd & Hm & Ef).
  destruct (Forall2_write_dict (dicts w) d (Msg.add_content s m) ds ms Hm)
    as (ms' & Hm' & Hlen & Hsame).
  exists d, ds, ms'. split; [done|]. split; [done|]. split; [|done].
  apply view_Some. exists (d :: ds). simpl. split; [done|].
  constructor; [by rewrite lookup_insert_eq|done].
Qed.

(** *** Computations that leave the ghost record, or the whole store,
    alone *)

Create HintDb keeps discriminated.

Lemma keeps_world_events {A} (m : M A) : keeps_world m → keeps_events m.
Proof. intros Hm w x w' E. by rewrite (Hm _ _ _ E). Qed.

Lemma keeps_world_ret {A} (a : A) : keeps_world (mret a).
Proof. intros w x w' [= _ <-]. done. Qed.

Lemma keeps_world_raise {A} e : keeps_world (raise (A:=A) e).
Proof. intros w x w' [= _ <-]. done. Qed.

Lemma keeps_world_lift {A} (r : result A) : keeps_world (lift r).
Proof. intros w x w' [= _ <-]. done. Qed.

Lemma keeps_world_bind {A B} (m : M A) (k : A → M B) :
  keeps_world m → (∀ a, keeps_world (k a)) → keeps_world (m ≫= k).
Proof.
  intros Hm Hk w x w'. unfold mbind, M_bind.
  destruct (m w) as [[a|e] w1] eqn:E; apply Hm in E as ->.
  - apply Hk.
  - by intros [= _ <-].
Qed.

Lemma keeps_world_fmap {A B} (f : A → B) (m : M A) :
  keeps_world m → keeps_world (f <$> m).
Proof.
  intros Hm w x w'. unfold fmap, M_fmap.
  destruct (m w) as [[a|e] w1] eqn:E; apply Hm in E as ->;
    by intros [= _ <-].
Qed.

Lemma keeps_events_bind {A B} (m : M A) (k : A → M B) :
  keeps_events m → (∀ a, keeps_events (k a)) → keeps_events (m ≫= k).
Proof.
  intros Hm Hk w x w'. unfold mbind, M_bind.
  destruct (m w) as [[a|e] w1] eqn:E; apply Hm in E.
  - intros E'. apply Hk in E'. congruence.
  - intros [= _ <-]. done.
Qed.

Lemma keeps_world_read_list l : keeps_world (read_list l).
Proof.
  intros w x w'. unfold read_list.
  destruct (lists w !! l); by intros [= _ <-].
Qed.

Lemma keeps_world_read_dict d : keeps_world (read_dict d).
Proof.
  intros w x w'. unfold read_dict.
  destruct (dicts w !! d); by intros [= _ <-].
Qed.

Lemma keeps_events_new_dict m : keeps_events (new_dict m).
Proof. by intros w x w' [= _ <-]. Qed.

Lemma keeps_events_new_list items : keeps_events (new_list items).
Proof. by intros w x w' [= _ <-]. Qed.

Lemma keeps_events_write_list l items : keeps_events (write_list l items).
Proof. by intros w x w' [= _ <-]. Qed.

Lemma keeps_events_write_dict d m : keeps_events (write_dict d m).
Proof. by intros w x w' [= _ <-]. Qed.

Lemma keeps_world_getitem kwargs key : keeps_world (getitem kwargs key).
Proof.
  unfold getitem. destruct (kwargs !! key);
    [apply keeps_world_ret|apply keeps_world_raise].
Qed.

Lemma keeps_world_as_list method v : keeps_world (as_list method v).
Proof.
  destruct v; first [apply keeps_world_ret|apply keeps_world_raise].
Qed.

#[export] Hint Resolve keeps_world_ret keeps_world_raise keeps_world_lift
  keeps_world_read_list keeps_world_read_dict keeps_world_getitem
  keeps_world_as_list keeps_events_new_dict keeps_events_new_list
  keeps_events_write_list keeps_events_write_dict : keeps.
#[export] Hint Extern 2 (keeps_world (_ ≫= _)) =>
  apply keeps_world_bind; [|intros ?] : keeps.
#[export] Hint Extern 2 (keeps_world (_ <$> _)) =>
  apply keeps_world_fmap : keeps.
#[export] Hint Extern 2 (keeps_events (_ ≫= _)) =>
  apply keeps_events_bind; [|intros ?] : keeps.
#[export] Hint Extern 5 (keeps_events _) =>
  apply keeps_world_events : keeps.
#[export] Hint Extern 1 (keeps_world (if ?b then _ else _)) =>
  destruct b : keeps.
#[export] Hint Extern 1 (keeps_events (if ?b then _ else _)) =>
  destruct b : keeps.
#[export] Hint Extern 1 (keeps_world (match ?x with _ => _ end)) =>
  destruct x : keeps.

Lemma keeps_world_truthy v : keeps_world (truthy v).
Proof. unfold truthy. destruct v; auto with keeps. Qed.

Lemma keeps_events_list_append l m : keeps_events (list_append l m).
Proof. unfold list_append. auto 10 with keeps. Qed.

Lemma keeps_events_list_insert0 l m : keeps_events (list_insert0 l m).
Proof. unfold list_insert0. auto 10 with keeps. Qed.

Lemma keeps_events_append_message kwargs msg :
  keeps_world msg → keeps_events (append_message kwargs msg).
Proof.
  intros Hmsg. unfold append_message.
  auto 10 using keeps_events_list_append with keeps.
Qed.

#[export] Hint Resolve keeps_world_truthy keeps_events_list_append
  keeps_events_list_insert0 keeps_events_append_message : keeps.

(** ** The retry loop of patch.py *)

Section retry_facts.
Context `{Runtime}.
Import Patch.

Lemma reask_view text kwargs mode l w ms c cs u tc tcs e :
  kwargs !! "messages" = Some (VList l) →
  view w l = Some ms →
  (mode = TOOLS →
   ChatCompletionMessage.tool_calls (Choice.message c) = Some (tc :: tcs)) →
  ∃ w', reask text kwargs mode (Some (ChatCompletion (c :: cs) u)) e w
        = (Ok (), w') ∧
        view w' l
        = Some (ms ++ corrective_turns text mode (Choice.message c) tc e) ∧
        events w' = events w.
Proof.
  intros Hk Hv Htc. unfold reask, corrective_turns.
  rewrite (bind_Ok _ _ w (ChatCompletion (c :: cs) u) w); [|done].
  assert (∃ w1, (if bool_decide (mode = TOOLS)
                 then append_message kwargs
                        (tc0 ← first_tool_call (ChatCompletion (c :: cs) u);
                         mret (tool_turn text e tc0))
                 else mret ()) w = (Ok (), w1) ∧
                view w1 l
                = Some (ms ++ (if bool_decide (mode = TOOLS)
                               then [tool_turn text e tc] else [])) ∧
                events w1 = events w) as (w1 & E1 & Hv1 & Hev1).
  { case_bool_decide as Hm.
    - apply (append_message_view _ _ _ (tool_turn text e tc)); [done|done|].
      unfold first_tool_call, first_message.
      unfold mbind, M_bind, mret, M_ret. simpl. by rewrite (Htc Hm).
    - exists w. rewrite app_nil_r. by repeat split. }
  unfold tool_turn in E1. rewrite (bind_Ok _ _ _ _ _ E1).
  destruct (append_message_view kwargs l
              (dump_message <$> first_message (ChatCompletion (c :: cs) u))
              (dump_message (Choice.message c)) w1 _ Hk Hv1)
    as (w2 & E2 & Hv2 & Hev2); [done|].
  rewrite (bind_Ok _ _ _ _ _ E2).
  destruct (append_message_view kwargs l
              (mret (Msg.plain "user" (user_content text e)))
              (Msg.plain "user" (user_content text e)) w2 _ Hk Hv2)
    as (w3 & E3 & Hv3 & Hev3); [done|].
  rewrite (bind_Ok _ _ _ _ _ E3).
  rewrite <- !(assoc_L (++)) in Hv3.
  destruct (bool_decide (mode = MD_JSON)).
  - destruct (append_message_view kwargs l
                (mret (Msg.plain "assistant" "```json"))
                (Msg.plain "assistant" "```json") w3 _ Hk Hv3)
      as (w4 & E4 & Hv4 & Hev4); [done|].
    exists w4. split; [done|]. rewrite <- !(assoc_L (++)) in Hv4.
    split; [done|congruence].
  - exists w3. split; [done|]. rewrite app_nil_r. split; [done|congruence].
Qed.

Lemma keeps_world_first_message r : keeps_world (first_message r).
Proof. unfold first_message. destruct r as [[|c cs] u|]; auto with keeps. Qed.

Lemma keeps_world_first_tool_call r : keeps_world (first_tool_call r).
Proof.
  unfold first_tool_call.
  apply keeps_world_bind; [apply keeps_world_first_message|].
  intros m. destruct (ChatCompletionMessage.tool_calls m) as [[|tc tcs]|];
    auto with keeps.
Qed.

Lemma keeps_world_process_response r rm stream ctx strict mode :
  keeps_world (process_response r rm stream ctx strict mode).
Proof.
  unfold process_response. destruct rm as [rm|]; [|auto with keeps].
  apply keeps_world_bind; [destruct (streamable rm); auto with keeps|].
  intros [|]; [auto with keeps|].
  apply keeps_world_bind; [auto with keeps|]. intros model.
  destruct (isinstance_IterableBase rm); [destruct (tasks model)|];
    auto with keeps.
Qed.

Lemma keeps_events_reask text kwargs mode r e :
  keeps_events (reask text kwargs mode r e).
Proof.
  unfold reask.
  apply keeps_events_bind; [destruct r; auto with keeps|]. intros r'.
  apply keeps_events_bind.
  { destruct (bool_decide (mode = TOOLS)); [|auto with keeps].
    apply keeps_events_append_message, keeps_world_bind;
      [apply keeps_world_first_tool_call|auto with keeps]. }
  intros _. apply keeps_events_bind.
  { apply keeps_events_append_message, keeps_world_fmap,
      keeps_world_first_message. }
  intros _. apply keeps_events_bind; [auto with keeps|].
  intros _. destruct (bool_decide (mode = MD_JSON)); auto with keeps.
Qed.

(** *** What the ghost record says about usage *)

Lemma accumulate_spec total r :
  accumulate total r
  = (foldl CompletionUsage.add total (option_list (reported r)),
     with_usage (foldl CompletionUsage.add total (option_list (reported r))) r).
Proof. by destruct r as [ch [u|]|]. Qed.

Lemma omap_reported_cons r rs :
  omap reported (r :: rs) = option_list (reported r) ++ omap reported rs.
Proof. simpl. by destruct (reported r). Qed.

Lemma cumulative_snoc total rs r :
  cumulative total (rs ++ [r])
  = cumulative total rs
    ++ [with_usage (foldl CompletionUsage.add total
                          (omap reported (rs ++ [r]))) r].
Proof.
  revert total. induction rs as [|r0 rs IH]; intros total.
  - simpl. destruct (reported r); by rewrite ?app_nil_r.
  - rewrite <- app_comm_cons. simpl cumulative. rewrite IH.
    rewrite omap_reported_cons, foldl_app. done.
Qed.

Lemma cumulative_lookup total rs k r :
  rs !! k = Some r →
  cumulative total rs !! k
  = Some (with_usage (foldl CompletionUsage.add total
                            (omap reported (take (S k) rs))) r).
Proof.
  revert total k. induction rs as [|r0 rs IH]; intros total k; [done|].
  destruct k as [|k].
  - intros [= ->]. simpl. destruct (reported r); by rewrite ?app_nil_r.
  - intros Hk. simpl cumulative. simpl lookup. rewrite (IH _ _ Hk).
    rewrite firstn_cons, omap_reported_cons, foldl_app. done.
Qed.

Lemma length_cumulative total rs : length (cumulative total rs) = length rs.
Proof. revert total. induction rs; intros; simpl; auto. Qed.

Section loop.
Variable text : wording.
Variable func : Transport.
Variable response_model : option ResponseModel.
Variable validation_context : option json.
Variable kwargs : gmap string value.
Variable max_retries : Z.
Variable strict : option bool.
Variable mode : Mode.

Abbreviation loop := (retry_loop text func response_model validation_context
                             kwargs max_retries strict mode).

Lemma process_response_raw r v w w' :
  process_response r response_model (get_or kwargs "stream" (VBool false))
                   validation_context strict mode w = (Ok v, w') →
  ∀ model raw, v = WithRaw model raw → raw = r.
Proof.
  unfold process_response. destruct response_model as [rm|].
  { unfold mbind, M_bind.
    destruct ((if streamable rm then truthy _ else mret false) w)
      as [[[|]|?] ?]; [| |done].
    - destruct (lift _ _) as [[?|?] ?]; [|done].
      intros [= <- _]. done.
    - destruct (lift _ _) as [[model|?] ?]; [|done].
      destruct (isinstance_IterableBase rm);
        [destruct (tasks model); [|done]; by intros [= <- _]|].
      destruct (isinstance_ParallelBase rm); intros [= <- _]; [done|].
      by intros ?? [= _ <-]. }
  intros [= <- _]. done.
Qed.

Lemma retry_loop_usage fuel : ∀ retries total response w res w',
  usage_consistent total w →
  loop fuel retries total response w = (res, w') →
  handed (events w') = cumulative CompletionUsage.zero (responses (events w')) ∧
  ∀ model raw, res = Ok (Returned (WithRaw model raw)) →
               last (handed (events w')) = Some raw.
Proof.
  induction fuel as [|fuel IH]; intros retries total response w res w' Hinv.
  { intros [= <- <-]. split; [apply Hinv|done]. }
  simpl. case_bool_decide as Hle; [|intros [= <- <-]; split; [apply Hinv|done]].
  assert (∀ total response e w1 res w',
            usage_consistent total w1 →
            (reask text kwargs mode response e ≫= λ _,
               if bool_decide (retries + 1 > max_retries)%Z then raise e
               else loop fuel (retries + 1)%Z total response) w1 = (res, w') →
            handed (events w')
            = cumulative CompletionUsage.zero (responses (events w')) ∧
            ∀ model raw, res = Ok (Returned (WithRaw model raw)) →
                         last (handed (events w')) = Some raw) as Hexcept.
  { clear dependent w. clear total response res w'.
    intros total response e w1 res w' Hinv. unfold mbind, M_bind.
    destruct (reask text kwargs mode response e w1) as [[[]|e'] w2] eqn:E;
      apply keeps_events_reask in E.
    - case_bool_decide.
      + intros [= <- <-]. unfold usage_consistent in Hinv. rewrite E.
        split; [apply Hinv|done].
      + apply IH. unfold usage_consistent. by rewrite E.
    - intros [= <- <-]. rewrite E. split; [apply Hinv|done]. }
  unfold catching at 1, call.
  destruct (func kwargs w) as [r|e] eqn:Ef.
  - rewrite accumulate_spec.
    set (total' := foldl CompletionUsage.add total (option_list (reported r))).
    unfold mbind at 1, M_bind at 1, log at 1. simpl.
    set (w2 := World _ _ _).
    assert (usage_consistent total' w2) as Hinv2.
    { destruct Hinv as [Hh Ht]. unfold usage_consistent, w2. simpl.
      unfold handed, responses in *.
      rewrite !omap_app. simpl. rewrite !app_nil_r.
      rewrite cumulative_snoc, <- Hh.
      unfold CompletionUsage.sum. rewrite omap_app, !foldl_app.
      unfold CompletionUsage.sum in Ht. rewrite <- Ht.
      simpl. unfold total'. destruct (reported r); done. }
    unfold catching.
    destruct (process_response _ _ _ _ _ _ w2) as [[v|e] w3] eqn:Ep.
    + pose proof (keeps_world_process_response _ _ _ _ _ _ _ _ _ Ep) as ->.
      intros [= <- <-]. split; [apply Hinv2|].
      intros model raw [= ->].
      rewrite (process_response_raw _ _ _ _ Ep model raw eq_refl).
      unfold w2, handed. simpl. rewrite omap_app. simpl.
      by rewrite last_snoc.
    + pose proof (keeps_world_process_response _ _ _ _ _ _ _ _ _ Ep) as ->.
      destruct (retriable e).
      * by apply Hexcept.
      * intros [= <- <-]. split; [apply Hinv2|done].
  - set (w1 := World _ _ _).
    assert (usage_consistent total w1) as Hinv1.
    { destruct Hinv as [Hh Ht]. unfold usage_consistent, w1. simpl.
      unfold handed, responses in *.
      rewrite !omap_app. simpl. by rewrite !app_nil_r. }
    destruct (retriable e).
    + by apply Hexcept.
    + intros [= <- <-]. split; [apply Hinv1|done].
Qed.

Lemma retry_loop_fuel fuel : ∀ retries total response w,
  (Z.to_nat (max_retries + 1 - retries) < fuel)%nat →
  (loop fuel retries total response w).1 ≠ Ok OutOfFuel.
Proof.
  induction fuel as [|fuel IH]; intros retries total response w Hfuel; [lia|].
  simpl. case_bool_decide as Hle; [|done].
  assert (∀ total response e w1,
            ((reask text kwargs mode response e ≫= λ _,
                if bool_decide (retries + 1 > max_retries)%Z then raise e
                else loop fuel (retries + 1)%Z total response) w1).1
            ≠ Ok OutOfFuel) as Hexcept.
  { intros total0 response0 e w1. unfold mbind, M_bind.
    destruct (reask _ _ _ _ _ _) as [[[]|?] ?]; [|done].
    case_bool_decide; [done|]. apply IH. lia. }
  unfold catching at 1, call.
  destruct (func kwargs w) as [r|e].
  - destruct (accumulate total r) as [total' r'].
    unfold mbind at 1, M_bind at 1, log at 1, catching.
    destruct (process_response _ _ _ _ _ _ _) as [[v|e] w3]; [done|].
    destruct (retriable e); [apply Hexcept|done].
  - destruct (retriable e); [apply Hexcept|done].
Qed.

(** One failed attempt, as the loop sees it: the transport answers with a
    chat completion, the parser rejects it with a retriable error, and the
    corrective turns can be built. *)
Lemma retry_loop_failed_attempt fuel retries total response w l ms
    c cs u tc tcs e :
  (retries ≤ max_retries)%Z →
  kwargs !! "messages" = Some (VList l) →
  view w l = Some ms →
  func kwargs w = Ok (ChatCompletion (c :: cs) u) →
  (∀ w1, (process_response
            (accumulate total (ChatCompletion (c :: cs) u)).2
            response_model (get_or kwargs "stream" (VBool false))
            validation_context strict mode w1).1 = Raise e) →
  retriable e = true →
  (mode = TOOLS →
   ChatCompletionMessage.tool_calls (Choice.message c) = Some (tc :: tcs)) →
  ∃ w',
    view w' l = Some (ms ++ corrective_turns text mode (Choice.message c) tc e) ∧
    events w' = events w
                ++ [Called (Ok (ChatCompletion (c :: cs) u));
                    Handed (accumulate total (ChatCompletion (c :: cs) u)).2] ∧
    loop (S fuel) retries total response w
    = (if bool_decide (retries + 1 > max_retries)%Z then raise e
       else loop fuel (retries + 1)%Z
                 (accumulate total (ChatCompletion (c :: cs) u)).1
                 (Some (accumulate total (ChatCompletion (c :: cs) u)).2)) w'.
Proof.
  intros Hle Hk Hv Hf Hparse He Htc.
  destruct (accumulate total (ChatCompletion (c :: cs) u))
    as [total' r'] eqn:Eacc.
  assert (∃ cs' u', r' = ChatCompletion (c :: cs') u') as (cs' & u' & ->).
  { destruct u; injection Eacc as <- <-; eauto. }
  set (w2 := World (lists w) (dicts w)
                   ((events w ++ [Called (Ok (ChatCompletion (c :: cs) u))])
                    ++ [Handed (ChatCompletion (c :: cs') u')])).
  destruct (reask_view text kwargs mode l w2 ms c cs' u' tc tcs e Hk)
    as (w' & Er & Hv' & Hev'); [by rewrite <- Hv|done|].
  exists w'. split; [done|]. split.
  { rewrite Hev'. unfold w2. simpl. by rewrite <- (assoc_L (++)). }
  simpl. rewrite bool_decide_eq_true_2 by done.
  unfold catching at 1, call. rewrite Hf, Eacc.
  unfold mbind at 1, M_bind at 1, log at 1. simpl. fold w2.
  unfold catching. specialize (Hparse w2). simpl in Hparse.
  destruct (process_response _ _ _ _ _ _ w2) as [res w3] eqn:Ep.
  pose proof (keeps_world_process_response _ _ _ _ _ _ _ _ _ Ep) as ->.
  simpl in Hparse. subst res. rewrite He.
  by rewrite (bind_Ok _ _ _ _ _ Er).
Qed.

End loop.

End retry_facts.

(** ** The mode handlers *)

Section handler_facts.
Context `{Runtime}.

Lemma stream_allowed_absent kwargs rm w :
  kwargs !! "stream" = None → stream_allowed kwargs rm w.
Proof. intros Hs. exists false. unfold get_or. by rewrite Hs. Qed.

Lemma place_instruction_front kwargs message l w m ms :
  kwargs !! "messages" = Some (VList l) →
  view w l = Some (m :: ms) →
  Msg.role m ≠ "system" →
  ∃ w', ProcessResponse.place_instruction kwargs message w = (Ok (), w') ∧
        view w' l = Some (Msg.plain "system" message :: m :: ms) ∧
        events w' = events w.
Proof.
  intros Hk Hv Hrole.
  destruct (first_of_messages_view kwargs l w m ms Hk Hv)
    as (d & ds & Hl & Hd & Hm & Ef).
  destruct (list_insert0_view l (Msg.plain "system" message) w _ Hv)
    as (w' & Ei & Hv' & Hev).
  exists w'. split; [|done].
  unfold ProcessResponse.place_instruction.
  rewrite (bind_Ok _ _ _ _ _ Ef).
  apply String.eqb_neq in Hrole. rewrite Hrole. simpl.
  unfold getitem. rewrite Hk.
  unfold mbind at 1, M_bind at 1. simpl.
  unfold mbind at 1, M_bind at 1. simpl. done.
Qed.

Lemma place_instruction_append kwargs message l w m ms :
  kwargs !! "messages" = Some (VList l) →
  view w l = Some (m :: ms) →
  Msg.role m = "system" →
  ∃ d ds ms',
    lists w !! l = Some (d :: ds) ∧
    ProcessResponse.place_instruction kwargs message w
    = (Ok (), World (lists w)
                    (<[d:=Msg.add_content (nl +:+ nl +:+ message) m]> (dicts w))
                    (events w)) ∧
    view (World (lists w)
                (<[d:=Msg.add_content (nl +:+ nl +:+ message) m]> (dicts w))
                (events w)) l
    = Some (Msg.add_content (nl +:+ nl +:+ message) m :: ms') ∧
    length ms' = length ms ∧ (d ∉ ds → ms' = ms).
Proof.
  intros Hk Hv Hrole.
  destruct (first_of_messages_view kwargs l w m ms Hk Hv)
    as (d & ds & Hl & Hd & Hm & Ef).
  destruct (Forall2_write_dict (dicts w) d
              (Msg.add_content (nl +:+ nl +:+ message) m) ds ms Hm)
    as (ms' & Hm' & Hlen & Hsame).
  exists d, ds, ms'. split; [done|]. split; [|split; [|done]].
  - unfold ProcessResponse.place_instruction.
    rewrite (bind_Ok _ _ _ _ _ Ef).
    apply String.eqb_eq in Hrole. by rewrite Hrole.
  - apply view_Some. exists (d :: ds). simpl. split; [done|].
    constructor; [by rewrite lookup_insert_eq|done].
Qed.

(** *** Merging *)

Lemma merge_head m ms :
  ∃ suffix rest,
    ProcessResponse.merge_consecutive_messages (m :: ms)
    = Msg.add_content suffix m :: rest.
Proof.
  simpl. destruct (ProcessResponse.merge_consecutive_messages ms)
    as [|next merged].
  - exists "", []. by rewrite add_content_nil.
  - destruct (String.eqb _ _); eexists _, _; [done|].
    by rewrite add_content_nil.
Qed.

(** Merging invents no role. *)
Lemma merge_roles (P : string → Prop) ms :
  Forall (λ m, P (Msg.role m)) ms →
  Forall (λ m, P (Msg.role m))
         (ProcessResponse.merge_consecutive_messages ms).
Proof.
  induction 1 as [|m ms Hm _ IH]; [constructor|].
  simpl. destruct (ProcessResponse.merge_consecutive_messages ms)
    as [|next merged]; [by repeat constructor|].
  apply Forall_cons in IH as [Hn IH].
  destruct (String.eqb _ _); by repeat constructor.
Qed.

(** *** process_response.py: JSON, JSON_SCHEMA and MD_JSON *)

(** Up to the placement of the instruction: the request parameters and the
    store the placement works on. *)
Lemma json_modes_prepare t mode kwargs w l ms :
  json_mode mode →
  kwargs !! "messages" = Some (VList l) →
  view w l = Some ms →
  stream_allowed kwargs (as_openai_schema (adapt_simple t)) w →
  ∃ new_kwargs w1 l1 ds1,
    ProcessResponse.handle_response_model (Some t) mode kwargs w
    = (ProcessResponse.place_instruction new_kwargs
         (ProcessResponse.json_instruction (as_openai_schema (adapt_simple t)))
       ≫= λ _, mret (Some (as_openai_schema (adapt_simple t)), new_kwargs)) w1 ∧
    new_kwargs !! "messages" = Some (VList l1) ∧
    lists w1 !! l1 = Some ds1 ∧
    Forall2 (λ d m, dicts w1 !! d = Some m) ds1 (prepared mode ms) ∧
    (mode = MD_JSON → NoDup ds1) ∧
    (mode ≠ MD_JSON → l1 = l ∧ w1 = w) ∧
    events w1 = events w.
Proof.
  intros Hmode Hk Hv (b & Htruthy & Hguard).
  unfold ProcessResponse.handle_response_model.
  rewrite bool_decide_eq_false_2
    by (intros ->; destruct Hmode as [|[|]]; done).
  rewrite (bind_Ok _ _ _ _ _ Htruthy), Hguard.
  destruct Hmode as [->|[->| ->]].
  - apply view_Some in Hv as (ds & Hl & Hm).
    exists (<["response_format" :=
                VJson (JObj [("type", JStr "json_object")])]> kwargs).
    exists w, l, ds. split.
    { unfold mbind, M_bind, mret, M_ret. simpl.
      destruct (ProcessResponse.place_instruction _ _ _) as [[[]|?] ?]; done. }
    rewrite lookup_insert_ne by done. by repeat split.
  - apply view_Some in Hv as (ds & Hl & Hm).
    exists (<["response_format" :=
                VJson (JObj [("type", JStr "json_object");
                             ("schema",
                              model_json_schema
                                (as_openai_schema (adapt_simple t)))])]>
              kwargs).
    exists w, l, ds. split.
    { unfold mbind, M_bind, mret, M_ret. simpl.
      destruct (ProcessResponse.place_instruction _ _ _) as [[[]|?] ?]; done. }
    rewrite lookup_insert_ne by done. by repeat split.
  - destruct (append_message_view kwargs l (mret md_json_request)
                md_json_request w ms Hk Hv eq_refl) as (w0 & Ea & Hv0 & Hev0).
    destruct (new_messages_spec
                (ProcessResponse.merge_consecutive_messages
                   (ms ++ [md_json_request])) w0)
      as (l1 & ds1 & w1 & En & Hfresh & Hl1 & Hev1 & Hsub & Hm1 & Hnd & Hv1).
    exists (<["messages" := VList l1]> kwargs), w1, l1, ds1. split.
    { fold md_json_request. rewrite !bind_bind.
      step Ea. step (getitem_Some _ _ _ w0 Hk).
      step (eq_refl : as_indexable (VList l) w0 = (Ok l, w0)).
      step (read_messages_view _ _ _ Hv0). step En.
      unfold mbind, M_bind, mret, M_ret. simpl.
      destruct (ProcessResponse.place_instruction _ _ _)
        as [[[]|?] ?]; done. }
    rewrite lookup_insert_eq. split; [done|].
    split; [by rewrite Hl1, lookup_insert_eq|].
    split; [done|]. split; [done|]. split; [done|]. congruence.
Qed.

Lemma prepared_head mode m ms :
  ∃ suffix rest,
    prepared mode (m :: ms) = Msg.add_content suffix m :: rest.
Proof.
  destruct mode; try (exists "", ms; by rewrite add_content_nil).
  exact (merge_head m (ms ++ [md_json_request])).
Qed.

Lemma json_modes_placement t mode kwargs w l m ms :
  json_mode mode →
  kwargs !! "messages" = Some (VList l) →
  view w l = Some (m :: ms) →
  stream_allowed kwargs (as_openai_schema (adapt_simple t)) w →
  ∃ new_kwargs w' l' first rest,
    ProcessResponse.handle_response_model (Some t) mode kwargs w
    = (Ok (Some (as_openai_schema (adapt_simple t)), new_kwargs), w') ∧
    new_kwargs !! "messages" = Some (VList l') ∧
    view w' l' = Some (first :: rest) ∧
    events w' = events w ∧
    (Msg.role m ≠ "system" →
     first = Msg.plain "system"
               (ProcessResponse.json_instruction
                  (as_openai_schema (adapt_simple t))) ∧
     rest = prepared mode (m :: ms)) ∧
    (Msg.role m = "system" →
     (∃ between,
        first = Msg.add_content
                  (between +:+ nl +:+ nl
                     +:+ ProcessResponse.json_instruction
                           (as_openai_schema (adapt_simple t))) m) ∧
     length (first :: rest) = length (prepared mode (m :: ms)) ∧
     (mode ≠ MD_JSON → l' = l ∧ lists w' !! l = lists w !! l)).
Proof.
  intros Hmode Hk Hv Hs.
  destruct (json_modes_prepare t mode kwargs w l (m :: ms) Hmode Hk Hv Hs)
    as (nk & w1 & l1 & ds1 & -> & Hk1 & Hl1 & Hm1 & Hnd & Hsame & Hev1).
  destruct (prepared_head mode m ms) as (suffix & rest0 & Eprep).
  rewrite Eprep in Hm1.
  assert (view w1 l1 = Some (Msg.add_content suffix m :: rest0)) as Hv1.
  { apply view_Some. by exists ds1. }
  destruct (decide (Msg.role m = "system")) as [Hsys|Hsys].
  - destruct (place_instruction_append nk
                (ProcessResponse.json_instruction
                   (as_openai_schema (adapt_simple t)))
                l1 w1 _ _ Hk1 Hv1 Hsys)
      as (d & ds & ms' & Hl & Ep & Hv' & Hlen & _).
    eexists nk, _, l1, _, ms'. split; [by step Ep|].
    split; [done|]. split; [exact Hv'|]. split; [done|].
    split; [done|]. intros _. split; [|split].
    + exists suffix. by rewrite add_content_add_content.
    + rewrite Eprep. simpl. by rewrite Hlen.
    + intros Hmd. destruct (Hsame Hmd) as [-> ->]. done.
  - destruct (place_instruction_front nk
                (ProcessResponse.json_instruction
                   (as_openai_schema (adapt_simple t)))
                l1 w1 _ _ Hk1 Hv1 Hsys)
      as (w' & Ep & Hv' & Hev').
    eexists nk, w', l1, _, _. split; [by step Ep|].
    split; [done|]. split; [exact Hv'|]. split; [congruence|].
    split; [|done]. intros _. by rewrite Eprep.
Qed.

(** *** patch.py: JSON, JSON_SCHEMA and MD_JSON *)

Lemma patch_json_modes_prepare t mode kwargs w l ms instr :
  json_mode mode →
  kwargs !! "messages" = Some (VList l) →
  view w l = Some ms →
  stream_allowed kwargs (as_openai_schema t) w →
  Patch.json_instruction (as_openai_schema t) = Ok instr →
  ∃ new_kwargs w1,
    Patch.handle_response_model (Some t) kwargs mode w
    = ('(_, first) ← first_of_messages new_kwargs;
       (if negb (String.eqb (Msg.role first) "system") then
          v ← getitem new_kwargs "messages";
          l ← as_list "insert" v;
          list_insert0 l (Msg.plain "system" instr)
        else mret ());;
       '(d, first) ← first_of_messages new_kwargs;
       (if String.eqb (Msg.role first) "system" then
          write_dict d (Msg.add_content (nl +:+ nl +:+ instr) first)
        else mret ());;
       mret (Some (as_openai_schema t), new_kwargs)) w1 ∧
    new_kwargs !! "messages" = Some (VList l) ∧
    view w1 l = Some (patch_prepared mode ms) ∧
    (mode ≠ MD_JSON → w1 = w) ∧
    events w1 = events w.
Proof.
  intros Hmode Hk Hv (b & Htruthy & Hguard) Hinstr.
  unfold Patch.handle_response_model.
  rewrite bool_decide_eq_false_2
    by (intros ->; destruct Hmode as [|[|]]; done).
  rewrite (bind_Ok _ _ _ _ _ Htruthy), Hguard.
  destruct Hmode as [->|[->| ->]].
  - exists (<["response_format" :=
                VJson (JObj [("type", JStr "json_object")])]> kwargs), w.
    rewrite Hinstr. split; [done|].
    rewrite lookup_insert_ne by done. by repeat split.
  - exists (<["response_format" :=
                VJson (JObj [("type", JStr "json_object");
                             ("schema",
                              model_json_schema (as_openai_schema t))])]>
              kwargs), w.
    rewrite Hinstr. split; [done|].
    rewrite lookup_insert_ne by done. by repeat split.
  - destruct (append_message_view kwargs l (mret md_json_opening)
                md_json_opening w ms Hk Hv eq_refl) as (w1 & Ea & Hv1 & Hev1).
    exists (<["stop" := VStr "```"]> kwargs), w1.
    rewrite Hinstr. split.
    { rewrite (bind_Ok _ _ w instr w) by done.
      fold md_json_opening. by step Ea. }
    rewrite lookup_insert_ne by done. by repeat split.
Qed.

Lemma patch_json_modes_placement t mode kwargs w l m ms instr :
  json_mode mode →
  kwargs !! "messages" = Some (VList l) →
  view w l = Some (m :: ms) →
  stream_allowed kwargs (as_openai_schema t) w →
  Patch.json_instruction (as_openai_schema t) = Ok instr →
  ∃ new_kwargs w' first rest,
    Patch.handle_response_model (Some t) kwargs mode w
    = (Ok (Some (as_openai_schema t), new_kwargs), w') ∧
    new_kwargs !! "messages" = Some (VList l) ∧
    view w' l = Some (first :: rest) ∧
    events w' = events w ∧
    (Msg.role m ≠ "system" →
     first = Msg.plain "system" (instr +:+ nl +:+ nl +:+ instr) ∧
     rest = patch_prepared mode (m :: ms)) ∧
    (Msg.role m = "system" →
     first = Msg.add_content (nl +:+ nl +:+ instr) m ∧
     length (first :: rest) = length (patch_prepared mode (m :: ms)) ∧
     (mode ≠ MD_JSON → lists w' !! l = lists w !! l)).
Proof.
  intros Hmode Hk Hv Hs Hinstr.
  destruct (patch_json_modes_prepare t mode kwargs w l (m :: ms) instr
              Hmode Hk Hv Hs Hinstr)
    as (nk & w1 & -> & Hk1 & Hv1 & Hsame & Hev1).
  assert (patch_prepared mode (m :: ms) = m :: patch_prepared mode ms) as Eprep.
  { by destruct mode. }
  rewrite Eprep in Hv1. rewrite Eprep.
  destruct (decide (Msg.role m = "system")) as [Hsys|Hsys].
  - destruct (extend_first nk l w1 m _ (nl +:+ nl +:+ instr) Hk1 Hv1)
      as (d & ds & ms' & Hl & Ef & Hv' & Hlen & _).
    eexists nk, _, _, ms'. split.
    { step Ef. apply String.eqb_eq in Hsys as Hb. rewrite Hb. simpl.
      rewrite bind_ret. step Ef. rewrite Hb. done. }
    split; [done|]. split; [exact Hv'|]. split; [done|].
    split; [done|]. intros _. split; [done|]. split.
    + simpl. by rewrite Hlen.
    + intros Hmd. simpl. by rewrite (Hsame Hmd).
  - destruct (first_of_messages_view nk l w1 m _ Hk1 Hv1)
      as (d0 & ds0 & _ & _ & _ & Ef).
    destruct (list_insert0_fresh l (Msg.plain "system" instr) w1 _ Hv1)
      as (d & ds & w2 & Ei & Hl2 & Hfresh & Hv2 & Hev2).
    destruct (extend_first nk l w2 _ _ (nl +:+ nl +:+ instr) Hk1 Hv2)
      as (d' & ds' & ms' & Hl' & Ef2 & Hv' & Hlen & Hexact).
    assert (d' = d ∧ ds' = ds) as [-> ->] by (split; congruence).
    rewrite (Hexact Hfresh) in Hv'.
    eexists nk, _, _, _. split.
    { step Ef. apply String.eqb_neq in Hsys as Hb. rewrite Hb. simpl.
      step (getitem_Some _ _ _ w1 Hk1).
      step (eq_refl : as_list "insert" (VList l) w1 = (Ok l, w1)).
      step Ei. step Ef2. simpl. done. }
    split; [done|]. split; [exact Hv'|]. split; [simpl; congruence|].
    split; [|done]. intros _. by split.
Qed.

(** *** process_response.py: ANTHROPIC_TOOLS and ANTHROPIC_JSON *)

Lemma non_system_roles ms :
  Forall (λ m, Msg.role m ≠ "system") (non_system ms).
Proof.
  apply Forall_forall. intros m Hin.
  by apply list_elem_of_filter in Hin as [? _].
Qed.

Lemma system_contents_nil ms :
  length (ProcessResponse.system_contents ms) = 0%nat ↔
  ProcessResponse.system_contents ms = [].
Proof. destruct (ProcessResponse.system_contents ms); split; done. Qed.

Lemma drop_system_messages_spec new_kwargs l w ms :
  view w l = Some ms →
  ∃ l' w',
    ProcessResponse.drop_system_messages new_kwargs l w
    = (Ok (<["messages" := VList l']> new_kwargs), w') ∧
    view w' l' = Some (non_system ms) ∧
    view w' l = Some ms ∧
    dicts w' = dicts w ∧ events w' = events w.
Proof.
  intros Hv. pose proof Hv as (items & Hl & Hm)%view_Some.
  destruct (filter_by_role_Forall2
              (λ r, negb (ProcessResponse.is_system r)) w items ms Hm)
    as (kept & Ef & Hkept).
  unfold ProcessResponse.drop_system_messages.
  unfold mbind at 1, M_bind at 1, read_list at 1. rewrite Hl.
  step Ef. unfold mbind, M_bind, new_list. simpl.
  set (l' := fresh (dom (lists w))).
  assert (lists w !! l' = None) as Hfresh by apply not_elem_of_dom, is_fresh.
  exists l'. eexists. split; [done|]. simpl. split; [|split; [|done]].
  - apply view_Some. exists kept. simpl. split; [by rewrite lookup_insert_eq|].
    unfold non_system.
    rewrite (list_filter_iff _ (λ m, negb (ProcessResponse.is_system
                                             (Msg.role m)) = true)); [done|].
    intros m. unfold ProcessResponse.is_system.
    rewrite negb_true_iff. symmetry. apply String.eqb_neq.
  - apply view_Some. exists items. simpl. split; [|done].
    rewrite lookup_insert_ne; [done|]. intros ->. congruence.
Qed.

Lemma anthropic_tools_conflict t kwargs w l ms :
  kwargs !! "messages" = Some (VList l) →
  view w l = Some ms →
  stream_allowed kwargs (as_openai_schema (adapt_simple t)) w →
  is_Some (kwargs !! "system") →
  ProcessResponse.system_contents ms ≠ [] →
  ProcessResponse.handle_response_model (Some t) ANTHROPIC_TOOLS kwargs w
  = (Raise anthropic_tools_error, w).
Proof.
  intros Hk Hv (b & Htruthy & Hguard) Hsys Hne.
  unfold ProcessResponse.handle_response_model.
  rewrite bool_decide_eq_false_2 by done.
  rewrite (bind_Ok _ _ _ _ _ Htruthy), Hguard.
  rewrite bind_bind.
  assert (∀ v1 v2, <["tool_choice" := v1]> (<["tools" := v2]> kwargs)
                   !! "messages" = Some (VList l)) as Hk'.
  { intros. by rewrite !lookup_insert_ne. }
  step_by ltac:(apply getitem_Some, Hk').
  step (eq_refl : as_indexable (VList l) w = (Ok l, w)).
  step (read_messages_view _ _ _ Hv).
  rewrite bool_decide_eq_true_2 by done.
  destruct (ProcessResponse.system_contents ms) eqn:E; [done|]. done.
Qed.

Lemma anthropic_tools_extract t kwargs w l ms :
  kwargs !! "messages" = Some (VList l) →
  view w l = Some ms →
  stream_allowed kwargs (as_openai_schema (adapt_simple t)) w →
  kwargs !! "system" = None →
  ∃ new_kwargs w' l',
    ProcessResponse.handle_response_model (Some t) ANTHROPIC_TOOLS kwargs w
    = (Ok (Some (as_openai_schema (adapt_simple t)), new_kwargs), w') ∧
    new_kwargs !! "system"
    = Some (VStr (join (nl +:+ nl) (ProcessResponse.system_contents ms))) ∧
    new_kwargs !! "messages" = Some (VList l') ∧
    view w' l' = Some (non_system ms) ∧
    view w' l = Some ms ∧ events w' = events w.
Proof.
  intros Hk Hv (b & Htruthy & Hguard) Hsys.
  unfold ProcessResponse.handle_response_model.
  rewrite bool_decide_eq_false_2 by done.
  rewrite (bind_Ok _ _ _ _ _ Htruthy), Hguard.
  rewrite bind_bind.
  assert (∀ v1 v2, <["tool_choice" := v1]> (<["tools" := v2]> kwargs)
                   !! "messages" = Some (VList l)) as Hk'.
  { intros. by rewrite !lookup_insert_ne. }
  step_by ltac:(apply getitem_Some, Hk').
  step (eq_refl : as_indexable (VList l) w = (Ok l, w)).
  step (read_messages_view _ _ _ Hv).
  rewrite bool_decide_eq_false_2 by (rewrite Hsys; by intros [? ?]).
  simpl.
  match goal with
  | |- context [ProcessResponse.drop_system_messages ?nk l] =>
      destruct (drop_system_messages_spec nk l w ms Hv)
        as (l' & w' & Ed & Hv' & Hvl & _ & Hev)
  end.
  eexists _, w', l'. split; [by step Ed|].
  rewrite lookup_insert_ne by done. rewrite lookup_insert_eq.
  rewrite lookup_insert_eq. done.
Qed.

Lemma anthropic_json_conflict t kwargs w l ms :
  kwargs !! "messages" = Some (VList l) →
  view w l = Some ms →
  stream_allowed kwargs (as_openai_schema (adapt_simple t)) w →
  is_Some (kwargs !! "system") →
  ProcessResponse.system_contents ms ≠ [] →
  ProcessResponse.handle_response_model (Some t) ANTHROPIC_JSON kwargs w
  = (Raise anthropic_json_error, w).
Proof.
  intros Hk Hv (b & Htruthy & Hguard) Hsys Hne.
  unfold ProcessResponse.handle_response_model.
  rewrite bool_decide_eq_false_2 by done.
  rewrite (bind_Ok _ _ _ _ _ Htruthy), Hguard.
  rewrite Hk.
  step (eq_refl : as_indexable (VList l) w = (Ok l, w)).
  step (read_messages_view _ _ _ Hv).
  rewrite bool_decide_eq_true_2 by done.
  destruct (ProcessResponse.system_contents ms) eqn:E; [done|]. done.
Qed.

Lemma merged_copy_spec w ms :
  ∃ l' w',
    new_messages (ProcessResponse.merge_consecutive_messages ms) w
    = (Ok l', w') ∧
    view w' l' = Some (ProcessResponse.merge_consecutive_messages ms) ∧
    (∀ l0 ms0, view w l0 = Some ms0 → view w' l0 = Some ms0) ∧
    events w' = events w.
Proof.
  destruct (new_messages_spec (ProcessResponse.merge_consecutive_messages ms) w)
    as (l' & ds & w' & En & Hfresh & Hl' & Hev & Hsub & _ & _ & Hv').
  exists l', w'. split; [done|]. split; [done|]. split; [|done].
  intros l0 ms0 Hv0. eapply view_weaken; [|exact Hsub|exact Hv0].
  rewrite Hl'. rewrite lookup_insert_ne; [done|].
  intros ->. apply view_Some in Hv0 as (? & ? & _). congruence.
Qed.

Lemma anthropic_json_extract t kwargs w l ms :
  kwargs !! "messages" = Some (VList l) →
  view w l = Some ms →
  stream_allowed kwargs (as_openai_schema (adapt_simple t)) w →
  kwargs !! "system" = None →
  ∃ new_kwargs w' l',
    ProcessResponse.handle_response_model (Some t) ANTHROPIC_JSON kwargs w
    = (Ok (Some (as_openai_schema (adapt_simple t)), new_kwargs), w') ∧
    new_kwargs !! "system"
    = Some (VStr (dedent
                    (nl +:+ nl
                        +:+ join (nl +:+ nl)
                                 (ProcessResponse.system_contents ms)
                        +:+ ProcessResponse.anthropic_json_instruction
                              (as_openai_schema (adapt_simple t))))) ∧
    new_kwargs !! "messages" = Some (VList l') ∧
    view w' l'
    = Some (ProcessResponse.merge_consecutive_messages (non_system ms)) ∧
    view w' l = Some ms ∧ events w' = events w.
Proof.
  intros Hk Hv (b & Htruthy & Hguard) Hsys.
  unfold ProcessResponse.handle_response_model.
  rewrite bool_decide_eq_false_2 by done.
  rewrite (bind_Ok _ _ _ _ _ Htruthy), Hguard.
  rewrite Hk.
  step (eq_refl : as_indexable (VList l) w = (Ok l, w)).
  step (read_messages_view _ _ _ Hv).
  rewrite bool_decide_eq_false_2 by (rewrite Hsys; by intros [? ?]).
  simpl. rewrite Hsys. rewrite bind_bind, bind_ret.
  rewrite lookup_insert_ne by done. rewrite Hk.
  step (eq_refl : as_indexable (VList l) w = (Ok l, w)).
  match goal with
  | |- context [ProcessResponse.drop_system_messages ?nk l] =>
      destruct (drop_system_messages_spec nk l w ms Hv)
        as (l1 & w1 & Ed & Hv1 & Hvl & _ & Hev1);
      destruct (merged_copy_spec w1 (non_system ms))
        as (l' & w' & Em & Hv' & Hkeep & Hev')
  end.
  eexists _, w', l'. split.
  { step Ed.
    step_by ltac:(apply getitem_Some, lookup_insert_eq).
    step (eq_refl : as_indexable (VList l1) w1 = (Ok l1, w1)).
    step (read_messages_view _ _ _ Hv1). by step Em. }
  rewrite lookup_insert_eq.
  rewrite lookup_insert_ne by done. rewrite lookup_insert_ne by done.
  rewrite !lookup_insert_eq.
  change ("" +:+ nl +:+ nl +:+ ?x) with (nl +:+ nl +:+ x).
  rewrite !append_assoc.
  split; [done|]. split; [done|]. split; [done|].
  split; [by apply Hkeep|congruence].
Qed.

(** *** process_response.py: GEMINI_JSON *)

Lemma place_instruction_ok kwargs message l w m ms :
  kwargs !! "messages" = Some (VList l) →
  view w l = Some (m :: ms) →
  ∃ w' ms', ProcessResponse.place_instruction kwargs message w = (Ok (), w') ∧
            view w' l = Some ms' ∧ events w' = events w.
Proof.
  intros Hk Hv. destruct (decide (Msg.role m = "system")) as [Hsys|Hsys].
  - destruct (place_instruction_append kwargs message l w m ms Hk Hv Hsys)
      as (d & ds & ms' & _ & Ep & Hv' & _). eauto.
  - destruct (place_instruction_front kwargs message l w m ms Hk Hv Hsys)
      as (w' & Ep & Hv' & Hev). eauto.
Qed.

(** A key that is none of the finitely many keys of a literal list. *)
Ltac not_a_key :=
  let Hin := fresh in
  simpl; intros Hin;
  repeat (apply elem_of_cons in Hin as [Hin|Hin]; [discriminate Hin|]);
  by apply elem_of_nil in Hin.

Lemma update_gemini_config_spec args : ∀ new_kwargs d w,
  new_kwargs !! "generation_config" = Some (VDict d) →
  "generation_config" ∉ args.*1 →
  ∃ new_kwargs' d',
    ProcessResponse.update_gemini_config args new_kwargs w
    = (Ok new_kwargs', w) ∧
    new_kwargs' !! "generation_config" = Some (VDict d') ∧
    ∀ key, key ∉ args.*1 → key ≠ "generation_config" →
           new_kwargs' !! key = new_kwargs !! key.
Proof.
  induction args as [|[k v] args IH]; intros nk d w Hcfg Hnin.
  { exists nk, d. by repeat split. }
  simpl in Hnin. apply not_elem_of_cons in Hnin as [Hk Hnin].
  assert (delete k nk !! "generation_config" = Some (VDict d)) as Hcfg'.
  { by rewrite lookup_delete_ne. }
  assert (∀ nk1 d1,
            nk1 !! "generation_config" = Some (VDict d1) →
            (∀ key, key ≠ k → key ≠ "generation_config" →
                    nk1 !! key = nk !! key) →
            ∃ nk' d',
              ProcessResponse.update_gemini_config args nk1 w = (Ok nk', w) ∧
              nk' !! "generation_config" = Some (VDict d') ∧
              ∀ key, key ∉ (k, v).1 :: args.*1 → key ≠ "generation_config" →
                     nk' !! key = nk !! key) as Hrest.
  { intros nk1 d1 Hcfg1 Hsame.
    destruct (IH nk1 d1 w Hcfg1 Hnin) as (nk' & d' & E & Hcfg'' & Hkeys).
    exists nk', d'. split; [done|]. split; [done|].
    intros key [Hkey Hkeys']%not_elem_of_cons Hg.
    rewrite Hkeys by done. by apply Hsame. }
  simpl.
  assert (∀ key, key ≠ k → key ≠ "generation_config" →
                 delete k nk !! key = nk !! key) as Hdel.
  { intros. by rewrite lookup_delete_ne. }
  destruct (get_or nk k VNone) eqn:Eval;
    try (rewrite (bind_Ok _ _ _ _ _ (getitem_Some _ _ _ w Hcfg'));
         apply (Hrest _ _ (lookup_insert_eq _ _ _));
         intros; rewrite lookup_insert_ne by done; by apply Hdel).
  by apply (Hrest _ d).
Qed.

(** The safety thresholds of the request that leaves the handler. *)
Lemma gemini_safety_settings t kwargs w l m ms caller :
  kwargs !! "model" = None →
  kwargs !! "messages" = Some (VList l) →
  view w l = Some (m :: ms) →
  stream_allowed kwargs (as_openai_schema (adapt_simple t)) w →
  (kwargs !! "generation_config" = None ∨
   ∃ d, kwargs !! "generation_config" = Some (VDict d)) →
  kwargs !! "safety_settings" = VSafety <$> caller →
  ∃ new_kwargs w',
    ProcessResponse.handle_response_model (Some t) GEMINI_JSON kwargs w
    = (Ok (Some (as_openai_schema (adapt_simple t)), new_kwargs), w') ∧
    new_kwargs !! "safety_settings"
    = Some (VSafety (ProcessResponse.dict_or
                       (default ∅ caller)
                       ProcessResponse.default_safety_settings)).
Proof.
  intros Hmodel Hk Hv (b & Htruthy & Hguard) Hcfg Hsafety.
  unfold ProcessResponse.handle_response_model.
  rewrite bool_decide_eq_false_2 by done.
  rewrite (bind_Ok _ _ _ _ _ Htruthy), Hguard.
  rewrite bool_decide_eq_false_2 by (rewrite Hmodel; by intros [? ?]).
  destruct (place_instruction_ok kwargs
              (ProcessResponse.json_instruction
                 (as_openai_schema (adapt_simple t))) l w m ms Hk Hv)
    as (w1 & ms1 & Ep & Hv1 & Hev1).
  step Ep.
  assert (∃ d, get_or kwargs "generation_config" (VDict ∅) = VDict d)
    as [d Ed].
  { unfold get_or. destruct Hcfg as [->|[d ->]]; eauto. }
  rewrite Ed. rewrite bind_bind, bind_ret.
  match goal with
  | |- context [ProcessResponse.update_gemini_config _ ?nk] =>
      destruct (update_gemini_config_spec
                  ProcessResponse.map_openai_args_to_gemini nk _ w1
                  (lookup_insert_eq _ _ _))
        as (nk' & d' & Eu & Hcfg' & Hkeys)
  end.
  { not_a_key. }
  step Eu.
  assert (nk' !! "messages" = Some (VList l)) as Hk'.
  { rewrite Hkeys; [by rewrite lookup_insert_ne| |done]. not_a_key. }
  unfold ClientVertexAI.pop_messages.
  step (getitem_Some _ _ _ w1 Hk').
  step (eq_refl : as_indexable (VList l) w1 = (Ok l, w1)).
  step (read_messages_view _ _ _ Hv1).
  rewrite bind_ret. simpl.
  assert (get_or (<["contents" := transform_to_gemini_prompt ms1]>
                    (delete "messages" nk')) "safety_settings" (VSafety ∅)
          = VSafety (default ∅ caller)) as ->.
  { unfold get_or. rewrite lookup_insert_ne by done.
    rewrite lookup_delete_ne by done.
    rewrite Hkeys; [|not_a_key|done].
    rewrite lookup_insert_ne by done. rewrite Hsafety. by destruct caller. }
  eexists _, w1. split; [done|]. by rewrite lookup_insert_eq.
Qed.

End handler_facts.

(** ** The Gemini schema of client_vertexai.py *)

Section vertex_facts.
Context `{Runtime}.

Lemma defaulted_spec properties :
  Forall (λ pd, is_dict pd.2) properties →
  ClientVertexAI.defaulted properties
  = Ok (JStr <$> default_bearing properties).
Proof.
  unfold default_bearing.
  induction 1 as [|[prop description] properties [fields Hd] _ IH]; [done|].
  simpl in Hd. subst description.
  rewrite filter_cons. cbn [ClientVertexAI.defaulted ClientVertexAI.has_default].
  rewrite IH. cbn [snd carries_default].
  destruct (assoc_has "default" fields); [by rewrite decide_True|].
  by rewrite decide_False.
Qed.

Lemma create_gemini_json_schema_spec model fields properties type required :
  replace_refs (model_json_schema model) = JObj fields →
  assoc_get "properties" fields = Some (JObj properties) →
  assoc_get "type" fields = Some type →
  Forall (λ pd, is_dict pd.2) properties →
  assoc_get "required" fields = JArr <$> required →
  ClientVertexAI._create_gemini_json_schema model
  = Ok (JObj [("type", type);
              ("properties", JObj properties);
              ("required",
               JArr (default [] required
                       ++ (JStr <$> default_bearing properties)))]).
Proof.
  intros Hschema Hprops Htype Hdicts Hreq.
  unfold ClientVertexAI._create_gemini_json_schema.
  rewrite Hschema. unfold subscript. rewrite Hprops, Htype.
  assert (match
             match assoc_get "required" fields with
             | Some v => Ok v
             | None => Raise (KeyError "required")
             end
           with
           | Raise (KeyError _) => Ok (JArr [])
           | r => r
           end = Ok (JArr (default [] required))) as ->.
  { rewrite Hreq. by destruct required. }
  simpl. rewrite (defaulted_spec _ Hdicts). done.
Qed.

Lemma required_NoDup declared properties :
  NoDup declared →
  NoDup properties.*1 →
  (∀ prop, prop ∈ default_bearing properties → JStr prop ∉ declared) →
  NoDup (declared ++ (JStr <$> default_bearing properties)).
Proof.
  intros Hdecl Hprops Hdisj. apply NoDup_app. split; [done|]. split.
  - intros x Hx (prop & -> & Hprop)%list_elem_of_fmap.
    by apply (Hdisj prop).
  - apply NoDup_fmap_2; [by intros ?? [= ->]|].
    eapply sublist_NoDup; [exact Hprops|].
    unfold default_bearing. apply fmap_sublist, sublist_filter.
Qed.

End vertex_facts.

(** ** Computations that at most allocate *)

(** A key that is none of the finitely many entries of a literal list. *)
Ltac not_listed :=
  let Hin := fresh in
  simpl; intros Hin;
  repeat (apply elem_of_cons in Hin as [Hin|Hin]; [discriminate Hin|]);
  by apply elem_of_nil in Hin.

Section frame_facts.
Context `{Runtime}.

Lemma extends_refl w : extends w w.
Proof. by repeat split. Qed.

Lemma extends_trans w1 w2 w3 : extends w1 w2 → extends w2 w3 → extends w1 w3.
Proof.
  intros (Hl & Hd & He) (Hl' & Hd' & He').
  split; [by etrans|]. split; [by etrans|]. congruence.
Qed.

Lemma extends_view w w' l ms :
  extends w w' → view w l = Some ms → view w' l = Some ms.
Proof.
  intros (Hl & Hd & _) (items & Hi & Hm)%view_Some. apply view_Some.
  exists items. split; [by eapply lookup_weaken|].
  eapply Forall2_impl; [exact Hm|].
  intros d m Hdm. simpl in *. by eapply lookup_weaken.
Qed.

Lemma allocating_keeps_world {A} (m : M A) : keeps_world m → allocating m.
Proof. intros Hm w x w' E. apply Hm in E as ->. apply extends_refl. Qed.

Lemma allocating_bind {A B} (m : M A) (k : A → M B) :
  allocating m → (∀ a, allocating (k a)) → allocating (m ≫= k).
Proof.
  intros Hm Hk w x w'. unfold mbind, M_bind.
  destruct (m w) as [[a|e] w1] eqn:E; apply Hm in E.
  - intros E'. apply Hk in E'. by eapply extends_trans.
  - by intros [= _ <-].
Qed.

Lemma allocating_new_dict m : allocating (new_dict m).
Proof.
  intros w x w' [= _ <-]. split; [done|]. split; [|done]. simpl.
  apply insert_subseteq, not_elem_of_dom, is_fresh.
Qed.

Lemma allocating_new_list items : allocating (new_list items).
Proof.
  intros w x w' [= _ <-]. split; [|done]. simpl.
  apply insert_subseteq, not_elem_of_dom, is_fresh.
Qed.

Lemma allocating_new_messages ms : allocating (new_messages ms).
Proof.
  unfold new_messages.
  apply allocating_bind; [|intros ds; apply allocating_new_list].
  induction ms as [|m ms IH]; simpl.
  - apply allocating_keeps_world, keeps_world_ret.
  - apply allocating_bind; [apply allocating_new_dict|intros d].
    apply allocating_bind; [apply IH|intros ds].
    apply allocating_keeps_world, keeps_world_ret.
Qed.

Lemma keeps_world_read_messages l : keeps_world (read_messages l).
Proof.
  unfold read_messages.
  apply keeps_world_bind; [apply keeps_world_read_list|intros items].
  induction items as [|d items IH]; simpl; [apply keeps_world_ret|].
  apply keeps_world_bind; [apply keeps_world_read_dict|intros m].
  apply keeps_world_bind; [apply IH|intros ms]. apply keeps_world_ret.
Qed.

Lemma keeps_world_filter_by_role keep items :
  keeps_world (filter_by_role keep items).
Proof.
  induction items as [|d items IH]; simpl; [apply keeps_world_ret|].
  apply keeps_world_bind; [apply keeps_world_read_dict|intros m].
  apply keeps_world_bind; [apply IH|intros ms]. apply keeps_world_ret.
Qed.

Lemma keeps_world_as_indexable v : keeps_world (as_indexable v).
Proof.
  destruct v; first [apply keeps_world_ret|apply keeps_world_raise].
Qed.

Lemma allocating_drop_system_messages new_kwargs l :
  allocating (ProcessResponse.drop_system_messages new_kwargs l).
Proof.
  unfold ProcessResponse.drop_system_messages.
  apply allocating_bind;
    [apply allocating_keeps_world, keeps_world_read_list|intros items].
  apply allocating_bind;
    [apply allocating_keeps_world, keeps_world_filter_by_role|intros kept].
  apply allocating_bind; [apply allocating_new_list|intros l'].
  apply allocating_keeps_world, keeps_world_ret.
Qed.

Lemma keeps_world_pop_messages kwargs :
  keeps_world (ClientVertexAI.pop_messages kwargs).
Proof.
  unfold ClientVertexAI.pop_messages.
  apply keeps_world_bind; [apply keeps_world_getitem|intros v].
  apply keeps_world_bind; [apply keeps_world_as_indexable|intros l].
  apply keeps_world_bind; [apply keeps_world_read_messages|intros ms].
  apply keeps_world_ret.
Qed.

Lemma keeps_world_vertexai_process_response kwargs model :
  keeps_world (ClientVertexAI.vertexai_process_response kwargs model).
Proof.
  unfold ClientVertexAI.vertexai_process_response.
  apply keeps_world_bind; [apply keeps_world_pop_messages|intros [ms nk]].
  auto 10 with keeps.
Qed.

Lemma keeps_world_vertexai_process_json_response kwargs model :
  keeps_world (ClientVertexAI.vertexai_process_json_response kwargs model).
Proof.
  unfold ClientVertexAI.vertexai_process_json_response.
  apply keeps_world_bind; [apply keeps_world_pop_messages|intros [ms nk]].
  apply keeps_world_bind; [apply keeps_world_lift|intros schema].
  apply keeps_world_bind; [apply keeps_world_truthy|intros b].
  apply keeps_world_bind; [|intros extra; apply keeps_world_ret].
  destruct b; [|apply keeps_world_ret].
  destruct (get_or nk "generation_config" VNone);
    try apply keeps_world_raise.
  destruct (bool_decide _); [apply keeps_world_raise|apply keeps_world_ret].
Qed.

(** Outside the three JSON modes and GEMINI_JSON the handler of
    process_response.py at most allocates. *)
Lemma other_modes_allocate t mode kwargs :
  mode ∉ [JSON; JSON_SCHEMA; MD_JSON; GEMINI_JSON] →
  allocating (ProcessResponse.handle_response_model (Some t) mode kwargs).
Proof.
  intros Hmode.
  unfold ProcessResponse.handle_response_model.
  destruct (bool_decide (mode = PARALLEL_TOOLS)).
  { apply allocating_keeps_world. auto with keeps. }
  apply allocating_bind;
    [apply allocating_keeps_world, keeps_world_truthy|intros stream].
  destruct (stream && _);
    [apply allocating_keeps_world, keeps_world_raise|].
  apply allocating_bind;
    [|intros nk; apply allocating_keeps_world, keeps_world_ret].
  rewrite !not_elem_of_cons in Hmode.
  destruct Hmode as (? & ? & ? & ? & _).
  destruct mode; try done.
  - apply allocating_keeps_world. auto 10 with keeps.
  - apply allocating_keeps_world. auto 10 with keeps.
  - apply allocating_keeps_world. auto 10 with keeps.
  - apply allocating_keeps_world. auto 10 with keeps.
  - apply allocating_bind;
      [apply allocating_keeps_world, keeps_world_getitem|intros v].
    apply allocating_bind;
      [apply allocating_keeps_world, keeps_world_as_indexable|intros l].
    apply allocating_bind;
      [apply allocating_keeps_world, keeps_world_read_messages|intros ms].
    destruct (_ && _);
      [apply allocating_keeps_world, keeps_world_raise|].
    apply allocating_drop_system_messages.
  - apply allocating_bind; [apply allocating_keeps_world|intros ms].
    { destruct (kwargs !! "messages"); [|apply keeps_world_ret].
      apply keeps_world_bind; [apply keeps_world_as_indexable|intros l].
      apply keeps_world_read_messages. }
    destruct (_ && _);
      [apply allocating_keeps_world, keeps_world_raise|].
    apply allocating_bind; [apply allocating_keeps_world|intros nk].
    { destruct (kwargs !! "system") as [[]|]; auto with keeps. }
    apply allocating_bind; [|intros nk'].
    { destruct (nk !! "messages").
      - apply allocating_bind;
          [apply allocating_keeps_world, keeps_world_as_indexable|intros l].
        apply allocating_drop_system_messages.
      - apply allocating_bind; [apply allocating_new_list|intros l].
        apply allocating_keeps_world, keeps_world_ret. }
    apply allocating_bind;
      [apply allocating_keeps_world, keeps_world_getitem|intros v].
    apply allocating_bind;
      [apply allocating_keeps_world, keeps_world_as_indexable|intros l].
    apply allocating_bind;
      [apply allocating_keeps_world, keeps_world_read_messages|intros ms'].
    apply allocating_bind; [apply allocating_new_messages|intros l'].
    apply allocating_keeps_world, keeps_world_ret.
  - apply allocating_bind; [apply allocating_keeps_world|intros ms].
    { destruct (kwargs !! "messages"); [|apply keeps_world_ret].
      apply keeps_world_bind; [apply keeps_world_as_indexable|intros l].
      apply keeps_world_read_messages. }
    apply allocating_keeps_world, keeps_world_ret.
  - apply allocating_bind;
      [apply allocating_keeps_world,
         keeps_world_vertexai_process_response|intros [[[? ?] ?] ?]].
    apply allocating_keeps_world, keeps_world_ret.
  - apply allocating_bind;
      [apply allocating_keeps_world,
         keeps_world_vertexai_process_json_response|intros [[? ?] ?]].
    apply allocating_keeps_world, keeps_world_ret.
Qed.

(** Outside the three JSON modes the handler of patch.py leaves the store
    alone. *)
Lemma patch_other_modes_keep_world t kwargs mode :
  ¬ json_mode mode →
  keeps_world (Patch.handle_response_model (Some t) kwargs mode).
Proof.
  intros Hmode. unfold Patch.handle_response_model.
  destruct (bool_decide (mode = PARALLEL_TOOLS)); [auto with keeps|].
  apply keeps_world_bind; [apply keeps_world_truthy|intros stream].
  destruct (stream && _); [apply keeps_world_raise|].
  destruct mode;
    try (exfalso; apply Hmode; unfold json_mode; by auto);
    auto 10 with keeps.
Qed.

(** *** process_response.py: GEMINI_JSON *)

(** The placement rule on the caller's list, and the request that leaves
    the handler. *)
Lemma gemini_placement t kwargs w l m ms :
  kwargs !! "model" = None →
  kwargs !! "messages" = Some (VList l) →
  view w l = Some (m :: ms) →
  stream_allowed kwargs (as_openai_schema (adapt_simple t)) w →
  (kwargs !! "generation_config" = None ∨
   ∃ d, kwargs !! "generation_config" = Some (VDict d)) →
  (kwargs !! "safety_settings" = None ∨
   ∃ s, kwargs !! "safety_settings" = Some (VSafety s)) →
  ∃ new_kwargs w' first rest,
    ProcessResponse.handle_response_model (Some t) GEMINI_JSON kwargs w
    = (Ok (Some (as_openai_schema (adapt_simple t)), new_kwargs), w') ∧
    new_kwargs !! "messages" = None ∧
    new_kwargs !! "contents"
    = Some (transform_to_gemini_prompt (first :: rest)) ∧
    view w' l = Some (first :: rest) ∧
    events w' = events w ∧
    (Msg.role m ≠ "system" →
     first = Msg.plain "system"
               (ProcessResponse.json_instruction
                  (as_openai_schema (adapt_simple t))) ∧
     rest = m :: ms) ∧
    (Msg.role m = "system" →
     first = Msg.add_content
               (nl +:+ nl +:+ ProcessResponse.json_instruction
                                (as_openai_schema (adapt_simple t))) m ∧
     length rest = length ms ∧
     lists w' = lists w).
Proof.
  intros Hmodel Hk Hv (b & Htruthy & Hguard) Hcfg Hsafety.
  set (instr := ProcessResponse.json_instruction
                  (as_openai_schema (adapt_simple t))).
  assert (∃ w1 first rest,
            ProcessResponse.place_instruction kwargs instr w = (Ok (), w1) ∧
            view w1 l = Some (first :: rest) ∧
            events w1 = events w ∧
            (Msg.role m ≠ "system" →
             first = Msg.plain "system" instr ∧ rest = m :: ms) ∧
            (Msg.role m = "system" →
             first = Msg.add_content (nl +:+ nl +:+ instr) m ∧
             length rest = length ms ∧ lists w1 = lists w))
    as (w1 & first & rest & Ep & Hv1 & Hev1 & Hfront & Hgrow).
  { destruct (decide (Msg.role m = "system")) as [Hsys|Hsys].
    - destruct (place_instruction_append kwargs instr l w m ms Hk Hv Hsys)
        as (d & ds & ms' & _ & Ep & Hv' & Hlen & _).
      eexists _, _, ms'. split; [exact Ep|]. split; [exact Hv'|].
      split; [done|]. split; [done|]. intros _. by repeat split.
    - destruct (place_instruction_front kwargs instr l w m ms Hk Hv Hsys)
        as (w1 & Ep & Hv' & Hev).
      eexists w1, _, _. split; [exact Ep|]. split; [exact Hv'|].
      split; [done|]. split; [|done]. intros _. by split. }
  unfold ProcessResponse.handle_response_model.
  rewrite bool_decide_eq_false_2 by done.
  rewrite (bind_Ok _ _ _ _ _ Htruthy), Hguard.
  rewrite bool_decide_eq_false_2 by (rewrite Hmodel; by intros [? ?]).
  fold instr. step Ep.
  assert (∃ d, get_or kwargs "generation_config" (VDict ∅) = VDict d)
    as [d Ed].
  { unfold get_or. destruct Hcfg as [->|[d ->]]; eauto. }
  rewrite Ed. rewrite bind_bind, bind_ret.
  match goal with
  | |- context [ProcessResponse.update_gemini_config _ ?nk] =>
      destruct (update_gemini_config_spec
                  ProcessResponse.map_openai_args_to_gemini nk _ w1
                  (lookup_insert_eq _ _ _))
        as (nk' & d' & Eu & Hcfg' & Hkeys)
  end.
  { not_listed. }
  step Eu.
  assert (nk' !! "messages" = Some (VList l)) as Hk'.
  { rewrite Hkeys; [by rewrite lookup_insert_ne| |done]. not_listed. }
  unfold ClientVertexAI.pop_messages.
  step (getitem_Some _ _ _ w1 Hk').
  step (eq_refl : as_indexable (VList l) w1 = (Ok l, w1)).
  step (read_messages_view _ _ _ Hv1).
  rewrite bind_ret. cbv beta iota.
  assert (∃ s, get_or (<["contents" :=
                           transform_to_gemini_prompt (first :: rest)]>
                         (delete "messages" nk'))
                      "safety_settings" (VSafety ∅)
               = VSafety s) as [s ->].
  { unfold get_or. rewrite lookup_insert_ne by done.
    rewrite lookup_delete_ne by done.
    rewrite Hkeys; [|not_listed|done].
    rewrite lookup_insert_ne by done.
    destruct Hsafety as [->|[s ->]]; eauto. }
  rewrite bind_bind, bind_ret.
  eexists _, w1, first, rest. split; [done|].
  split; [rewrite !lookup_insert_ne by done; apply lookup_delete_eq|].
  split; [rewrite lookup_insert_ne by done; apply lookup_insert_eq|].
  split; [exact Hv1|]. split; [exact Hev1|].
  split; [exact Hfront|exact Hgrow].
Qed.

End frame_facts.

(** * The claims *)

Section claims.
Context `{Runtime}.
Import Patch.

(** ** C10: what [dump_message] re-appends *)


(** ** C5: what the transport raises itself *)

(** C5. An exception of the transport that is neither a ValidationError nor
    a JSONDecodeError is not retried, at whatever attempt it occurs: the
    loop ends with this exception, the transport is not invoked again, and
    no list and no message of the store has changed, so no corrective turn
    was appended. In particular a call whose first invocation fails so
    ends at once, in [retry_sync] and in [retry_async]. *)
Theorem C5_transport_error_propagates (func : Transport)
    (response_model : option ResponseModel) (validation_context : option json)
    (kwargs : gmap string value) (max_retries : Z) (strict : option bool)
    (mode : Mode) (e : exn) :
  retriable e = false →
  (∀ text fuel retries total_usage response w,
     (retries ≤ max_retries)%Z →
     func kwargs w = Raise e →
     retry_loop text func response_model validation_context kwargs
                max_retries strict mode (S fuel) retries total_usage response w
     = (Raise e,
        World (lists w) (dicts w) (events w ++ [Called (Raise e)]))) ∧
  (∀ w,
     (0 ≤ max_retries)%Z →
     func kwargs w = Raise e →
     retry_sync func response_model validation_context kwargs max_retries
                strict mode w
     = (Raise e, World (lists w) (dicts w) (events w ++ [Called (Raise e)])) ∧
     retry_async func response_model validation_context kwargs max_retries
                 strict mode w
     = (Raise e, World (lists w) (dicts w) (events w ++ [Called (Raise e)]))).
Proof.
  intros He.
  assert (∀ text fuel retries total_usage response w,
            (retries ≤ max_retries)%Z →
            func kwargs w = Raise e →
            retry_loop text func response_model validation_context kwargs
                       max_retries strict mode (S fuel) retries total_usage
                       response w
            = (Raise e,
               World (lists w) (dicts w) (events w ++ [Called (Raise e)])))
    as Hloop.
  { intros text fuel retries total_usage response w Hle Hf. simpl.
    rewrite bool_decide_eq_true_2 by done.
    unfold catching at 1, call. by rewrite Hf, He. }
  split; [exact Hloop|].
  intros w Hmax Hf. unfold retry_sync, retry_async, retry.
  split; by apply Hloop.
Qed.

(** ** C2: the order of the corrective turns *)


(** ** C4: no retries left *)

(** C4, amended. With [max_retries = 0] and a first response that the
    parser rejects with a ValidationError or a JSONDecodeError, the call
    invokes the transport exactly once, appends the corrective turns of
    this one attempt, and raises that error itself: the exception is the
    ValidationError or JSONDecodeError of the parser, not a wrapper, and
    carries no response. *)
Theorem C4_sole_attempt_reraises (text : wording) (run : M exit)
    (func : Transport) (response_model : option ResponseModel)
    (validation_context : option json) (kwargs : gmap string value)
    (strict : option bool) (mode : Mode) (w : world) (l : loc)
    (ms : list Msg.t) (c : Choice.t) (cs : list Choice.t)
    (u : option CompletionUsage.t) (tc : ToolCall.t) (tcs : list ToolCall.t)
    (e : exn) :
  (text = sync_wording ∧
   run = retry_sync func response_model validation_context kwargs 0 strict mode)
  ∨ (text = async_wording ∧
     run = retry_async func response_model validation_context kwargs 0 strict
                       mode) →
  kwargs !! "messages" = Some (VList l) →
  view w l = Some ms →
  func kwargs w = Ok (ChatCompletion (c :: cs) u) →
  (∀ w1, (process_response
            (accumulate CompletionUsage.zero (ChatCompletion (c :: cs) u)).2
            response_model (get_or kwargs "stream" (VBool false))
            validation_context strict mode w1).1 = Raise e) →
  retriable e = true →
  (mode = TOOLS →
   ChatCompletionMessage.tool_calls (Choice.message c) = Some (tc :: tcs)) →
  ∃ w',
    run w = (Raise e, w') ∧
    ¬ is_terminal_retry_error e ∧
    events w'
    = events w
      ++ [Called (Ok (ChatCompletion (c :: cs) u));
          Handed (accumulate CompletionUsage.zero
                             (ChatCompletion (c :: cs) u)).2] ∧
    view w' l = Some (ms ++ corrective_turns text mode (Choice.message c) tc e).
Proof.
  intros Hrun Hk Hv Hf Hparse He Htc.
  destruct (retry_loop_failed_attempt text func response_model
              validation_context kwargs 0 strict mode (Z.to_nat (0 + 1)) 0
              CompletionUsage.zero None w l ms c cs u tc tcs e)
    as (w' & Hv' & Hev & Hloop); [done..|].
  exists w'. split; [|split; [|done]].
  - destruct Hrun as [[-> ->]|[-> ->]]; exact Hloop.
  - intros (last & cause & ->). done.
Qed.

(** ** C1: usage across attempts *)


(** ** C3: where the instruction goes *)

Lemma length_nl : String.length nl = 1%nat.
Proof. reflexivity. Qed.


(** ** C6: the system string of the Anthropic modes *)

(** C6. In ANTHROPIC_TOOLS and ANTHROPIC_JSON, a request that carries both
    a top-level [system] parameter and a system message makes the handler
    raise at once, with the store, and so the record of provider calls, as
    it was. Without a [system] parameter, the contents of all system
    messages are joined with blank lines into the top-level [system]
    string (in ANTHROPIC_JSON after a blank line and before the schema
    text, the whole passed through [dedent]), and the message list of the
    request holds the other messages only, in order (in ANTHROPIC_JSON
    merged), none of them a system message. *)
Theorem C6_anthropic_system_messages (t : TypeHint)
    (kwargs : gmap string value) (w : world) (l : loc) (ms : list Msg.t) :
  kwargs !! "messages" = Some (VList l) →
  view w l = Some ms →
  stream_allowed kwargs (as_openai_schema (adapt_simple t)) w →
  (is_Some (kwargs !! "system") →
   ProcessResponse.system_contents ms ≠ [] →
   ProcessResponse.handle_response_model (Some t) ANTHROPIC_TOOLS kwargs w
   = (Raise anthropic_tools_error, w) ∧
   ProcessResponse.handle_response_model (Some t) ANTHROPIC_JSON kwargs w
   = (Raise anthropic_json_error, w)) ∧
  (kwargs !! "system" = None →
   (∃ new_kwargs w' l' conversation,
      ProcessResponse.handle_response_model (Some t) ANTHROPIC_TOOLS kwargs w
      = (Ok (Some (as_openai_schema (adapt_simple t)), new_kwargs), w') ∧
      new_kwargs !! "system"
      = Some (VStr (join (nl +:+ nl) (ProcessResponse.system_contents ms))) ∧
      new_kwargs !! "messages" = Some (VList l') ∧
      view w' l' = Some conversation ∧
      conversation = non_system ms ∧
      Forall (λ m, Msg.role m ≠ "system") conversation) ∧
   (∃ new_kwargs w' l' conversation,
      ProcessResponse.handle_response_model (Some t) ANTHROPIC_JSON kwargs w
      = (Ok (Some (as_openai_schema (adapt_simple t)), new_kwargs), w') ∧
      new_kwargs !! "system"
      = Some (VStr (dedent
                      (nl +:+ nl
                          +:+ join (nl +:+ nl)
                                   (ProcessResponse.system_contents ms)
                          +:+ ProcessResponse.anthropic_json_instruction
                                (as_openai_schema (adapt_simple t))))) ∧
      new_kwargs !! "messages" = Some (VList l') ∧
      view w' l' = Some conversation ∧
      conversation
      = ProcessResponse.merge_consecutive_messages (non_system ms) ∧
      Forall (λ m, Msg.role m ≠ "system") conversation)).
Proof.
  intros Hk Hv Hs. split.
  - intros Hsys Hne. split.
    + by apply (anthropic_tools_conflict t kwargs w l ms).
    + by apply (anthropic_json_conflict t kwargs w l ms).
  - intros Hsys. split.
    + destruct (anthropic_tools_extract t kwargs w l ms Hk Hv Hs Hsys)
        as (nk & w' & l' & E & Hsystem & Hk' & Hv' & _).
      exists nk, w', l', (non_system ms).
      repeat split; try done. apply non_system_roles.
    + destruct (anthropic_json_extract t kwargs w l ms Hk Hv Hs Hsys)
        as (nk & w' & l' & E & Hsystem & Hk' & Hv' & _).
      exists nk, w', l',
        (ProcessResponse.merge_consecutive_messages (non_system ms)).
      repeat split; try done.
      apply (merge_roles (λ r, r ≠ "system")), non_system_roles.
Qed.

(** ** C8: the safety thresholds of GEMINI_JSON *)

(** C8, amended. In GEMINI_JSON the three default thresholds are merged
    into the caller's [safety_settings] with the defaults taking
    precedence: in the request that leaves the handler, hate speech,
    harassment and dangerous content are at BLOCK_ONLY_HIGH whatever the
    caller supplied for them, and every other category has the threshold
    the caller supplied, or none. *)
Theorem C8_gemini_safety_defaults_win (t : TypeHint)
    (kwargs : gmap string value) (w : world) (l : loc) (m : Msg.t)
    (ms : list Msg.t)
    (caller : option (gmap HarmCategory HarmBlockThreshold)) :
  kwargs !! "model" = None →
  kwargs !! "messages" = Some (VList l) →
  view w l = Some (m :: ms) →
  stream_allowed kwargs (as_openai_schema (adapt_simple t)) w →
  (kwargs !! "generation_config" = None ∨
   ∃ d, kwargs !! "generation_config" = Some (VDict d)) →
  kwargs !! "safety_settings" = VSafety <$> caller →
  ∃ new_kwargs w' settings,
    ProcessResponse.handle_response_model (Some t) GEMINI_JSON kwargs w
    = (Ok (Some (as_openai_schema (adapt_simple t)), new_kwargs), w') ∧
    new_kwargs !! "safety_settings" = Some (VSafety settings) ∧
    ∀ category,
      settings !! category
      = if bool_decide (category = HARM_CATEGORY_HATE_SPEECH
                        ∨ category = HARM_CATEGORY_HARASSMENT
                        ∨ category = HARM_CATEGORY_DANGEROUS_CONTENT)
        then Some BLOCK_ONLY_HIGH
        else caller ≫= (.!! category).
Proof.
  intros Hmodel Hk Hv Hs Hcfg Hsafety.
  destruct (gemini_safety_settings t kwargs w l m ms caller
              Hmodel Hk Hv Hs Hcfg Hsafety) as (nk & w' & E & Hout).
  eexists nk, w', _. split; [done|]. split; [done|].
  intros category. unfold ProcessResponse.dict_or.
  rewrite lookup_union.
  unfold ProcessResponse.default_safety_settings.
  destruct category; simpl;
    rewrite ?lookup_insert_eq, ?lookup_insert_ne, ?lookup_empty by done;
    simpl; try (by destruct (default ∅ caller !! _));
    destruct caller; simpl; rewrite ?lookup_empty;
    by rewrite ?(left_id_L None (∪)).
Qed.

(** ** C9: the required list of the Gemini schema *)

(** C9. For a schema whose property descriptions are dictionaries,
    [_create_gemini_json_schema] returns a schema whose required list is
    the declared required list, or the empty list when none is declared,
    followed by the names of the properties that carry a default, in the
    order of the properties. This list has no duplicates when the declared
    list has none, the property names are distinct and no property with a
    default is declared required. *)
Theorem C9_gemini_required_list (model : ResponseModel)
    (fields properties : list (string * json)) (type : json)
    (required : option (list json)) :
  replace_refs (model_json_schema model) = JObj fields →
  assoc_get "properties" fields = Some (JObj properties) →
  assoc_get "type" fields = Some type →
  Forall (λ pd, is_dict pd.2) properties →
  assoc_get "required" fields = JArr <$> required →
  ClientVertexAI._create_gemini_json_schema model
  = Ok (JObj [("type", type);
              ("properties", JObj properties);
              ("required",
               JArr (default [] required
                       ++ (JStr <$> default_bearing properties)))]) ∧
  (NoDup (default [] required) →
   NoDup properties.*1 →
   (∀ prop, prop ∈ default_bearing properties →
            JStr prop ∉ default [] required) →
   NoDup (default [] required ++ (JStr <$> default_bearing properties))).
Proof.
  intros Hschema Hprops Htype Hdicts Hreq. split.
  - by apply (create_gemini_json_schema_spec model fields).
  - apply required_NoDup.
Qed.

End claims.

(** * The claims on concrete requests *)

Section examples.
Import Sample Patch.
#[local] Existing Instance Sample.runtime.

(** ** C10 *)


(** ** C5 *)

(** A rejected API key ends the call at the first invocation. *)
Lemma C5_authentication_error_example :
  retriable authentication_error = false ∧
  retry_sync (scripted [Raise authentication_error]) (Some UserDetail) None
             request 3 None TOOLS start
  = (Raise authentication_error,
     World (lists start) (dicts start)
           (events start ++ [Called (Raise authentication_error)])).
Proof.
  split; [reflexivity|].
  destruct (C5_transport_error_propagates
              (scripted [Raise authentication_error]) (Some UserDetail) None
              request 3 None TOOLS authentication_error eq_refl)
    as [_ Hcall].
  destruct (Hcall start) as [Hsync _];
    [done|vm_compute; reflexivity|exact Hsync].
Defined.

(** ** C2 and C4: one rejected answer and no retries *)



(** The exception of the call is the parser's ValidationError itself. *)
Lemma C4_raises_the_validation_error :
  one_bad_answer.1 = Raise missing_age ∧
  ¬ ∃ last cause, one_bad_answer.1 = Raise (TerminalRetryError last cause).
Proof.
  split; [vm_compute; reflexivity|].
  intros (last & cause & Hraise). vm_compute in Hraise. discriminate Hraise.
Qed.

Lemma C4_sole_attempt_example :
  ∃ w',
    one_bad_answer = (Raise missing_age, w') ∧
    ¬ is_terminal_retry_error missing_age ∧
    events w'
    = events start
      ++ [Called (Ok bad_answer);
          Handed (accumulate CompletionUsage.zero bad_answer).2] ∧
    view w' 1%positive
    = Some (conversation
            ++ corrective_turns sync_wording TOOLS bad_message call_1
                                missing_age).
Proof.
  destruct (C4_sole_attempt_reraises sync_wording
              (retry_sync (scripted [Ok bad_answer]) (Some UserDetail) None
                          request 0 None TOOLS)
              (scripted [Ok bad_answer]) (Some UserDetail) None request None
              TOOLS start 1%positive conversation (Choice.mk bad_message) []
              (Some usage_10_5_15) call_1 [] missing_age)
    as (w' & Hrun & Hnot & Hevents & Hview);
    [by left|vm_compute; reflexivity|vm_compute; reflexivity|
     vm_compute; reflexivity|intros w1; vm_compute; reflexivity|
     vm_compute; reflexivity|intros _; vm_compute; reflexivity|].
  exists w'. split; [exact Hrun|]. split; [exact Hnot|]. split.
  - vm_compute in Hevents. vm_compute. exact Hevents.
  - vm_compute in Hview. vm_compute. exact Hview.
Defined.

(** ** C1: three answers, each reporting (10, 5, 15) *)


(** ** C3 *)



(** ** C6 *)

Lemma C6_anthropic_example :
  ProcessResponse.handle_response_model
    (Some UserDetail) ANTHROPIC_TOOLS (<["system" := VStr "Be brief."]> request)
    (world_of two_system_messages)
  = (Raise anthropic_tools_error, world_of two_system_messages) ∧
  ∃ new_kwargs w' l',
    ProcessResponse.handle_response_model
      (Some UserDetail) ANTHROPIC_TOOLS request (world_of two_system_messages)
    = (Ok (Some UserDetail, new_kwargs), w') ∧
    new_kwargs !! "system"
    = Some (VStr ("You extract users." +:+ nl +:+ nl
                    +:+ "Answer with the tool.")) ∧
    new_kwargs !! "messages" = Some (VList l') ∧
    view w' l' = Some [Msg.plain "user" "Extract `x is 5`"].
Proof.
  split.
  - destruct (C6_anthropic_system_messages (H:=Sample.runtime) UserDetail
                (<["system" := VStr "Be brief."]> request)
                (world_of two_system_messages) 1%positive two_system_messages)
      as [Hconflict _];
      [vm_compute; reflexivity|vm_compute; reflexivity|
       exists false; split; vm_compute; reflexivity|].
    destruct Hconflict as [Htools _];
      [vm_compute; eexists; reflexivity|vm_compute; discriminate|].
    exact Htools.
  - destruct (C6_anthropic_system_messages (H:=Sample.runtime) UserDetail request
                (world_of two_system_messages) 1%positive two_system_messages)
      as [_ Hextract];
      [vm_compute; reflexivity|vm_compute; reflexivity|
       exists false; split; vm_compute; reflexivity|].
    destruct Hextract
      as [(nk & w' & l' & conv & E & Hs & Hk & Hv & Hconv & _) _];
      [vm_compute; reflexivity|].
    exists nk, w', l'. split; [exact E|]. split.
    { vm_compute in Hs. vm_compute. exact Hs. }
    split; [exact Hk|]. rewrite Hv, Hconv. vm_compute. reflexivity.
Defined.

(** ** C7 *)

(** C7. On the request [{"messages": [user message]}] with the list of
    messages at location 1, both versions of the handler return request
    parameters whose ["messages"] is the caller's list itself, and when
    they return, that list holds a system message in front of the user
    message: the caller's list is not what it was before the call. *)
Theorem C7_caller_messages_are_mutated :
  view start 1%positive = Some conversation ∧
  (∃ new_kwargs w',
     ProcessResponse.handle_response_model (Some UserDetail) JSON request start
     = (Ok (Some UserDetail, new_kwargs), w') ∧
     new_kwargs !! "messages" = request !! "messages" ∧
     view w' 1%positive
     = Some (Msg.plain "system" (ProcessResponse.json_instruction UserDetail)
             :: conversation) ∧
     view w' 1%positive ≠ view start 1%positive) ∧
  (∃ instruction new_kwargs w',
     Patch.json_instruction UserDetail = Ok instruction ∧
     Patch.handle_response_model (Some UserDetail) request JSON start
     = (Ok (Some UserDetail, new_kwargs), w') ∧
     new_kwargs !! "messages" = request !! "messages" ∧
     view w' 1%positive
     = Some (Msg.plain "system" (instruction +:+ nl +:+ nl +:+ instruction)
             :: conversation) ∧
     view w' 1%positive ≠ view start 1%positive).
Proof.
  split; [vm_compute; reflexivity|]. split.
  - exists (<["response_format" :=
                VJson (JObj [("type", JStr "json_object")])]> request),
      (ProcessResponse.handle_response_model (H:=Sample.runtime)
         (Some UserDetail) JSON request start).2.
    split; [vm_compute; reflexivity|].
    split; [vm_compute; reflexivity|]. split; [vm_compute; reflexivity|].
    vm_compute. intros Heq. discriminate Heq.
  - exists (match Patch.json_instruction (H:=Sample.runtime) UserDetail with
            | Ok instruction => instruction
            | Raise _ => ""
            end),
      (<["response_format" :=
           VJson (JObj [("type", JStr "json_object")])]> request),
      (Patch.handle_response_model (H:=Sample.runtime)
         (Some UserDetail) request JSON start).2.
    split; [vm_compute; reflexivity|].
    split; [vm_compute; reflexivity|].
    split; [vm_compute; reflexivity|]. split; [vm_compute; reflexivity|].
    vm_compute. intros Heq. discriminate Heq.
Qed.

(** ** C8 *)

(** The caller's BLOCK_NONE for hate speech is replaced by the default. *)
Lemma C8_caller_threshold_is_overwritten :
  ∃ new_kwargs w' settings,
    ProcessResponse.handle_response_model (Some UserDetail) GEMINI_JSON
                                          permissive_request start
    = (Ok (Some UserDetail, new_kwargs), w') ∧
    new_kwargs !! "safety_settings" = Some (VSafety settings) ∧
    settings !! HARM_CATEGORY_HATE_SPEECH = Some BLOCK_ONLY_HIGH ∧
    settings !! HARM_CATEGORY_HATE_SPEECH ≠ Some BLOCK_NONE.
Proof.
  exists (match (ProcessResponse.handle_response_model (H:=Sample.runtime)
                   (Some UserDetail) GEMINI_JSON permissive_request start).1
          with
          | Ok (_, new_kwargs) => new_kwargs
          | Raise _ => ∅
          end),
    (ProcessResponse.handle_response_model (H:=Sample.runtime)
       (Some UserDetail) GEMINI_JSON permissive_request start).2,
    (ProcessResponse.dict_or
       {[HARM_CATEGORY_HATE_SPEECH := BLOCK_NONE;
         HARM_CATEGORY_SEXUALLY_EXPLICIT := BLOCK_NONE]}
       ProcessResponse.default_safety_settings).
  split; [vm_compute; reflexivity|].
  split; [vm_compute; reflexivity|]. split; [vm_compute; reflexivity|].
  vm_compute. intros Heq. discriminate Heq.
Qed.

Lemma C8_gemini_safety_example :
  ∃ new_kwargs w' settings,
    ProcessResponse.handle_response_model (Some UserDetail) GEMINI_JSON
                                          permissive_request start
    = (Ok (Some UserDetail, new_kwargs), w') ∧
    new_kwargs !! "safety_settings" = Some (VSafety settings) ∧
    settings !! HARM_CATEGORY_HATE_SPEECH = Some BLOCK_ONLY_HIGH ∧
    settings !! HARM_CATEGORY_SEXUALLY_EXPLICIT = Some BLOCK_NONE.
Proof.
  destruct (C8_gemini_safety_defaults_win (H:=Sample.runtime) UserDetail permissive_request start
              1%positive (Msg.plain "user" "Extract `x is 5`") []
              (Some {[HARM_CATEGORY_HATE_SPEECH := BLOCK_NONE;
                      HARM_CATEGORY_SEXUALLY_EXPLICIT := BLOCK_NONE]}))
    as (nk & w' & settings & E & Hs & Hall);
    [vm_compute; reflexivity|vm_compute; reflexivity|vm_compute; reflexivity|
     exists false; split; vm_compute; reflexivity|
     left; vm_compute; reflexivity|vm_compute; reflexivity|].
  exists nk, w', settings. split; [exact E|]. split; [exact Hs|].
  split; [rewrite (Hall HARM_CATEGORY_HATE_SPEECH)|
          rewrite (Hall HARM_CATEGORY_SEXUALLY_EXPLICIT)];
    vm_compute; reflexivity.
Defined.

(** ** C9 *)

(** [nickname] has a default and is added to the declared [name] and
    [age]. *)
Lemma C9_gemini_required_example :
  ClientVertexAI._create_gemini_json_schema UserDetail
  = Ok (JObj [("type", JStr "object");
              ("properties",
               JObj [("name", JObj [("type", JStr "string")]);
                     ("age", JObj [("type", JStr "integer")]);
                     ("nickname", JObj [("default", JStr "none");
                                        ("type", JStr "string")])]);
              ("required", JArr [JStr "name"; JStr "age"; JStr "nickname"])]).
Proof.
  destruct (C9_gemini_required_list (H:=Sample.runtime) UserDetail
              [("properties",
                JObj [("name", JObj [("type", JStr "string")]);
                      ("age", JObj [("type", JStr "integer")]);
                      ("nickname", JObj [("default", JStr "none");
                                         ("type", JStr "string")])]);
               ("required", JArr [JStr "name"; JStr "age"]);
               ("title", JStr "UserDetail");
               ("type", JStr "object")]
              [("name", JObj [("type", JStr "string")]);
               ("age", JObj [("type", JStr "integer")]);
               ("nickname", JObj [("default", JStr "none");
                                  ("type", JStr "string")])]
              (JStr "object") (Some [JStr "name"; JStr "age"]))
    as [Hschema _];
    [reflexivity|reflexivity|reflexivity| |reflexivity|].
  - repeat constructor; by eexists.
  - rewrite Hschema. vm_compute. reflexivity.
Defined.

End examples.

(** * Further properties of the retry loop *)

Section retry_more.
Context `{Runtime}.
Import Patch.

Lemma only_appends_refl w : only_appends w w.
Proof. intros l ms Hv. exists []. by rewrite app_nil_r. Qed.

Lemma only_appends_trans w1 w2 w3 :
  only_appends w1 w2 → only_appends w2 w3 → only_appends w1 w3.
Proof.
  intros H12 H23 l ms Hv.
  destruct (H12 l ms Hv) as [a1 Hv2].
  destruct (H23 l _ Hv2) as [a2 Hv3].
  exists (a1 ++ a2). by rewrite (assoc_L (++)).
Qed.

Lemma only_appends_events w evs :
  only_appends w (World (lists w) (dicts w) evs).
Proof. intros l ms Hv. exists []. by rewrite app_nil_r. Qed.

Lemma appending_keeps_world {A} (m : M A) : keeps_world m → appending m.
Proof. intros Hm w x w' E. apply Hm in E as ->. apply only_appends_refl. Qed.

Lemma appending_bind {A B} (m : M A) (k : A → M B) :
  appending m → (∀ a, appending (k a)) → appending (m ≫= k).
Proof.
  intros Hm Hk w x w'. unfold mbind, M_bind.
  destruct (m w) as [[a|e] w1] eqn:E; apply Hm in E.
  - intros E'. apply Hk in E'. by eapply only_appends_trans.
  - by intros [= _ <-].
Qed.

Lemma appending_list_append l0 msg : appending (list_append l0 msg).
Proof.
  intros w x w'.
  unfold list_append, read_list, new_dict, write_list, mbind, M_bind.
  destruct (lists w !! l0) as [items0|] eqn:Hl0;
    [|intros [= _ <-]; apply only_appends_refl].
  simpl. intros [= _ <-]. intros l ms (items & Hl & Hm)%view_Some.
  destruct (decide (l = l0)) as [->|Hne].
  - exists [msg]. apply view_Some. simpl.
    exists (items ++ [fresh (dom (dicts w))]).
    split; [rewrite lookup_insert_eq; congruence|].
    apply Forall2_app; [by apply Forall2_fresh_dict|].
    constructor; [|constructor]. by rewrite lookup_insert_eq.
  - exists []. rewrite app_nil_r. apply view_Some. simpl.
    exists items. split; [by rewrite lookup_insert_ne|].
    by apply Forall2_fresh_dict.
Qed.

Lemma appending_append_message kwargs msg :
  keeps_world msg → appending (append_message kwargs msg).
Proof.
  intros Hmsg. unfold append_message.
  apply appending_bind;
    [apply appending_keeps_world, keeps_world_getitem|intros v].
  apply appending_bind;
    [apply appending_keeps_world, keeps_world_as_list|intros l].
  apply appending_bind; [by apply appending_keeps_world|intros m].
  apply appending_list_append.
Qed.

Lemma appending_reask text kwargs mode response e :
  appending (reask text kwargs mode response e).
Proof.
  unfold reask.
  apply appending_bind.
  { apply appending_keeps_world. destruct response; auto with keeps. }
  intros r. apply appending_bind.
  { destruct (bool_decide (mode = TOOLS)).
    - apply appending_append_message, keeps_world_bind;
        [apply keeps_world_first_tool_call|auto with keeps].
    - apply appending_keeps_world, keeps_world_ret. }
  intros _. apply appending_bind.
  { apply appending_append_message, keeps_world_fmap,
      keeps_world_first_message. }
  intros _. apply appending_bind.
  { apply appending_append_message, keeps_world_ret. }
  intros _. destruct (bool_decide (mode = MD_JSON)).
  - apply appending_append_message, keeps_world_ret.
  - apply appending_keeps_world, keeps_world_ret.
Qed.

(** What every step of the loop preserves, the loop preserves. *)
Lemma retry_loop_preserves (P : world → world → Prop) text func
    response_model validation_context kwargs max_retries strict mode :
  (∀ w, P w w) →
  (∀ w1 w2 w3, P w1 w2 → P w2 w3 → P w1 w3) →
  (∀ w evs, P w (World (lists w) (dicts w) (events w ++ evs))) →
  (∀ response e w x w',
     reask text kwargs mode response e w = (x, w') → P w w') →
  ∀ fuel retries total_usage response w res w',
    retry_loop text func response_model validation_context kwargs max_retries
               strict mode fuel retries total_usage response w = (res, w') →
    P w w'.
Proof.
  intros Prefl Ptrans Pev Preask.
  induction fuel as [|fuel IH]; intros retries total response w res w'.
  { intros [= _ <-]. apply Prefl. }
  simpl. case_bool_decide as Hle; [|intros [= _ <-]; apply Prefl].
  assert (∀ total response e w1 res w',
            (reask text kwargs mode response e ≫= λ _,
               if bool_decide (retries + 1 > max_retries)%Z then raise e
               else retry_loop text func response_model validation_context
                               kwargs max_retries strict mode fuel
                               (retries + 1)%Z total response) w1
            = (res, w') → P w1 w') as Hexcept.
  { intros total0 response0 e w1 res0 w0. unfold mbind, M_bind.
    destruct (reask text kwargs mode response0 e w1) as [[[]|e'] w2] eqn:E;
      apply Preask in E.
    - case_bool_decide.
      + intros [= _ <-]. exact E.
      + intros Hloop. apply IH in Hloop. by eapply Ptrans.
    - intros [= _ <-]. exact E. }
  unfold catching at 1, call.
  destruct (func kwargs w) as [r|e].
  - destruct (accumulate total r) as [total' r'].
    unfold mbind at 1, M_bind at 1, log at 1. simpl.
    unfold catching.
    destruct (process_response _ _ _ _ _ _ _) as [[v|e] w3] eqn:Ep;
      pose proof (keeps_world_process_response _ _ _ _ _ _ _ _ _ Ep) as ->.
    + intros [= _ <-]. rewrite <- (assoc_L (++)). apply Pev.
    + destruct (retriable e).
      * intros Hx. apply Hexcept in Hx. eapply Ptrans; [|exact Hx].
        rewrite <- (assoc_L (++)). apply (Pev w).
      * intros [= _ <-]. rewrite <- (assoc_L (++)). apply Pev.
  - destruct (retriable e).
    + intros Hx. apply Hexcept in Hx. eapply Ptrans; [|exact Hx]. apply Pev.
    + intros [= _ <-]. apply Pev.
Qed.

Lemma invocations_app evs1 evs2 :
  invocations (evs1 ++ evs2) = (invocations evs1 + invocations evs2)%nat.
Proof. unfold invocations. by rewrite omap_app, length_app. Qed.

Lemma retry_loop_invocations text func response_model validation_context
    kwargs max_retries strict mode fuel :
  ∀ retries total_usage response w res w',
    retry_loop text func response_model validation_context kwargs max_retries
               strict mode fuel retries total_usage response w = (res, w') →
    ∃ evs, events w' = events w ++ evs ∧
           (invocations evs ≤ Z.to_nat (max_retries + 1 - retries))%nat.
Proof.
  induction fuel as [|fuel IH]; intros retries total response w res w'.
  { intros [= _ <-]. exists []. rewrite app_nil_r. split; [done|].
    unfold invocations. simpl. lia. }
  simpl. case_bool_decide as Hle.
  2:{ intros [= _ <-]. exists []. rewrite app_nil_r. split; [done|].
      unfold invocations. simpl. lia. }
  assert (∀ total response e w1 res w',
            (reask text kwargs mode response e ≫= λ _,
               if bool_decide (retries + 1 > max_retries)%Z then raise e
               else retry_loop text func response_model validation_context
                               kwargs max_retries strict mode fuel
                               (retries + 1)%Z total response) w1
            = (res, w') →
            ∃ evs, events w' = events w1 ++ evs ∧
                   (invocations evs
                    ≤ Z.to_nat (max_retries + 1 - (retries + 1)))%nat)
    as Hexcept.
  { intros total0 response0 e w1 res0 w0. unfold mbind, M_bind.
    destruct (reask text kwargs mode response0 e w1) as [[[]|e'] w2] eqn:E;
      apply keeps_events_reask in E.
    - case_bool_decide.
      + intros [= _ <-]. exists []. rewrite app_nil_r. split; [done|].
        unfold invocations. simpl. lia.
      + intros Hloop. apply IH in Hloop as (evs & Hev & Hn).
        exists evs. split; [congruence|done].
    - intros [= _ <-]. exists []. rewrite app_nil_r. split; [done|].
      unfold invocations. simpl. lia. }
  assert (∀ o evs0 evs,
            invocations evs0 = 0%nat →
            (invocations evs
             ≤ Z.to_nat (max_retries + 1 - (retries + 1)))%nat →
            (invocations (Called o :: evs0 ++ evs)
             ≤ Z.to_nat (max_retries + 1 - retries))%nat)
    as Hcount.
  { intros o evs0 evs H0 Hn.
    change (Called o :: evs0 ++ evs) with ([Called o] ++ evs0 ++ evs).
    rewrite !invocations_app, H0.
    change (invocations [Called o]) with 1%nat. lia. }
  unfold catching at 1, call.
  destruct (func kwargs w) as [r|e].
  - destruct (accumulate total r) as [total' r'].
    unfold mbind at 1, M_bind at 1, log at 1. simpl.
    unfold catching.
    destruct (process_response _ _ _ _ _ _ _) as [[v|e] w3] eqn:Ep;
      pose proof (keeps_world_process_response _ _ _ _ _ _ _ _ _ Ep) as ->.
    + intros [= _ <-]. simpl. exists [Called (Ok r); Handed r'].
      rewrite <- (assoc_L (++)). split; [done|].
      unfold invocations. simpl. lia.
    + destruct (retriable e).
      * intros Hx. apply Hexcept in Hx as (evs & Hev & Hn). simpl in Hev.
        exists (Called (Ok r) :: [Handed r'] ++ evs).
        split; [rewrite Hev; by rewrite <- !(assoc_L (++))|].
        by apply Hcount.
      * intros [= _ <-]. simpl. exists [Called (Ok r); Handed r'].
        rewrite <- (assoc_L (++)). split; [done|].
        unfold invocations. simpl. lia.
  - destruct (retriable e).
    + intros Hx. apply Hexcept in Hx as (evs & Hev & Hn). simpl in Hev.
      exists (Called (Raise e) :: [] ++ evs).
      split; [rewrite Hev; by rewrite <- !(assoc_L (++))|].
      by apply Hcount.
    + intros [= _ <-]. simpl. exists [Called (Raise e)]. split; [done|].
      unfold invocations. simpl. lia.
Qed.

(** X1. A logical call only ever appends to the conversations of the
    store: whatever list of messages could be read before the call reads
    afterwards as the same messages followed by the turns the call added,
    whether the call returns or raises. *)
Theorem X1_retry_only_appends (run : M exit) (func : Transport)
    (response_model : option ResponseModel) (validation_context : option json)
    (kwargs : gmap string value) (max_retries : Z) (strict : option bool)
    (mode : Mode) (w : world) (res : result exit) (w' : world) :
  run = retry_sync func response_model validation_context kwargs max_retries
                   strict mode
  ∨ run = retry_async func response_model validation_context kwargs
                      max_retries strict mode →
  run w = (res, w') →
  ∀ l ms, view w l = Some ms → ∃ added, view w' l = Some (ms ++ added).
Proof.
  intros Hrun Hres.
  assert (only_appends w w') as Happ; [|exact Happ].
  destruct Hrun as [-> | ->];
    (eapply (retry_loop_preserves only_appends); [..|exact Hres]);
    eauto using only_appends_refl, only_appends_trans, only_appends_events;
    intros; by eapply appending_reask.
Qed.

(** X2. A logical call invokes the transport at most [max_retries + 1]
    times, and not at all when [max_retries] is negative; the record of
    what happened before the call is kept. *)
Theorem X2_retry_invocations_bounded (run : M exit) (func : Transport)
    (response_model : option ResponseModel) (validation_context : option json)
    (kwargs : gmap string value) (max_retries : Z) (strict : option bool)
    (mode : Mode) (w : world) (res : result exit) (w' : world) :
  run = retry_sync func response_model validation_context kwargs max_retries
                   strict mode
  ∨ run = retry_async func response_model validation_context kwargs
                      max_retries strict mode →
  run w = (res, w') →
  ∃ evs, events w' = events w ++ evs ∧
         (invocations evs ≤ Z.to_nat (max_retries + 1))%nat.
Proof.
  intros Hrun Hres.
  destruct Hrun as [-> | ->];
    apply retry_loop_invocations in Hres as (evs & Hev & Hn);
    exists evs; (split; [done|]); by rewrite Z.sub_0_r in Hn.
Qed.

Lemma retry_loop_accepted text func response_model validation_context
    kwargs max_retries strict mode fuel retries total_usage response w r v :
  (retries ≤ max_retries)%Z →
  func kwargs w = Ok r →
  (∀ w1, process_response (accumulate total_usage r).2 response_model
                          (get_or kwargs "stream" (VBool false))
                          validation_context strict mode w1
         = (Ok v, w1)) →
  retry_loop text func response_model validation_context kwargs max_retries
             strict mode (S fuel) retries total_usage response w
  = (Ok (Returned v),
     World (lists w) (dicts w)
           (events w ++ [Called (Ok r); Handed (accumulate total_usage r).2])).
Proof.
  intros Hle Hf Hparse. simpl.
  rewrite bool_decide_eq_true_2 by done.
  unfold catching at 1, call. rewrite Hf.
  destruct (accumulate total_usage r) as [total' r'] eqn:Eacc. simpl in Hparse.
  unfold mbind at 1, M_bind at 1, log at 1. simpl.
  unfold catching. rewrite Hparse. by rewrite <- (assoc_L (++)).
Qed.

Lemma accumulate_zero r : (accumulate CompletionUsage.zero r).2 = r.
Proof. by destruct r as [choices [[c p t]|]|]. Qed.

(** X3. An attempt whose response the parser accepts ends the call with
    the parsed result: nothing is appended to any conversation and the
    transport is not invoked again. In particular a call whose first
    answer is accepted invokes the transport once. *)
Theorem X3_accepted_answer_ends_the_call (func : Transport)
    (response_model : option ResponseModel) (validation_context : option json)
    (kwargs : gmap string value) (max_retries : Z) (strict : option bool)
    (mode : Mode) (r : Response) (v : retval) :
  (∀ text fuel retries total_usage response w,
     (retries ≤ max_retries)%Z →
     func kwargs w = Ok r →
     (∀ w1, process_response (accumulate total_usage r).2 response_model
                             (get_or kwargs "stream" (VBool false))
                             validation_context strict mode w1
            = (Ok v, w1)) →
     retry_loop text func response_model validation_context kwargs max_retries
                strict mode (S fuel) retries total_usage response w
     = (Ok (Returned v),
        World (lists w) (dicts w)
              (events w ++ [Called (Ok r);
                            Handed (accumulate total_usage r).2]))) ∧
  (∀ w,
     (0 ≤ max_retries)%Z →
     func kwargs w = Ok r →
     (∀ w1, process_response (accumulate CompletionUsage.zero r).2
                             response_model
                             (get_or kwargs "stream" (VBool false))
                             validation_context strict mode w1
            = (Ok v, w1)) →
     retry_sync func response_model validation_context kwargs max_retries
                strict mode w
     = (Ok (Returned v),
        World (lists w) (dicts w)
              (events w ++ [Called (Ok r);
                            Handed (accumulate CompletionUsage.zero r).2])) ∧
     retry_async func response_model validation_context kwargs max_retries
                 strict mode w
     = (Ok (Returned v),
        World (lists w) (dicts w)
              (events w ++ [Called (Ok r);
                            Handed (accumulate CompletionUsage.zero r).2]))).
Proof.
  split.
  - intros. by apply retry_loop_accepted.
  - intros w Hmax Hf Hparse. unfold retry_sync, retry_async, retry.
    split; by apply retry_loop_accepted.
Qed.

(** X4. With a negative [max_retries] the loop is never entered: the call
    returns [None] without invoking the transport and without touching
    the store. *)
Theorem X4_negative_max_retries (func : Transport)
    (response_model : option ResponseModel) (validation_context : option json)
    (kwargs : gmap string value) (max_retries : Z) (strict : option bool)
    (mode : Mode) (w : world) :
  (max_retries < 0)%Z →
  retry_sync func response_model validation_context kwargs max_retries strict
             mode w
  = (Ok ReturnedNone, w) ∧
  retry_async func response_model validation_context kwargs max_retries strict
              mode w
  = (Ok ReturnedNone, w).
Proof.
  intros Hneg. unfold retry_sync, retry_async, retry. simpl.
  rewrite bool_decide_eq_false_2 by lia. done.
Qed.

(** X5. When the first invocation of the transport itself raises a
    ValidationError or a JSONDecodeError, the [except] clause is entered
    with the local variable [response] unbound: the call ends with an
    UnboundLocalError instead of the error of the transport, after one
    invocation and with nothing appended. *)
Theorem X5_transport_validation_error_is_masked (func : Transport)
    (response_model : option ResponseModel) (validation_context : option json)
    (kwargs : gmap string value) (max_retries : Z) (strict : option bool)
    (mode : Mode) (w : world) (e : exn) :
  (0 ≤ max_retries)%Z →
  func kwargs w = Raise e →
  retriable e = true →
  retry_sync func response_model validation_context kwargs max_retries strict
             mode w
  = (Raise (UnboundLocalError "response"),
     World (lists w) (dicts w) (events w ++ [Called (Raise e)])) ∧
  retry_async func response_model validation_context kwargs max_retries strict
              mode w
  = (Raise (UnboundLocalError "response"),
     World (lists w) (dicts w) (events w ++ [Called (Raise e)])).
Proof.
  intros Hmax Hf He. unfold retry_sync, retry_async, retry. simpl.
  rewrite bool_decide_eq_true_2 by done.
  unfold catching, call. rewrite Hf, He. done.
Qed.

(** X6. With [response_model=None] the patched call is a pass-through in
    every mode: the request parameters reach the transport as they are,
    the transport is invoked once, and its response is returned
    unchanged, usage included. *)
Theorem X6_no_response_model_is_pass_through (func : Transport) (mode : Mode)
    (validation_context : option json) (max_retries : Z)
    (kwargs : gmap string value) (w : world) (r : Response) :
  (0 ≤ max_retries)%Z →
  func kwargs w = Ok r →
  new_chatcompletion_sync func mode None validation_context max_retries kwargs w
  = (Ok (Returned (RawResponse r)),
     World (lists w) (dicts w) (events w ++ [Called (Ok r); Handed r])) ∧
  new_chatcompletion_async func mode None validation_context max_retries
                           kwargs w
  = (Ok (Returned (RawResponse r)),
     World (lists w) (dicts w) (events w ++ [Called (Ok r); Handed r])).
Proof.
  intros Hmax Hf.
  unfold new_chatcompletion_sync, new_chatcompletion_async,
    handle_response_model.
  rewrite !bind_ret. unfold retry_sync, retry_async, retry.
  rewrite <- (accumulate_zero r) at 3 6.
  split; (apply retry_loop_accepted; [done|done|]);
    intros w1; by rewrite accumulate_zero.
Qed.

(** *** Corrective turns are all or nothing *)

Lemma ret_run {A} (a : A) (w : world) : mret (M:=M) a w = (Ok a, w).
Proof. reflexivity. Qed.

Lemma append_message_outcome kwargs msg w x w' :
  keeps_world msg →
  append_message kwargs msg w = (x, w') →
  (∃ e, x = Raise e ∧ w' = w) ∨
  (x = Ok () ∧
   ∃ l m, kwargs !! "messages" = Some (VList l) ∧ msg w = (Ok m, w) ∧
          is_Some (lists w' !! l)).
Proof.
  intros Hmsg. unfold append_message, getitem.
  destruct (kwargs !! "messages") as [v|] eqn:Hk;
    [|intros [= <- <-]; left; eauto].
  cbv beta iota. rewrite bind_ret.
  destruct v; try (intros [= <- <-]; left; eauto).
  cbn [as_list]. rewrite bind_ret. unfold mbind at 1, M_bind at 1.
  destruct (msg w) as [[m|e] w1] eqn:E; pose proof (Hmsg _ _ _ E) as ->.
  - unfold list_append, read_list, new_dict, write_list, mbind, M_bind.
    destruct (lists w !! l) as [items|]; [|intros [= <- <-]; left; eauto].
    simpl. intros [= <- <-]. right. split; [done|].
    exists l, m. split; [done|]. split; [done|]. simpl.
    rewrite lookup_insert_eq. by eexists.
  - intros [= <- <-]. left. eauto.
Qed.

Lemma append_message_succeeds kwargs l msg m w :
  kwargs !! "messages" = Some (VList l) →
  is_Some (lists w !! l) →
  msg w = (Ok m, w) →
  ∃ w', append_message kwargs msg w = (Ok (), w') ∧ is_Some (lists w' !! l).
Proof.
  intros Hk [items Hl] Hmsg. unfold append_message.
  step (getitem_Some _ _ _ w Hk).
  step (eq_refl : as_list "append" (VList l) w = (Ok l, w)).
  step Hmsg.
  unfold list_append, read_list, new_dict, write_list, mbind, M_bind.
  rewrite Hl. simpl. eexists. split; [done|]. simpl.
  rewrite lookup_insert_eq. by eexists.
Qed.

Lemma first_tool_call_first_message r w tc w' :
  first_tool_call r w = (Ok tc, w') →
  ∃ m, ∀ w1, first_message r w1 = (Ok m, w1).
Proof.
  unfold first_tool_call, first_message.
  destruct r as [[|c cs] u|]; [done| |done].
  intros _. by exists (Choice.message c).
Qed.

Lemma first_message_any_world r w m w' :
  first_message r w = (Ok m, w') → ∀ w1, first_message r w1 = (Ok m, w1).
Proof.
  unfold first_message. destruct r as [[|c cs] u|]; [done| |done].
  by intros [= <- _] w1.
Qed.

(** The last two [append]s, once the list is known to be there. *)
Lemma reask_tail_succeeds text kwargs mode l e w :
  kwargs !! "messages" = Some (VList l) →
  is_Some (lists w !! l) →
  ∃ w',
    (append_message kwargs (mret (Msg.plain "user" (user_content text e))) ≫=
       λ _, if bool_decide (mode = MD_JSON)
            then append_message kwargs (mret (Msg.plain "assistant" "```json"))
            else mret ()) w
    = (Ok (), w').
Proof.
  intros Hk Hl.
  destruct (append_message_succeeds kwargs l
              (mret (Msg.plain "user" (user_content text e)))
              (Msg.plain "user" (user_content text e)) w Hk Hl
              (ret_run _ _)) as (w1 & E1 & Hl1).
  step E1. destruct (bool_decide (mode = MD_JSON)); [|by eexists].
  destruct (append_message_succeeds kwargs l
              (mret (Msg.plain "assistant" "```json"))
              (Msg.plain "assistant" "```json") w1 Hk Hl1 (ret_run _ _))
    as (w2 & E2 & _).
  by exists w2.
Qed.

(** X7. The corrective turns of a failed attempt are all or nothing: when
    a turn cannot be built (no [messages] list, a response without
    choices, in TOOLS mode a message without tool calls), the exception
    of the [except] clause leaves the store exactly as it was, with no
    turn appended. *)
Theorem X7_corrective_turns_all_or_nothing (text : wording)
    (kwargs : gmap string value) (mode : Mode) (response : option Response)
    (e e' : exn) (w w' : world) :
  reask text kwargs mode response e w = (Raise e', w') → w' = w.
Proof.
  unfold reask. destruct response as [r|]; [rewrite bind_ret|by intros [= _ <-]].
  assert (∀ w1,
            is_Some (lists w1 !! default 1%positive
                                  (match kwargs !! "messages" with
                                   | Some (VList l) => Some l
                                   | _ => None
                                   end)) →
            (∃ l, kwargs !! "messages" = Some (VList l)) →
            (∃ m, ∀ w2, first_message r w2 = (Ok m, w2)) →
            ∃ w3,
              (append_message kwargs (dump_message <$> first_message r) ≫=
                 λ _, append_message kwargs
                        (mret (Msg.plain "user" (user_content text e))) ≫=
                 λ _, if bool_decide (mode = MD_JSON)
                      then append_message kwargs
                             (mret (Msg.plain "assistant" "```json"))
                      else mret ()) w1
              = (Ok (), w3)) as Hrest.
  { intros w1 Hl [l Hk] [m Hm]. rewrite Hk in Hl. simpl in Hl.
    destruct (append_message_succeeds kwargs l
                (dump_message <$> first_message r) (dump_message m) w1 Hk Hl)
      as (w2 & E2 & Hl2).
    { unfold fmap, M_fmap. by rewrite Hm. }
    destruct (reask_tail_succeeds text kwargs mode l e w2 Hk Hl2)
      as (w3 & E3).
    exists w3. rewrite (bind_Ok _ _ _ _ _ E2). exact E3. }
  destruct (bool_decide (mode = TOOLS)).
  - unfold mbind at 1, M_bind at 1.
    destruct (append_message kwargs _ w) as [x w1] eqn:E1.
    apply append_message_outcome in E1 as
        [(e1 & -> & ->)|(-> & l & m & Hk & Hmsg & Hl)].
    + by intros [= _ <-].
    + destruct (Hrest w1) as (w3 & ->); [by rewrite Hk|eauto| |done].
      unfold mbind, M_bind in Hmsg.
      destruct (first_tool_call r w) as [[tc|?] w0] eqn:Etc; [|done].
      by eapply first_tool_call_first_message.
    + apply keeps_world_bind; [apply keeps_world_first_tool_call|].
      intros tc. apply keeps_world_ret.
  - rewrite bind_ret. unfold mbind at 1, M_bind at 1.
    destruct (append_message kwargs (dump_message <$> first_message r) w)
      as [x w1] eqn:E1.
    apply append_message_outcome in E1 as
        [(e1 & -> & ->)|(-> & l & m & Hk & Hmsg & Hl)].
    + by intros [= _ <-].
    + destruct (reask_tail_succeeds text kwargs mode l e w1 Hk Hl)
        as (w3 & ->). done.
    + apply keeps_world_fmap, keeps_world_first_message.
Qed.

(** X8. In TOOLS mode, when the parser rejects a response whose message
    carries no tool calls, the call does not end with the validation
    error and does not retry: building the tool-result turn fails, the
    call ends with a TypeError, and nothing is appended. *)
Theorem X8_tools_mode_without_tool_call (text : wording) (func : Transport)
    (response_model : option ResponseModel) (validation_context : option json)
    (kwargs : gmap string value) (max_retries : Z) (strict : option bool)
    (fuel : nat) (retries : Z) (total_usage : CompletionUsage.t)
    (response : option Response) (w : world) (l : loc)
    (c : Choice.t) (cs : list Choice.t) (u : option CompletionUsage.t)
    (e : exn) :
  (retries ≤ max_retries)%Z →
  kwargs !! "messages" = Some (VList l) →
  func kwargs w = Ok (ChatCompletion (c :: cs) u) →
  ChatCompletionMessage.tool_calls (Choice.message c) = None →
  (∀ w1, (process_response
            (accumulate total_usage (ChatCompletion (c :: cs) u)).2
            response_model (get_or kwargs "stream" (VBool false))
            validation_context strict TOOLS w1).1 = Raise e) →
  retriable e = true →
  retry_loop text func response_model validation_context kwargs max_retries
             strict TOOLS (S fuel) retries total_usage response w
  = (Raise TypeError,
     World (lists w) (dicts w)
           (events w
            ++ [Called (Ok (ChatCompletion (c :: cs) u));
                Handed (accumulate total_usage
                                   (ChatCompletion (c :: cs) u)).2])).
Proof.
  intros Hle Hk Hf Hnone Hparse He.
  cbn [retry_loop]. rewrite (bool_decide_eq_true_2 _ Hle).
  unfold catching at 1, call. rewrite Hf.
  assert (∃ total' u',
            accumulate total_usage (ChatCompletion (c :: cs) u)
            = (total', ChatCompletion (c :: cs) u')) as (total' & u' & Eacc).
  { destruct u; simpl; eauto. }
  rewrite Eacc in Hparse |- *. cbn [snd] in Hparse |- *.
  unfold mbind at 1, M_bind at 1, log at 1. cbv beta iota.
  set (w2 := World _ _ _).
  unfold catching. specialize (Hparse w2).
  destruct (process_response _ _ _ _ _ _ w2) as [res w3] eqn:Ep.
  pose proof (keeps_world_process_response _ _ _ _ _ _ _ _ _ Ep) as ->.
  cbn [fst] in Hparse. subst res. rewrite He.
  unfold reask. rewrite !bind_bind, bind_ret.
  change (bool_decide (TOOLS = TOOLS)) with true. cbv iota.
  replace (World (lists w) (dicts w) _) with w2
    by (unfold w2; cbn [lists dicts events]; by rewrite <- (assoc_L (++))).
  apply bind_Raise. unfold append_message.
  step (getitem_Some _ _ _ w2 Hk).
  step (eq_refl : as_list "append" (VList l) w2 = (Ok l, w2)).
  unfold first_tool_call, first_message. rewrite !bind_bind, bind_ret.
  by rewrite Hnone.
Qed.

End retry_more.

(** * Further properties of the request handlers *)

Section handlers_more.
Context `{Runtime}.

Lemma keeps_world_first_of_messages kwargs :
  keeps_world (first_of_messages kwargs).
Proof.
  unfold first_of_messages, list_first, as_indexable.
  auto 20 with keeps.
Qed.

Lemma keeps_events_patch_handler response_model kwargs mode :
  keeps_events (Patch.handle_response_model response_model kwargs mode).
Proof.
  pose proof keeps_world_first_of_messages as Hfirst.
  unfold Patch.handle_response_model.
  destruct response_model as [t|]; [|auto with keeps].
  destruct (bool_decide (mode = PARALLEL_TOOLS)); [auto with keeps|].
  apply keeps_events_bind; [auto with keeps|intros stream].
  destruct (stream && _); [auto with keeps|].
  destruct mode; try solve [auto 10 with keeps].
  all: apply keeps_events_bind; [auto with keeps|intros message].
  all: apply keeps_events_bind; [auto 10 with keeps|intros new_kwargs].
  all: apply keeps_events_bind;
    [apply keeps_world_events, Hfirst|intros [d first]].
  all: apply keeps_events_bind;
    [destruct (negb _); auto 10 with keeps|intros _].
  all: apply keeps_events_bind;
    [apply keeps_world_events, Hfirst|intros [d' first']].
  all: apply keeps_events_bind;
    [destruct (String.eqb _ _); auto 10 with keeps|intros _].
  all: auto with keeps.
Qed.

(** X9. A request that [handle_response_model] refuses never reaches the
    provider: the patched [create], sync or async, ends with the
    exception of the handler, and the transport has not been invoked. *)
Theorem X9_refused_request_never_reaches_the_provider
    (func_is_async : bool) (func : Transport) (mode : Mode)
    (response_model : option TypeHint) (validation_context : option json)
    (max_retries : Z) (kwargs : gmap string value) (w : world) (e : exn)
    (w' : world) :
  Patch.handle_response_model response_model kwargs mode w = (Raise e, w') →
  Patch.wrap_chatcompletion func_is_async func mode response_model
                            validation_context max_retries kwargs w
  = (Raise e, w') ∧
  events w' = events w.
Proof.
  intros E. split.
  - unfold Patch.wrap_chatcompletion, Patch.new_chatcompletion_async,
      Patch.new_chatcompletion_sync.
    destruct func_is_async; by apply bind_Raise.
  - by eapply keeps_events_patch_handler.
Qed.

(** *** The guards on [stream] *)

(** X10. In every mode but PARALLEL_TOOLS, both handlers refuse a request
    whose [stream] is truthy when the response model is neither iterable
    nor partial: they raise NotImplementedError before the mode is looked
    at, so also for a mode they do not support, and leave the store as it
    was. In PARALLEL_TOOLS the test is [stream is False]: a request whose
    [stream] is absent or [False] is accepted, and every other value, a
    falsy [None] or [0] included, is refused with an AssertionError. *)
Theorem X10_stream_guards (t : TypeHint) (mode : Mode)
    (kwargs : gmap string value) (w : world) :
  (mode ≠ PARALLEL_TOOLS →
   truthy (get_or kwargs "stream" (VBool false)) w = (Ok true, w) →
   (streamable (as_openai_schema t) = false →
    Patch.handle_response_model (Some t) kwargs mode w
    = (Raise (NotImplementedError
                "stream=True is not supported when using response_model parameter for non-iterables"),
       w)) ∧
   (streamable (as_openai_schema (adapt_simple t)) = false →
    ProcessResponse.handle_response_model (Some t) mode kwargs w
    = (Raise (NotImplementedError
                "stream=True is not supported when using response_model parameter for non-iterables"),
       w))) ∧
  (get_or kwargs "stream" (VBool false) = VBool false →
   Patch.handle_response_model (Some t) kwargs PARALLEL_TOOLS w
   = (Ok (Some (ParallelModel t),
          <["tool_choice" := VStr "auto"]>
            (<["tools" := VJson (handle_parallel_model t)]> kwargs)), w) ∧
   ProcessResponse.handle_response_model (Some t) PARALLEL_TOOLS kwargs w
   = (Ok (Some (ParallelModel (adapt_simple t)),
          <["tool_choice" := VStr "auto"]>
            (<["tools" := VJson (handle_parallel_model (adapt_simple t))]>
               kwargs)), w)) ∧
  (get_or kwargs "stream" (VBool false) ≠ VBool false →
   Patch.handle_response_model (Some t) kwargs PARALLEL_TOOLS w
   = (Raise (AssertionError
               "stream=True is not supported when using PARALLEL_TOOLS mode"),
      w) ∧
   ProcessResponse.handle_response_model (Some t) PARALLEL_TOOLS kwargs w
   = (Raise (AssertionError
               "stream=True is not supported when using PARALLEL_TOOLS mode"),
      w)).
Proof.
  split; [|split].
  - intros Hmode Htruthy.
    unfold Patch.handle_response_model, ProcessResponse.handle_response_model.
    rewrite !bool_decide_eq_false_2 by done.
    rewrite !(bind_Ok _ _ _ _ _ Htruthy).
    split; by intros ->.
  - intros Hstream.
    unfold Patch.handle_response_model, ProcessResponse.handle_response_model,
      Patch.stream_is_False.
    rewrite !bool_decide_eq_true_2 by done. by rewrite Hstream.
  - intros Hstream.
    unfold Patch.handle_response_model, ProcessResponse.handle_response_model,
      Patch.stream_is_False.
    rewrite !bool_decide_eq_true_2 by done.
    destruct (get_or kwargs "stream" (VBool false)) as [|[|]| | | | | | | | |];
      done.
Qed.

(** *** The modes that only add request parameters *)

(** X11. In the function and tool modes the handlers work on the request
    parameters alone: whatever the outcome, the store, and with it the
    caller's conversation, is as it was; and the request that is returned
    agrees with the caller's on every key other than [functions],
    [function_call], [tools] and [tool_choice]. This holds for
    process_response.py in FUNCTIONS, TOOLS, MISTRAL_TOOLS and
    PARALLEL_TOOLS, and for patch.py in every mode that is not a JSON
    mode. *)
Theorem X11_tool_modes_leave_the_conversation_alone (t : TypeHint)
    (mode : Mode) (kwargs : gmap string value) (w : world)
    (res : result (option ResponseModel * gmap string value)) (w' : world) :
  (mode ∈ [FUNCTIONS; TOOLS; MISTRAL_TOOLS; PARALLEL_TOOLS] ∧
   ProcessResponse.handle_response_model (Some t) mode kwargs w = (res, w'))
  ∨ (¬ json_mode mode ∧
     Patch.handle_response_model (Some t) kwargs mode w = (res, w')) →
  w' = w ∧
  ∀ response_model new_kwargs key,
    res = Ok (response_model, new_kwargs) →
    key ∉ ["functions"; "function_call"; "tools"; "tool_choice"] →
    new_kwargs !! key = kwargs !! key.
Proof.
  assert (∀ key (v1 v2 : value) k1 k2,
            k1 ∈ ["functions"; "function_call"; "tools"; "tool_choice"] →
            k2 ∈ ["functions"; "function_call"; "tools"; "tool_choice"] →
            key ∉ ["functions"; "function_call"; "tools"; "tool_choice"] →
            <[k2 := v2]> (<[k1 := v1]> kwargs) !! key = kwargs !! key)
    as Hframe.
  { intros key v1 v2 k1 k2 H1 H2 Hkey.
    rewrite !lookup_insert_ne; [done|intros Heq; apply Hkey; by rewrite <- Heq..]. }
  assert (∀ k, k ∈ ["functions"; "function_call"; "tools"; "tool_choice"]
               ↔ k = "functions" ∨ k = "function_call" ∨ k = "tools"
                 ∨ k = "tool_choice") as Hin.
  { intros k. rewrite !elem_of_cons, elem_of_nil. tauto. }
  unfold Patch.handle_response_model, ProcessResponse.handle_response_model.
  intros [[Hmode E]|[Hmode E]]; revert E.
  - destruct (bool_decide (mode = PARALLEL_TOOLS)).
    { destruct (Patch.stream_is_False kwargs); intros [= <- <-];
        (split; [done|]); intros rm nk key [= <- <-] Hkey; [|done..].
      apply Hframe; [apply Hin..|done]; auto. }
    unfold mbind at 1, M_bind at 1.
    destruct (truthy _ w) as [[b|e] w1] eqn:Et;
      pose proof (keeps_world_truthy _ _ _ _ Et) as ->;
      [|intros [= <- <-]; by split].
    destruct (b && _); [intros [= <- <-]; by split|].
    rewrite !elem_of_cons, elem_of_nil in Hmode.
    destruct Hmode as [->|[->|[->|[->|[]]]]]; cbn -[subscript];
      unfold lift, mbind, M_bind, mret, M_ret;
      try destruct (subscript _ "name") as [name|e];
      intros [= <- <-]; (split; [done|]);
      intros rm nk key [= <- <-] Hkey; try done;
      apply Hframe; try apply Hin; auto.
  - destruct (bool_decide (mode = PARALLEL_TOOLS)).
    { destruct (Patch.stream_is_False kwargs); intros [= <- <-];
        (split; [done|]); intros rm nk key [= <- <-] Hkey; [|done..].
      apply Hframe; [apply Hin..|done]; auto. }
    unfold mbind at 1, M_bind at 1.
    destruct (truthy _ w) as [[b|e] w1] eqn:Et;
      pose proof (keeps_world_truthy _ _ _ _ Et) as ->;
      [|intros [= <- <-]; by split].
    destruct (b && _); [intros [= <- <-]; by split|].
    destruct mode;
      try (exfalso; apply Hmode; unfold json_mode; by auto);
      cbn -[subscript];
      unfold lift, mbind, M_bind, mret, M_ret, raise;
      try destruct (subscript _ "name") as [name|e];
      intros [= <- <-]; (split; [done|]);
      intros rm nk key [= <- <-] Hkey; try done;
      apply Hframe; try apply Hin; auto.
Qed.

(** *** A request without a first message *)

Lemma getitem_None (kwargs : gmap string value) key w :
  kwargs !! key = None → getitem kwargs key w = (Raise (KeyError key), w).
Proof. unfold getitem. by intros ->. Qed.

Lemma first_of_messages_missing (kwargs : gmap string value) w :
  kwargs !! "messages" = None →
  first_of_messages kwargs w = (Raise (KeyError "messages"), w).
Proof.
  intros Hk. unfold first_of_messages. by apply bind_Raise, getitem_None.
Qed.

Lemma first_of_messages_empty (kwargs : gmap string value) l w :
  kwargs !! "messages" = Some (VList l) →
  view w l = Some [] →
  first_of_messages kwargs w = (Raise IndexError, w).
Proof.
  intros Hk (items & Hl & Hm)%view_Some. apply Forall2_nil_inv_r in Hm as ->.
  unfold first_of_messages.
  step (getitem_Some _ _ _ w Hk).
  step (eq_refl : as_indexable (VList l) w = (Ok l, w)).
  apply bind_Raise. unfold list_first, read_list, mbind, M_bind.
  by rewrite Hl.
Qed.

(** X12. A request without a [messages] parameter is refused with
    [KeyError: 'messages'] and the store is left as it was: by
    process_response.py in the three JSON modes, in ANTHROPIC_TOOLS, in
    GEMINI_JSON and in the two Vertex AI modes, and by patch.py in the
    three JSON modes. *)
Theorem X12_missing_messages_is_a_KeyError (t : TypeHint) (mode : Mode)
    (kwargs : gmap string value) (w : world) :
  kwargs !! "messages" = None →
  (mode ∈ [JSON; JSON_SCHEMA; MD_JSON; ANTHROPIC_TOOLS; GEMINI_JSON;
            VERTEXAI_TOOLS; VERTEXAI_JSON] →
   (mode = GEMINI_JSON → kwargs !! "model" = None) →
   stream_allowed kwargs (as_openai_schema (adapt_simple t)) w →
   ProcessResponse.handle_response_model (Some t) mode kwargs w
   = (Raise (KeyError "messages"), w)) ∧
  (∀ instruction,
     json_mode mode →
     stream_allowed kwargs (as_openai_schema t) w →
     Patch.json_instruction (as_openai_schema t) = Ok instruction →
     Patch.handle_response_model (Some t) kwargs mode w
     = (Raise (KeyError "messages"), w)).
Proof.
  intros Hk. split.
  - intros Hmode Hmodel (b & Htruthy & Hguard).
    unfold ProcessResponse.handle_response_model.
    rewrite !elem_of_cons, elem_of_nil in Hmode.
    rewrite bool_decide_eq_false_2
      by (intros ->; repeat (destruct Hmode as [Hmode|Hmode]; [done|]); done).
    rewrite (bind_Ok _ _ _ _ _ Htruthy), Hguard.
    apply bind_Raise.
    destruct Hmode as [->|[->|[->|[->|[->|[->|[->|[]]]]]]]]; cbv iota.
    + rewrite bind_ret. apply bind_Raise.
      unfold ProcessResponse.place_instruction.
      apply bind_Raise, first_of_messages_missing.
      by rewrite lookup_insert_ne.
    + rewrite bind_ret. apply bind_Raise.
      unfold ProcessResponse.place_instruction.
      apply bind_Raise, first_of_messages_missing.
      by rewrite lookup_insert_ne.
    + do 2 apply bind_Raise. unfold append_message.
      by apply bind_Raise, getitem_None.
    + apply bind_Raise, getitem_None. by rewrite !lookup_insert_ne.
    + rewrite bool_decide_eq_false_2
        by (rewrite Hmodel by done; by intros [? ?]).
      apply bind_Raise. unfold ProcessResponse.place_instruction.
      by apply bind_Raise, first_of_messages_missing.
    + apply bind_Raise. unfold ClientVertexAI.vertexai_process_response.
      apply bind_Raise. unfold ClientVertexAI.pop_messages.
      by apply bind_Raise, getitem_None.
    + apply bind_Raise.
      unfold ClientVertexAI.vertexai_process_json_response.
      apply bind_Raise. unfold ClientVertexAI.pop_messages.
      by apply bind_Raise, getitem_None.
  - intros instruction Hmode (b & Htruthy & Hguard) Hinstr.
    unfold Patch.handle_response_model.
    rewrite bool_decide_eq_false_2
      by (intros ->; destruct Hmode as [|[|]]; done).
    rewrite (bind_Ok _ _ _ _ _ Htruthy), Hguard.
    destruct Hmode as [->|[->| ->]]; cbv iota; rewrite Hinstr;
      rewrite (bind_Ok _ _ w instruction w) by done.
    + rewrite bind_ret. apply bind_Raise, first_of_messages_missing.
      by rewrite lookup_insert_ne.
    + rewrite bind_ret. apply bind_Raise, first_of_messages_missing.
      by rewrite lookup_insert_ne.
    + do 2 apply bind_Raise. unfold append_message.
      by apply bind_Raise, getitem_None.
Qed.

(** X13. On a conversation that is empty, JSON and JSON_SCHEMA (in both
    handlers) and GEMINI_JSON fail with an IndexError when they look for
    the first message, and leave the store as it was. MD_JSON in patch.py
    succeeds, because it appends the opening of the code block before it
    looks: the conversation then holds the system message, which carries
    the instruction twice, followed by that opening. *)
Theorem X13_empty_conversation (t : TypeHint) (mode : Mode)
    (kwargs : gmap string value) (w : world) (l : loc) :
  kwargs !! "messages" = Some (VList l) →
  view w l = Some [] →
  (stream_allowed kwargs (as_openai_schema (adapt_simple t)) w →
   mode ∈ [JSON; JSON_SCHEMA; GEMINI_JSON] →
   (mode = GEMINI_JSON → kwargs !! "model" = None) →
   ProcessResponse.handle_response_model (Some t) mode kwargs w
   = (Raise IndexError, w)) ∧
  (∀ instruction,
     stream_allowed kwargs (as_openai_schema t) w →
     Patch.json_instruction (as_openai_schema t) = Ok instruction →
     (mode ∈ [JSON; JSON_SCHEMA] →
      Patch.handle_response_model (Some t) kwargs mode w
      = (Raise IndexError, w)) ∧
     ∃ w',
       Patch.handle_response_model (Some t) kwargs MD_JSON w
       = (Ok (Some (as_openai_schema t), <["stop" := VStr "```"]> kwargs),
          w') ∧
       view w' l
       = Some [Msg.plain "system" (instruction +:+ nl +:+ nl +:+ instruction);
               md_json_opening]).
Proof.
  intros Hk Hv. split.
  - intros Hs Hmode Hmodel. rewrite !elem_of_cons, elem_of_nil in Hmode.
    destruct Hmode as [Hmode|[Hmode|[->|[]]]].
    1,2: destruct (json_modes_prepare t mode kwargs w l [] ltac:(
                     unfold json_mode; by auto) Hk Hv Hs)
           as (nk & w1 & l1 & ds1 & -> & Hk1 & Hl1 & Hm1 & _ & Hsame & _);
         destruct Hsame as [-> ->]; [by subst mode|];
         apply bind_Raise; unfold ProcessResponse.place_instruction;
         apply bind_Raise; by apply (first_of_messages_empty nk l).
    destruct Hs as (b & Htruthy & Hguard).
    unfold ProcessResponse.handle_response_model.
    rewrite bool_decide_eq_false_2 by done.
    rewrite (bind_Ok _ _ _ _ _ Htruthy), Hguard.
    rewrite bool_decide_eq_false_2
      by (rewrite Hmodel by done; by intros [? ?]).
    do 2 apply bind_Raise. unfold ProcessResponse.place_instruction.
    apply bind_Raise. by apply (first_of_messages_empty kwargs l).
  - intros instruction Hs Hinstr. split.
    + intros Hmode. rewrite !elem_of_cons, elem_of_nil in Hmode.
      destruct (patch_json_modes_prepare t mode kwargs w l [] instruction
                  ltac:(unfold json_mode; tauto) Hk Hv Hs Hinstr)
        as (nk & w1 & -> & Hk1 & Hv1 & Hsame & _).
      rewrite (Hsame ltac:(by destruct Hmode as [->|[->|[]]])) in Hv1 |- *.
      apply bind_Raise, (first_of_messages_empty nk l); [done|].
      by destruct Hmode as [->|[->|[]]].
    + destruct (append_message_view kwargs l (mret md_json_opening)
                  md_json_opening w [] Hk Hv eq_refl)
        as (w1 & Ea & Hv1 & _).
      simpl in Hv1.
      assert (<["stop" := VStr "```"]> kwargs !! "messages" = Some (VList l))
        as Hk1 by (by rewrite lookup_insert_ne).
      destruct (first_of_messages_view _ l w1 _ _ Hk1 Hv1)
        as (d0 & ds0 & _ & _ & _ & Ef).
      destruct (list_insert0_fresh l (Msg.plain "system" instruction) w1 _ Hv1)
        as (d & ds & w2 & Ei & Hl2 & Hfresh & Hv2 & _).
      destruct (extend_first _ l w2 _ _ (nl +:+ nl +:+ instruction) Hk1 Hv2)
        as (d' & ds' & ms' & Hl' & Ef2 & Hv' & _ & Hexact).
      assert (d' = d ∧ ds' = ds) as [-> ->] by (split; congruence).
      rewrite (Hexact Hfresh) in Hv'.
      eexists. split; [|exact Hv'].
      destruct Hs as (b & Htruthy & Hguard).
      unfold Patch.handle_response_model.
      rewrite bool_decide_eq_false_2 by done.
      rewrite (bind_Ok _ _ _ _ _ Htruthy), Hguard. cbv iota.
      rewrite Hinstr. rewrite (bind_Ok _ _ w instruction w) by done.
      fold md_json_opening. step Ea. rewrite bind_ret.
      step Ef. cbn [negb Msg.role md_json_opening Msg.plain String.eqb
                    Ascii.eqb Bool.eqb].
      step (getitem_Some _ _ _ w1 Hk1).
      step (eq_refl : as_list "insert" (VList l) w1 = (Ok l, w1)).
      step Ei. step Ef2. simpl. done.
Qed.

(** *** COHERE_TOOLS *)

(** X14. In COHERE_TOOLS the conversation leaves the request as Cohere's
    chat history: the handler removes [messages], puts one entry per
    message into [chat_history], in order, with the role as it is and the
    content under the key [message], and makes the extraction instruction
    the [message] of the request. A request without [messages] gets an
    empty history. The other parameters and the store are as they were. *)
Theorem X14_cohere_chat_history (t : TypeHint) (kwargs : gmap string value)
    (w : world) (ms : list Msg.t) :
  stream_allowed kwargs (as_openai_schema (adapt_simple t)) w →
  (kwargs !! "messages" = None ∧ ms = [])
  ∨ (∃ l, kwargs !! "messages" = Some (VList l) ∧ view w l = Some ms) →
  ∃ new_kwargs,
    ProcessResponse.handle_response_model (Some t) COHERE_TOOLS kwargs w
    = (Ok (Some (as_openai_schema (adapt_simple t)), new_kwargs), w) ∧
    new_kwargs !! "messages" = None ∧
    new_kwargs !! "message"
    = Some (VStr (ProcessResponse.cohere_instruction
                    (as_openai_schema (adapt_simple t)))) ∧
    new_kwargs !! "chat_history"
    = Some (VJson (JArr ((λ m, JObj [("role", JStr (Msg.role m));
                                     ("message", JStr (Msg.content m))])
                           <$> ms))) ∧
    ∀ key, key ∉ ["messages"; "message"; "chat_history"] →
           new_kwargs !! key = kwargs !! key.
Proof.
  intros (b & Htruthy & Hguard) Hms.
  unfold ProcessResponse.handle_response_model.
  rewrite bool_decide_eq_false_2 by done.
  rewrite (bind_Ok _ _ _ _ _ Htruthy), Hguard. cbv iota.
  assert (match kwargs !! "messages" with
          | Some v => as_indexable v ≫= λ l, read_messages l
          | None => mret []
          end w = (Ok ms, w)) as Eread.
  { destruct Hms as [[-> ->]|(l & -> & Hv)]; [done|].
    rewrite (bind_Ok _ _ w l w) by done. by apply read_messages_view. }
  rewrite bind_bind. step Eread. rewrite !bind_ret.
  eexists. split; [done|].
  split; [by rewrite !lookup_insert_ne, lookup_delete_eq|].
  split; [by rewrite lookup_insert_ne, lookup_insert_eq|].
  split; [by rewrite lookup_insert_eq|].
  intros key Hkey. rewrite !not_elem_of_cons in Hkey.
  destruct Hkey as (? & ? & ? & _).
  by rewrite !lookup_insert_ne, lookup_delete_ne.
Qed.

(** *** The modes that at most allocate *)


(** *** GEMINI_JSON: the sampling parameters *)

Lemma update_gemini_config_moves args : ∀ new_kwargs d w,
  NoDup args.*1 → NoDup args.*2 →
  new_kwargs !! "generation_config" = Some (VDict d) →
  "generation_config" ∉ args.*1 →
  ∃ new_kwargs' d',
    ProcessResponse.update_gemini_config args new_kwargs w
    = (Ok new_kwargs', w) ∧
    new_kwargs' !! "generation_config" = Some (VDict d') ∧
    (∀ key, key ∉ args.*1 → key ≠ "generation_config" →
            new_kwargs' !! key = new_kwargs !! key) ∧
    (∀ key, key ∈ args.*1 → new_kwargs' !! key = None) ∧
    (∀ k v, (k, v) ∈ args →
            d' !! v = match set_parameter new_kwargs k with
                      | Some val => Some val
                      | None => d !! v
                      end) ∧
    (∀ key, key ∉ args.*2 → d' !! key = d !! key).
Proof.
  induction args as [|[k v] args IH]; intros nk d w Hnd1 Hnd2 Hcfg Hnin.
  { exists nk, d. repeat split; try done.
    - intros key Hin. by apply elem_of_nil in Hin.
    - intros k v Hin. by apply elem_of_nil in Hin. }
  simpl in Hnd1, Hnd2, Hnin.
  apply NoDup_cons in Hnd1 as [Hk1 Hnd1].
  apply NoDup_cons in Hnd2 as [Hv2 Hnd2].
  apply not_elem_of_cons in Hnin as [Hk Hnin].
  assert (∀ nk1 d1,
            nk1 !! "generation_config" = Some (VDict d1) →
            (∀ key, key ≠ k → key ≠ "generation_config" →
                    nk1 !! key = nk !! key) →
            nk1 !! k = None →
            d1 !! v = match set_parameter nk k with
                      | Some val => Some val
                      | None => d !! v
                      end →
            (∀ key, key ≠ v → d1 !! key = d !! key) →
            ∃ nk' d',
              ProcessResponse.update_gemini_config args nk1 w = (Ok nk', w) ∧
              nk' !! "generation_config" = Some (VDict d') ∧
              (∀ key, key ∉ ((k, v) :: args).*1 → key ≠ "generation_config" →
                      nk' !! key = nk !! key) ∧
              (∀ key, key ∈ ((k, v) :: args).*1 → nk' !! key = None) ∧
              (∀ k0 v0, (k0, v0) ∈ (k, v) :: args →
                        d' !! v0 = match set_parameter nk k0 with
                                   | Some val => Some val
                                   | None => d !! v0
                                   end) ∧
              (∀ key, key ∉ ((k, v) :: args).*2 → d' !! key = d !! key))
    as Hrest.
  { intros nk1 d1 Hcfg1 Hsame Hgone Hv Hother.
    destruct (IH nk1 d1 w Hnd1 Hnd2 Hcfg1 Hnin)
      as (nk' & d' & E & Hcfg' & Hkeys & Hnone & Hmoved & Hkept).
    exists nk', d'. split; [done|]. split; [done|]. simpl.
    split; [|split; [|split]].
    - intros key [Hkey Hkeys']%not_elem_of_cons Hg.
      rewrite Hkeys by done. by apply Hsame.
    - intros key [->|Hin]%elem_of_cons; [|by apply Hnone].
      by rewrite Hkeys.
    - intros k0 v0 [[= -> ->]|Hin]%elem_of_cons.
      + by rewrite Hkept.
      + assert (k0 ≠ k) as Hk0.
        { intros ->. apply Hk1. apply list_elem_of_fmap. by exists (k, v0). }
        assert (v0 ≠ v) as Hv0.
        { intros ->. apply Hv2. apply list_elem_of_fmap. by exists (k0, v). }
        assert (k0 ≠ "generation_config") as Hg.
        { intros ->. apply Hnin. apply list_elem_of_fmap.
          by exists ("generation_config", v0). }
        rewrite (Hmoved _ _ Hin). unfold set_parameter.
        rewrite (Hsame _ Hk0 Hg). by rewrite (Hother _ Hv0).
    - intros key [Hkey Hkeys']%not_elem_of_cons.
      rewrite Hkept by done. by apply Hother. }
  simpl.
  assert (delete k nk !! "generation_config" = Some (VDict d)) as Hcfg'.
  { by rewrite lookup_delete_ne. }
  assert (∀ key, key ≠ k → key ≠ "generation_config" →
                 delete k nk !! key = nk !! key) as Hdel.
  { intros. by rewrite lookup_delete_ne. }
  unfold get_or, set_parameter in *.
  destruct (nk !! k) as [val|] eqn:Eval; simpl;
    [destruct val|];
    try (rewrite (bind_Ok _ _ _ _ _ (getitem_Some _ _ _ w Hcfg'));
         apply (Hrest _ _ (lookup_insert_eq _ _ _));
         [intros; rewrite lookup_insert_ne by done; by apply Hdel
         |rewrite lookup_insert_ne by done; apply lookup_delete_eq
         |by rewrite lookup_insert_eq
         |intros; by rewrite lookup_insert_ne]).
  - apply (Hrest _ d); [done|done|apply lookup_delete_eq|done|done].
  - apply (Hrest _ d); [done|done|apply lookup_delete_eq|done|done].
Qed.

(** X16. In GEMINI_JSON the OpenAI sampling parameters leave the request
    and reach [generation_config] under Gemini's names: for each of
    [max_tokens], [temperature], [n], [top_p] and [stop] the key is
    removed, and when the parameter was set to something other than
    [None] its value is stored under [max_output_tokens], [temperature],
    [candidate_count], [top_p] or [stop_sequences], over whatever the
    caller's [generation_config] held there. [response_mime_type] is
    [application/json] whatever the caller supplied, and every other
    entry of the caller's [generation_config] is kept. *)
Theorem X16_gemini_sampling_parameters (t : TypeHint)
    (kwargs : gmap string value) (w : world) (l : loc) (m : Msg.t)
    (ms : list Msg.t) (caller_config : option (gmap string value))
    (caller_safety : option (gmap HarmCategory HarmBlockThreshold)) :
  kwargs !! "model" = None →
  kwargs !! "messages" = Some (VList l) →
  view w l = Some (m :: ms) →
  stream_allowed kwargs (as_openai_schema (adapt_simple t)) w →
  kwargs !! "generation_config" = VDict <$> caller_config →
  kwargs !! "safety_settings" = VSafety <$> caller_safety →
  ∃ new_kwargs w' config,
    ProcessResponse.handle_response_model (Some t) GEMINI_JSON kwargs w
    = (Ok (Some (as_openai_schema (adapt_simple t)), new_kwargs), w') ∧
    new_kwargs !! "generation_config" = Some (VDict config) ∧
    config !! "response_mime_type" = Some (VStr "application/json") ∧
    (∀ k v, (k, v) ∈ ProcessResponse.map_openai_args_to_gemini →
            new_kwargs !! k = None ∧
            config !! v = match set_parameter kwargs k with
                          | Some val => Some val
                          | None => default ∅ caller_config !! v
                          end) ∧
    (∀ key, key ∉ (ProcessResponse.map_openai_args_to_gemini).*2 →
            key ≠ "response_mime_type" →
            config !! key = default ∅ caller_config !! key).
Proof.
  intros Hmodel Hk Hv (b & Htruthy & Hguard) Hcfg Hsafety.
  unfold ProcessResponse.handle_response_model.
  rewrite bool_decide_eq_false_2 by done.
  rewrite (bind_Ok _ _ _ _ _ Htruthy), Hguard.
  rewrite bool_decide_eq_false_2 by (rewrite Hmodel; by intros [? ?]).
  destruct (place_instruction_ok kwargs
              (ProcessResponse.json_instruction
                 (as_openai_schema (adapt_simple t))) l w m ms Hk Hv)
    as (w1 & ms1 & Ep & Hv1 & Hev1).
  step Ep.
  assert (get_or kwargs "generation_config" (VDict ∅)
          = VDict (default ∅ caller_config)) as ->.
  { unfold get_or. rewrite Hcfg. by destruct caller_config. }
  rewrite bind_bind, bind_ret.
  set (d0 := ProcessResponse.dict_or (default ∅ caller_config)
               {["response_mime_type" := VStr "application/json"]}).
  destruct (update_gemini_config_moves
              ProcessResponse.map_openai_args_to_gemini
              (<["generation_config" := VDict d0]> kwargs) d0 w1)
    as (nk' & d' & Eu & Hcfg' & Hkeys & Hnone & Hmoved & Hkept).
  { simpl. repeat (constructor; [not_listed|]). constructor. }
  { simpl. repeat (constructor; [not_listed|]). constructor. }
  { apply lookup_insert_eq. }
  { not_listed. }
  step Eu.
  assert (nk' !! "messages" = Some (VList l)) as Hk'.
  { rewrite Hkeys; [by rewrite lookup_insert_ne| |done]. not_listed. }
  unfold ClientVertexAI.pop_messages.
  step (getitem_Some _ _ _ w1 Hk').
  step (eq_refl : as_indexable (VList l) w1 = (Ok l, w1)).
  step (read_messages_view _ _ _ Hv1).
  rewrite bind_ret. cbv beta iota.
  assert (get_or (<["contents" := transform_to_gemini_prompt ms1]>
                    (delete "messages" nk')) "safety_settings" (VSafety ∅)
          = VSafety (default ∅ caller_safety)) as ->.
  { unfold get_or. rewrite lookup_insert_ne by done.
    rewrite lookup_delete_ne by done.
    rewrite Hkeys; [|not_listed|done].
    rewrite lookup_insert_ne by done. rewrite Hsafety.
    by destruct caller_safety. }
  rewrite bind_bind, bind_ret.
  assert (∀ key, key ≠ "response_mime_type" →
                 d0 !! key = default ∅ caller_config !! key) as Hd0.
  { intros key Hkey. unfold d0, ProcessResponse.dict_or.
    apply lookup_union_r. by rewrite lookup_singleton_ne. }
  eexists _, w1, d'. split; [done|]. split; [|split; [|split]].
  - rewrite !lookup_insert_ne by done. by rewrite lookup_delete_ne.
  - rewrite Hkept by not_listed. unfold d0, ProcessResponse.dict_or.
    apply lookup_union_Some_l, lookup_singleton_eq.
  - intros k v Hin. split.
    + assert (k ∈ (ProcessResponse.map_openai_args_to_gemini).*1) as Hin1.
      { apply list_elem_of_fmap. by exists (k, v). }
      rewrite !lookup_insert_ne, lookup_delete_ne;
        [by apply Hnone|intros <-; revert Hin1; not_listed..].
    + rewrite (Hmoved _ _ Hin). unfold set_parameter.
      assert (k ≠ "generation_config") as Hg.
      { intros ->. revert Hin. not_listed. }
      rewrite lookup_insert_ne by done.
      rewrite Hd0; [done|]. intros ->. revert Hin. not_listed.
  - intros key Hkey Hmime. rewrite Hkept by done. by apply Hd0.
Qed.

(** *** patch.py: a refused request leaves no trace *)

(** The placement of the instruction in patch.py, on a conversation that
    has a first message, goes through. *)
Lemma patch_placement_succeeds (nk : gmap string value) instr
    (r : option ResponseModel * gmap string value) l w m ms :
  nk !! "messages" = Some (VList l) →
  view w l = Some (m :: ms) →
  ∃ w',
    ('(_, first) ← first_of_messages nk;
     (if negb (String.eqb (Msg.role first) "system") then
        v ← getitem nk "messages";
        l ← as_list "insert" v;
        list_insert0 l (Msg.plain "system" instr)
      else mret ());;
     '(d, first) ← first_of_messages nk;
     (if String.eqb (Msg.role first) "system" then
        write_dict d (Msg.add_content (nl +:+ nl +:+ instr) first)
      else mret ());;
     mret r) w
    = (Ok r, w').
Proof.
  intros Hk Hv.
  destruct (first_of_messages_view nk l w m ms Hk Hv)
    as (d0 & ds0 & _ & _ & _ & Ef).
  destruct (String.eqb (Msg.role m) "system") eqn:Hb.
  - eexists. step Ef. rewrite Hb. cbn [negb]. rewrite bind_ret.
    step Ef. rewrite Hb. done.
  - destruct (list_insert0_fresh l (Msg.plain "system" instr) w _ Hv)
      as (d & ds & w2 & Ei & Hl2 & Hfresh & Hv2 & _).
    destruct (first_of_messages_view nk l w2 _ _ Hk Hv2)
      as (d' & ds' & _ & _ & _ & Ef2).
    eexists. step Ef. rewrite Hb. cbn [negb].
    step (getitem_Some _ _ _ w Hk).
    step (eq_refl : as_list "insert" (VList l) w = (Ok l, w)).
    step Ei. step Ef2. simpl. done.
Qed.

Lemma patch_placement_atomic (nk : gmap string value) instr
    (r : option ResponseModel * gmap string value) w e w' :
  (∀ l, nk !! "messages" = Some (VList l) → is_Some (view w l)) →
  ('(_, first) ← first_of_messages nk;
   (if negb (String.eqb (Msg.role first) "system") then
      v ← getitem nk "messages";
      l ← as_list "insert" v;
      list_insert0 l (Msg.plain "system" instr)
    else mret ());;
   '(d, first) ← first_of_messages nk;
   (if String.eqb (Msg.role first) "system" then
      write_dict d (Msg.add_content (nl +:+ nl +:+ instr) first)
    else mret ());;
   mret r) w
  = (Raise e, w') →
  w' = w.
Proof.
  intros Hwf.
  destruct (nk !! "messages") as [v|] eqn:Hk.
  - assert (∀ e0, first_of_messages nk w = (Raise e0, w) →
                  ∀ (k : loc * Msg.t → M (option ResponseModel
                                          * gmap string value)),
                    (first_of_messages nk ≫= k) w = (Raise e, w') → w' = w)
      as Hfail.
    { intros e0 Ef k. rewrite (bind_Raise _ _ _ _ _ Ef). by intros [= _ <-]. }
    destruct v;
      try (apply (Hfail TypeError); unfold first_of_messages;
           by step (getitem_Some _ _ _ w Hk)).
    destruct (Hwf l eq_refl) as [[|m ms] Hv].
    + apply (Hfail IndexError). by apply (first_of_messages_empty nk l).
    + destruct (patch_placement_succeeds nk instr r l w m ms Hk Hv)
        as (w2 & ->). done.
  - rewrite (bind_Raise _ _ _ _ _ (first_of_messages_missing nk w Hk)).
    by intros [= _ <-].
Qed.

(** X19. In patch.py a refused request leaves no trace: when
    [handle_response_model] raises, in whatever mode and for whatever
    reason, the store is exactly as it was before the call, provided the
    conversation of the request, if it has one, can be read. In MD_JSON
    in particular the opening of the code block is appended only to a
    conversation the rest of the handler accepts. *)
Theorem X19_patch_handler_fails_without_a_trace
    (response_model : option TypeHint) (kwargs : gmap string value)
    (mode : Mode) (w : world) (e : exn) (w' : world) :
  (∀ l, kwargs !! "messages" = Some (VList l) → is_Some (view w l)) →
  Patch.handle_response_model response_model kwargs mode w = (Raise e, w') →
  w' = w.
Proof.
  intros Hwf. unfold Patch.handle_response_model.
  destruct response_model as [t|]; [|done].
  destruct (bool_decide (mode = PARALLEL_TOOLS)).
  { destruct (Patch.stream_is_False kwargs); by intros [= _ <-]. }
  unfold mbind at 1, M_bind at 1.
  destruct (truthy _ w) as [[b|e0] w1] eqn:Et;
    pose proof (keeps_world_truthy _ _ _ _ Et) as ->;
    [|by intros [= _ <-]].
  destruct (b && _); [by intros [= _ <-]|].
  assert (∀ (m : M (option ResponseModel * gmap string value)),
            keeps_world m → m w = (Raise e, w') → w' = w) as Hkeeps.
  { intros m Hm E. by apply Hm in E. }
  destruct mode;
    try (apply Hkeeps; solve [auto 10 with keeps]).
  - (* JSON *)
    unfold mbind at 1, M_bind at 1, lift at 1.
    destruct (Patch.json_instruction _) as [instr|e0];
      [|by intros [= _ <-]].
    rewrite bind_ret. apply patch_placement_atomic.
    intros l Hl. rewrite lookup_insert_ne in Hl by done. by apply Hwf.
  - (* MD_JSON *)
    unfold mbind at 1, M_bind at 1, lift at 1.
    destruct (Patch.json_instruction _) as [instr|e0];
      [|by intros [= _ <-]].
    rewrite bind_bind.
    unfold mbind at 1, M_bind at 1.
    destruct (append_message kwargs _ w) as [x w1] eqn:Ea.
    pose proof Ea as Ea'.
    apply append_message_outcome in Ea' as
        [(e1 & -> & ->)|(-> & l & m & Hk & _ & _)];
      [by intros [= _ <-]| |apply keeps_world_ret].
    destruct (Hwf l Hk) as [ms Hv].
    destruct (append_message_view kwargs l
                (mret (Msg.plain "assistant"
                         ("Here is the perfectly correctly formatted JSON"
                            +:+ nl +:+ "```json")))
                _ w ms Hk Hv (ret_run _ _)) as (w2 & Ea2 & Hv2 & _).
    rewrite Ea in Ea2. injection Ea2 as ->.
    rewrite bind_ret.
    assert (<["stop" := VStr "```"]> kwargs !! "messages" = Some (VList l))
      as Hk1 by (by rewrite lookup_insert_ne).
    destruct ms as [|m0 ms];
      [destruct (patch_placement_succeeds _ instr
                   (Some (as_openai_schema t), <["stop" := VStr "```"]> kwargs)
                   l w2 _ _ Hk1 Hv2) as (w3 & ->)
      |destruct (patch_placement_succeeds _ instr
                   (Some (as_openai_schema t), <["stop" := VStr "```"]> kwargs)
                   l w2 _ _ Hk1 Hv2) as (w3 & ->)];
      done.
  - (* JSON_SCHEMA *)
    unfold mbind at 1, M_bind at 1, lift at 1.
    destruct (Patch.json_instruction _) as [instr|e0];
      [|by intros [= _ <-]].
    rewrite bind_ret. apply patch_placement_atomic.
    intros l Hl. rewrite lookup_insert_ne in Hl by done. by apply Hwf.
Qed.

End handlers_more.

(** * Further properties of the Vertex AI request builders *)

Section vertex_more.
Context `{Runtime}.

Lemma pop_messages_view (kwargs : gmap string value) l w ms :
  kwargs !! "messages" = Some (VList l) →
  view w l = Some ms →
  ClientVertexAI.pop_messages kwargs w
  = (Ok (ms, delete "messages" kwargs), w).
Proof.
  intros Hk Hv. unfold ClientVertexAI.pop_messages.
  step (getitem_Some _ _ _ w Hk).
  step (eq_refl : as_indexable (VList l) w = (Ok l, w)).
  by step (read_messages_view _ _ _ Hv).
Qed.

(** X17. [vertexai_process_json_response] builds the generation
    configuration from its own two settings and the caller's
    [generation_config]. A caller's configuration that itself names
    [response_mime_type] or [response_schema] makes the call fail with a
    TypeError, the keyword being given twice. Otherwise the result holds
    [response_mime_type = application/json], the schema of the model, and
    after them the caller's entries; a missing or empty configuration adds
    none. The request parameters that remain have lost [messages] and
    [generation_config]; the store is as it was. *)
Theorem X17_vertexai_json_generation_config (model : ResponseModel)
    (kwargs : gmap string value) (w : world) (l : loc) (ms : list Msg.t)
    (schema : json) :
  kwargs !! "messages" = Some (VList l) →
  view w l = Some ms →
  ClientVertexAI._create_gemini_json_schema model = Ok schema →
  (∀ d, kwargs !! "generation_config" = Some (VDict d) →
        is_Some (d !! "response_mime_type") ∨ is_Some (d !! "response_schema") →
        ClientVertexAI.vertexai_process_json_response kwargs model w
        = (Raise TypeError, w)) ∧
  (∀ caller : option (gmap string value),
     kwargs !! "generation_config" = VDict <$> caller →
     default ∅ caller !! "response_mime_type" = None →
     default ∅ caller !! "response_schema" = None →
     ClientVertexAI.vertexai_process_json_response kwargs model w
     = (Ok (ClientVertexAI._vertexai_message_list_parser ms,
            VObject "GenerationConfig"
                    ([("response_mime_type", VStr "application/json");
                      ("response_schema", VJson schema)]
                       ++ map_to_list (default ∅ caller)),
            delete "generation_config" (delete "messages" kwargs)), w)).
Proof.
  intros Hk Hv Hschema.
  pose proof (pop_messages_view kwargs l w ms Hk Hv) as Epop.
  split.
  - intros d Hcfg Hdup.
    unfold ClientVertexAI.vertexai_process_json_response.
    step Epop. rewrite Hschema.
    rewrite (bind_Ok _ _ w schema w) by done.
    unfold get_or. rewrite lookup_delete_ne by done. rewrite Hcfg.
    cbn [default from_option id truthy].
    assert (size d ≠ 0%nat) as Hsize.
    { intros ->%map_size_empty_inv.
      destruct Hdup as [[? Hd]|[? Hd]]; by rewrite lookup_empty in Hd. }
    rewrite bind_ret. apply Nat.eqb_neq in Hsize. rewrite Hsize.
    cbn [negb]. by rewrite bool_decide_eq_true_2.
  - intros caller Hcfg Hmime Hrs.
    unfold ClientVertexAI.vertexai_process_json_response.
    step Epop. rewrite Hschema.
    rewrite (bind_Ok _ _ w schema w) by done.
    unfold get_or. rewrite lookup_delete_ne by done. rewrite Hcfg.
    destruct caller as [d|];
      cbn [fmap option_fmap option_map default from_option id truthy];
      [|by rewrite map_to_list_empty].
    rewrite bind_ret.
    destruct (Nat.eqb (size d) 0) eqn:Hsize; cbn [negb].
    + apply Nat.eqb_eq, map_size_empty_inv in Hsize as ->.
      by rewrite map_to_list_empty.
    + rewrite bool_decide_eq_false_2; [done|].
      simpl in Hmime, Hrs. rewrite Hmime, Hrs.
      intros [[? ?]|[? ?]]; done.
Qed.

(** X18. In VERTEXAI_TOOLS the conversation leaves the request as Vertex
    AI contents: the handler removes [messages], puts one [Content] per
    message into [contents], in order, with the role of the message and
    its content as the only text part, sets [tools] to the one tool
    declared from the model and [tool_config] to function calling in mode
    ANY. The other parameters and the store are as they were. *)
Theorem X18_vertexai_tools_request (t : TypeHint)
    (kwargs : gmap string value) (w : world) (l : loc) (ms : list Msg.t)
    (tool : value) :
  kwargs !! "messages" = Some (VList l) →
  view w l = Some ms →
  stream_allowed kwargs (as_openai_schema (adapt_simple t)) w →
  ClientVertexAI._create_vertexai_tool (as_openai_schema (adapt_simple t))
  = Ok tool →
  ∃ new_kwargs,
    ProcessResponse.handle_response_model (Some t) VERTEXAI_TOOLS kwargs w
    = (Ok (Some (as_openai_schema (adapt_simple t)), new_kwargs), w) ∧
    new_kwargs !! "messages" = None ∧
    new_kwargs !! "contents"
    = Some (VSeq ((λ m, VObject "Content"
                          [("role", VStr (Msg.role m));
                           ("parts",
                            VSeq [VObject "Part.from_text"
                                          [("text", VStr (Msg.content m))]])])
                    <$> ms)) ∧
    new_kwargs !! "tools" = Some (VSeq [tool]) ∧
    new_kwargs !! "tool_config"
    = Some (VObject "ToolConfig"
              [("function_calling_config",
                VObject "ToolConfig.FunctionCallingConfig"
                        [("mode", VStr "ANY")])]) ∧
    ∀ key, key ∉ ["messages"; "contents"; "tools"; "tool_config"] →
           new_kwargs !! key = kwargs !! key.
Proof.
  intros Hk Hv (b & Htruthy & Hguard) Htool.
  pose proof (pop_messages_view kwargs l w ms Hk Hv) as Epop.
  unfold ProcessResponse.handle_response_model.
  rewrite bool_decide_eq_false_2 by done.
  rewrite (bind_Ok _ _ _ _ _ Htruthy), Hguard. cbv iota.
  unfold ClientVertexAI.vertexai_process_response.
  eexists. split.
  { unfold mbind, M_bind. rewrite Epop. unfold lift. rewrite Htool.
    reflexivity. }
  split; [rewrite !lookup_insert_ne by done; apply lookup_delete_eq|].
  split; [rewrite !lookup_insert_ne by done; apply lookup_insert_eq|].
  split; [rewrite !lookup_insert_ne by done; apply lookup_insert_eq|].
  split; [apply lookup_insert_eq|].
  intros key Hkey. rewrite !not_elem_of_cons in Hkey.
  destruct Hkey as (? & ? & ? & ? & _).
  rewrite !lookup_insert_ne by done. by apply lookup_delete_ne.
Qed.

End vertex_more.

(** * The further properties on concrete requests *)

Section more_examples.
Import Sample Patch.
#[local] Existing Instance Sample.runtime.

(** ** The retry loop *)

(** One rejected answer: the caller's conversation is still there, with
    the corrective turns after it. *)
Lemma X1_one_rejected_answer_example :
  ∃ added, view one_bad_answer.2 1%positive = Some (conversation ++ added).
Proof.
  destruct (X1_retry_only_appends
              (retry_sync (scripted [Ok bad_answer]) (Some UserDetail) None
                          request 0 None TOOLS)
              (scripted [Ok bad_answer]) (Some UserDetail) None request 0 None
              TOOLS start one_bad_answer.1 one_bad_answer.2)
    with (l := 1%positive) (ms := conversation) as [added Hview];
    [by left|apply surjective_pairing|vm_compute; reflexivity|].
  exists added. exact Hview.
Defined.

(** Two retries allowed, three invocations at most. *)
Lemma X2_three_invocations_example :
  ∃ evs, events third_time_lucky.2 = events start ++ evs ∧
         (invocations evs ≤ 3)%nat.
Proof.
  destruct (X2_retry_invocations_bounded
              (retry_sync (scripted [Ok bad_answer; Ok bad_answer;
                                     Ok good_answer])
                          (Some UserDetail) None request 2 None TOOLS)
              (scripted [Ok bad_answer; Ok bad_answer; Ok good_answer])
              (Some UserDetail) None request 2 None TOOLS start
              third_time_lucky.1 third_time_lucky.2)
    as (evs & Hevs & Hbound);
    [by left|apply surjective_pairing|].
  exists evs. split; [exact Hevs|exact Hbound].
Defined.

(** A first answer that parses ends the call, however many retries are
    allowed. *)
Lemma X3_accepted_answer_example :
  ∃ model,
    retry_sync (scripted [Ok good_answer]) (Some UserDetail) None request 3
               None TOOLS start
    = (Ok (Returned (WithRaw model good_answer)),
       World (lists start) (dicts start)
             (events start ++ [Called (Ok good_answer); Handed good_answer])).
Proof.
  exists {| payload := JObj [("name", JStr "x"); ("age", JInt 5)];
            tasks := None |}.
  destruct (X3_accepted_answer_ends_the_call
              (scripted [Ok good_answer]) (Some UserDetail) None request 3
              None TOOLS good_answer
              (WithRaw {| payload := JObj [("name", JStr "x");
                                           ("age", JInt 5)];
                          tasks := None |} good_answer))
    as [_ Hcall].
  destruct (Hcall start) as [Hsync _];
    [done|vm_compute; reflexivity|intros w1; vm_compute; reflexivity|].
  exact Hsync.
Defined.

Lemma X4_minus_one_example :
  retry_sync (scripted [Ok good_answer]) (Some UserDetail) None request (-1)
             None TOOLS start
  = (Ok ReturnedNone, start).
Proof.
  destruct (X4_negative_max_retries
              (scripted [Ok good_answer]) (Some UserDetail) None request (-1)
              None TOOLS start) as [Hsync _]; [done|].
  exact Hsync.
Defined.

(** A transport that raises the ValidationError itself. *)
Lemma X5_transport_validation_error_example :
  retry_sync (scripted [Raise missing_age]) (Some UserDetail) None request 1
             None TOOLS start
  = (Raise (UnboundLocalError "response"),
     World (lists start) (dicts start)
           (events start ++ [Called (Raise missing_age)])).
Proof.
  destruct (X5_transport_validation_error_is_masked
              (scripted [Raise missing_age]) (Some UserDetail) None request 1
              None TOOLS start missing_age) as [Hsync _];
    [done|vm_compute; reflexivity|reflexivity|].
  exact Hsync.
Defined.

Lemma X6_pass_through_example :
  new_chatcompletion_sync (scripted [Ok good_answer]) TOOLS None None 1
                          request start
  = (Ok (Returned (RawResponse good_answer)),
     World (lists start) (dicts start)
           (events start ++ [Called (Ok good_answer); Handed good_answer])).
Proof.
  destruct (X6_no_response_model_is_pass_through
              (scripted [Ok good_answer]) TOOLS None 1 request start
              good_answer) as [Hsync _];
    [done|vm_compute; reflexivity|].
  exact Hsync.
Defined.

(** In TOOLS mode the tool-result turn of an answer without a tool call
    cannot be built, and the conversation is as it was. *)
Lemma X7_corrective_turns_example :
  (reask sync_wording request TOOLS (Some content_answer) missing_age start).1
  = Raise TypeError ∧
  (reask sync_wording request TOOLS (Some content_answer) missing_age start).2
  = start.
Proof.
  split; [vm_compute; reflexivity|].
  apply (X7_corrective_turns_all_or_nothing sync_wording request TOOLS
           (Some content_answer) missing_age TypeError start).
  vm_compute. reflexivity.
Defined.

Lemma X8_tools_mode_example :
  retry_sync (scripted [Ok content_answer]) (Some UserDetail) None request 1
             None TOOLS start
  = (Raise TypeError,
     World (lists start) (dicts start)
           (events start ++ [Called (Ok content_answer);
                             Handed content_answer])).
Proof.
  exact (X8_tools_mode_without_tool_call sync_wording
           (scripted [Ok content_answer]) (Some UserDetail) None request 1
           None 2 0 CompletionUsage.zero None start 1%positive
           (Choice.mk (ChatCompletionMessage.mk "assistant" (Some "{name: x}")
                                                None None))
           [] (Some usage_10_5_15) missing_age
           ltac:(done) ltac:(vm_compute; reflexivity)
           ltac:(vm_compute; reflexivity) eq_refl
           ltac:(intros w1; vm_compute; reflexivity) eq_refl).
Defined.

(** ** The handlers *)

(** [stream=True] with a model that is not iterable: the provider is not
    called. *)
Lemma X9_refused_request_example :
  wrap_chatcompletion false (scripted [Ok good_answer]) TOOLS
                      (Some UserDetail) None 1 streaming_request start
  = (Raise (NotImplementedError
              "stream=True is not supported when using response_model parameter for non-iterables"),
     start).
Proof.
  destruct (X9_refused_request_never_reaches_the_provider
              (H:=Sample.runtime) false (scripted [Ok good_answer]) TOOLS
              (Some UserDetail) None 1 streaming_request start
              (NotImplementedError
                 "stream=True is not supported when using response_model parameter for non-iterables")
              start) as [Hcall _];
    [vm_compute; reflexivity|].
  exact Hcall.
Defined.

Lemma X10_streaming_request_example :
  ProcessResponse.handle_response_model (Some UserDetail) TOOLS
                                        streaming_request start
  = (Raise (NotImplementedError
              "stream=True is not supported when using response_model parameter for non-iterables"),
     start) ∧
  ProcessResponse.handle_response_model (Some UserDetail) PARALLEL_TOOLS
                                        streaming_request start
  = (Raise (AssertionError
              "stream=True is not supported when using PARALLEL_TOOLS mode"),
     start) ∧
  Patch.handle_response_model (Some UserDetail) request PARALLEL_TOOLS start
  = (Ok (Some UserDetail,
         <["tool_choice" := VStr "auto"]>
           (<["tools" := VJson (handle_parallel_model UserDetail)]> request)),
     start).
Proof.
  destruct (X10_stream_guards (H:=Sample.runtime) UserDetail TOOLS
              streaming_request start) as (Hguard & _ & Hrefused).
  destruct (X10_stream_guards (H:=Sample.runtime) UserDetail TOOLS
              request start) as (_ & Haccepted & _).
  split; [|split].
  - destruct Hguard as [_ Hnew]; [done|vm_compute; reflexivity|].
    apply Hnew. reflexivity.
  - destruct Hrefused as [_ Hnew]; [vm_compute; discriminate|exact Hnew].
  - destruct Haccepted as [Hold _]; [vm_compute; reflexivity|exact Hold].
Defined.

(** In TOOLS mode the request gains [tools] and [tool_choice] and keeps
    its conversation. *)
Lemma X11_tool_modes_example :
  (ProcessResponse.handle_response_model (Some UserDetail) TOOLS request
                                         start).2
  = start ∧
  ∀ response_model new_kwargs,
    (ProcessResponse.handle_response_model (Some UserDetail) TOOLS request
                                           start).1
    = Ok (response_model, new_kwargs) →
    new_kwargs !! "messages" = request !! "messages".
Proof.
  destruct (X11_tool_modes_leave_the_conversation_alone
              (H:=Sample.runtime) UserDetail TOOLS request start
              (ProcessResponse.handle_response_model
                 (H:=Sample.runtime) (Some UserDetail) TOOLS request start).1
              (ProcessResponse.handle_response_model
                 (H:=Sample.runtime) (Some UserDetail) TOOLS request start).2)
    as [Hstore Hkeys].
  { left. split; [|apply surjective_pairing].
    rewrite !elem_of_cons. auto. }
  split; [exact Hstore|].
  intros response_model new_kwargs E.
  apply (Hkeys response_model new_kwargs "messages" E).
  rewrite !elem_of_cons, elem_of_nil. intros [Heq|[Heq|[Heq|[Heq|[]]]]];
    discriminate Heq.
Defined.

(** A request without [messages]. *)
Lemma X12_missing_messages_example :
  ProcessResponse.handle_response_model (Some UserDetail) JSON ∅ empty_world
  = (Raise (KeyError "messages"), empty_world) ∧
  Patch.handle_response_model (Some UserDetail) ∅ JSON empty_world
  = (Raise (KeyError "messages"), empty_world).
Proof.
  destruct (X12_missing_messages_is_a_KeyError (H:=Sample.runtime) UserDetail
              JSON ∅ empty_world) as [Hnew Hold]; [reflexivity|].
  split.
  - apply Hnew.
    + rewrite !elem_of_cons. auto.
    + intros Heq. discriminate Heq.
    + exists false. split; reflexivity.
  - apply (Hold user_instruction).
    + by left.
    + exists false. split; reflexivity.
    + vm_compute. reflexivity.
Defined.

(** An empty conversation. *)
Lemma X13_no_first_message_example :
  ProcessResponse.handle_response_model (Some UserDetail) JSON request
                                        (world_of [])
  = (Raise IndexError, world_of []) ∧
  ∃ w',
    Patch.handle_response_model (Some UserDetail) request MD_JSON (world_of [])
    = (Ok (Some UserDetail, <["stop" := VStr "```"]> request), w') ∧
    view w' 1%positive
    = Some [Msg.plain "system"
              (user_instruction +:+ nl +:+ nl +:+ user_instruction);
            md_json_opening].
Proof.
  destruct (X13_empty_conversation (H:=Sample.runtime) UserDetail JSON request
              (world_of []) 1%positive) as [Hnew Hold];
    [vm_compute; reflexivity|vm_compute; reflexivity|].
  split.
  - apply Hnew; [exists false; split; reflexivity|
                 rewrite !elem_of_cons; auto|].
    intros Heq. discriminate Heq.
  - destruct (Hold user_instruction) as [_ (w' & E & Hview)];
      [exists false; split; reflexivity|vm_compute; reflexivity|].
    exists w'. split; [exact E|exact Hview].
Defined.

Lemma X14_two_turn_history_example :
  ∃ new_kwargs,
    ProcessResponse.handle_response_model (Some UserDetail) COHERE_TOOLS
                                          request (world_of with_system)
    = (Ok (Some UserDetail, new_kwargs), world_of with_system) ∧
    new_kwargs !! "messages" = None ∧
    new_kwargs !! "chat_history"
    = Some (VJson (JArr [JObj [("role", JStr "system");
                               ("message", JStr "You extract users.")];
                         JObj [("role", JStr "user");
                               ("message", JStr "Extract `x is 5`")]])).
Proof.
  destruct (X14_cohere_chat_history (H:=Sample.runtime) UserDetail request
              (world_of with_system) with_system)
    as (nk & E & Hgone & _ & Hhistory & _).
  - exists false. split; reflexivity.
  - right. exists 1%positive. split; vm_compute; reflexivity.
  - exists nk. split; [exact E|]. split; [exact Hgone|exact Hhistory].
Defined.


(** [temperature=0.2] and [max_tokens=256] beside a configuration that
    sets [top_k] and another temperature. *)
Lemma X16_gemini_sampling_example :
  ∃ new_kwargs w' config,
    ProcessResponse.handle_response_model (Some UserDetail) GEMINI_JSON
                                          sampled_request start
    = (Ok (Some UserDetail, new_kwargs), w') ∧
    new_kwargs !! "generation_config" = Some (VDict config) ∧
    new_kwargs !! "temperature" = None ∧
    new_kwargs !! "max_tokens" = None ∧
    config !! "temperature" = Some (VFloat "0.2") ∧
    config !! "max_output_tokens" = Some (VInt 256) ∧
    config !! "top_k" = Some (VInt 40) ∧
    config !! "response_mime_type" = Some (VStr "application/json").
Proof.
  destruct (X16_gemini_sampling_parameters
              (H:=Sample.runtime) UserDetail sampled_request start 1%positive
              (Msg.plain "user" "Extract `x is 5`") []
              (Some {["top_k" := VInt 40; "temperature" := VFloat "0.9"]})
              None)
    as (nk & w' & config & E & Hcfg & Hmime & Hmoved & Hkept);
    [vm_compute; reflexivity|vm_compute; reflexivity|vm_compute; reflexivity|
     exists false; split; vm_compute; reflexivity|
     vm_compute; reflexivity|vm_compute; reflexivity|].
  exists nk, w', config. split; [exact E|]. split; [exact Hcfg|].
  destruct (Hmoved "temperature" "temperature") as [Hgone1 Hset1].
  { unfold ProcessResponse.map_openai_args_to_gemini.
    rewrite !elem_of_cons. auto. }
  destruct (Hmoved "max_tokens" "max_output_tokens") as [Hgone2 Hset2].
  { unfold ProcessResponse.map_openai_args_to_gemini.
    rewrite !elem_of_cons. auto. }
  split; [exact Hgone1|]. split; [exact Hgone2|].
  split; [rewrite Hset1; vm_compute; reflexivity|].
  split; [rewrite Hset2; vm_compute; reflexivity|].
  split; [|exact Hmime].
  rewrite Hkept; [vm_compute; reflexivity| |discriminate].
  unfold ProcessResponse.map_openai_args_to_gemini. simpl.
  rewrite !not_elem_of_cons. repeat split; try discriminate.
  apply not_elem_of_nil.
Defined.

(** ** The Vertex AI builders *)

Lemma X17_vertexai_json_example :
  ClientVertexAI.vertexai_process_json_response plain_text_request UserDetail
                                                start
  = (Raise TypeError, start) ∧
  ClientVertexAI.vertexai_process_json_response top_k_request UserDetail start
  = (Ok (ClientVertexAI._vertexai_message_list_parser conversation,
         VObject "GenerationConfig"
                 [("response_mime_type", VStr "application/json");
                  ("response_schema", VJson user_gemini_schema);
                  ("top_k", VInt 40)],
         ∅),
     start).
Proof.
  split.
  - destruct (X17_vertexai_json_generation_config
                (H:=Sample.runtime) UserDetail plain_text_request start
                1%positive conversation user_gemini_schema) as [Hdup _];
      [vm_compute; reflexivity|vm_compute; reflexivity|
       vm_compute; reflexivity|].
    apply (Hdup {["response_mime_type" := VStr "text/plain"]});
      [vm_compute; reflexivity|].
    left. vm_compute. eexists. reflexivity.
  - destruct (X17_vertexai_json_generation_config
                (H:=Sample.runtime) UserDetail top_k_request start
                1%positive conversation user_gemini_schema) as [_ Hok];
      [vm_compute; reflexivity|vm_compute; reflexivity|
       vm_compute; reflexivity|].
    rewrite (Hok (Some {["top_k" := VInt 40]}));
      vm_compute; reflexivity.
Defined.

Lemma X18_vertexai_tools_example :
  ∃ new_kwargs,
    ProcessResponse.handle_response_model (Some UserDetail) VERTEXAI_TOOLS
                                          request start
    = (Ok (Some UserDetail, new_kwargs), start) ∧
    new_kwargs !! "messages" = None ∧
    new_kwargs !! "contents"
    = Some (VSeq [VObject "Content"
                    [("role", VStr "user");
                     ("parts",
                      VSeq [VObject "Part.from_text"
                                    [("text", VStr "Extract `x is 5`")]])]]) ∧
    new_kwargs !! "tools" = Some (VSeq [user_tool]).
Proof.
  destruct (X18_vertexai_tools_request (H:=Sample.runtime) UserDetail request
              start 1%positive conversation user_tool)
    as (nk & E & Hgone & Hcontents & Htools & _);
    [vm_compute; reflexivity|vm_compute; reflexivity|
     exists false; split; vm_compute; reflexivity|vm_compute; reflexivity|].
  exists nk. split; [exact E|]. split; [exact Hgone|].
  split; [exact Hcontents|exact Htools].
Defined.

(** ** patch.py: a refused request *)

(** JSON mode on an empty conversation: the request is refused and the
    store is as it was. *)
Lemma X19_patch_handler_example :
  (Patch.handle_response_model (Some UserDetail) request JSON (world_of [])).1
  = Raise IndexError ∧
  (Patch.handle_response_model (Some UserDetail) request JSON (world_of [])).2
  = world_of [].
Proof.
  split; [vm_compute; reflexivity|].
  apply (X19_patch_handler_fails_without_a_trace
           (H:=Sample.runtime) (Some UserDetail) request JSON (world_of [])
           IndexError).
  - intros l Hl. injection Hl as <-. exists []. vm_compute. reflexivity.
  - vm_compute. reflexivity.
Defined.

End more_examples.
